(** * FlightManagement: the flight records store of [main.py]

    A shallow embedding of [class DBOperations] and of the part of the
    Python and SQLite libraries it relies on:

    - [datetime.datetime.strptime] and [strftime] for the one format the
      program uses, ["%Y-%m-%d %H:%M"] in and ["%Y-%m-%d %H:%M:%S"] out;
    - the four tables of the database file, with the constraints of the
      [CREATE TABLE] statements as SQLite enforces them on a connection
      opened by [sqlite3.connect] with its default settings;
    - the connection of [self.conn]: statements work on the connection's
      view of the file, [commit] publishes it, [close] drops what was not
      committed;
    - every method of [DBOperations] that writes to the file, and the
      queries the stated properties mention.

    Console text is ASCII: a [string] is the line [input()] returned. *)

From Stdlib Require Import String Ascii ZArith List Bool Arith Lia Permutation.
From Stdlib Require Import DecimalString Sorted ZifyNat.
Import ListNotations.

Set Warnings "-abstract-large-number".

Local Open Scope string_scope.
Local Open Scope list_scope.
Local Open Scope nat_scope.

(* ===================================================================== *)
(** ** Dates and times: [datetime.datetime] *)
(* ===================================================================== *)

Module Datetime.

(** A [datetime.datetime] value, without microseconds and time zone, which
    the program never reads. *)
Record datetime : Type := mkDatetime {
  year : nat; month : nat; day : nat;
  hour : nat; minute : nat; second : nat
}.

Definition is_digit (c : ascii) : bool :=
  (48 <=? nat_of_ascii c) && (nat_of_ascii c <=? 57).

Definition digit_val (c : ascii) : nat := nat_of_ascii c - 48.

Definition digit_char (n : nat) : ascii := ascii_of_nat (48 + n).

(** [c] is a digit between the digits [lo] and [hi], the class [[lo-hi]]
    of a regular expression. *)
Definition in_range (lo hi : nat) (c : ascii) : bool :=
  is_digit c && (lo <=? digit_val c) && (digit_val c <=? hi).

(** The class [\s] on ASCII text: space, tab, line feed, vertical tab, form
    feed, carriage return and the four separators 28 to 31. *)
Definition is_space (c : ascii) : bool :=
  let n := nat_of_ascii c in
  (n =? 32) || ((9 <=? n) && (n <=? 13)) || ((28 <=? n) && (n <=? 31)).

Definition is_leap (y : nat) : bool :=
  (y mod 4 =? 0) && (negb (y mod 100 =? 0) || (y mod 400 =? 0)).

Definition days_in_month (y m : nat) : nat :=
  match m with
  | 2 => if is_leap y then 29 else 28
  | 4 | 6 | 9 | 11 => 30
  | _ => 31
  end.

(** What the constructor [datetime.datetime(year, month, day, hour, minute)]
    accepts; anything else is a [ValueError]. *)
Definition valid_datetime (dt : datetime) : bool :=
  (1 <=? year dt) && (year dt <=? 9999) &&
  (1 <=? month dt) && (month dt <=? 12) &&
  (1 <=? day dt) && (day dt <=? days_in_month (year dt) (month dt)) &&
  (hour dt <=? 23) && (minute dt <=? 59) && (second dt <=? 59).

(** *** The directives of [_strptime]

    [strptime] turns the format into one regular expression and matches it
    at the start of the text.  Each directive below returns the number read
    and the rest of the text.  The alternatives of a directive are tried in
    the order of the expression; the character after a directive is never a
    digit in this format (["-"], white space, [":"] or the end), so the
    first alternative that matches is the only one that can. *)

(** [%Y] is [\d\d\d\d]. *)
Definition re_Y (s : list ascii) : option (nat * list ascii) :=
  match s with
  | a :: b :: c :: d :: rest =>
      if is_digit a && is_digit b && is_digit c && is_digit d
      then Some (1000 * digit_val a + 100 * digit_val b
                 + 10 * digit_val c + digit_val d, rest)
      else None
  | _ => None
  end.

(** [%m] is [1[0-2]|0[1-9]|[1-9]]. *)
Definition re_m (s : list ascii) : option (nat * list ascii) :=
  match s with
  | a :: rest =>
      match rest with
      | b :: rest' =>
          if in_range 1 1 a && in_range 0 2 b
          then Some (10 + digit_val b, rest')
          else if in_range 0 0 a && in_range 1 9 b
          then Some (digit_val b, rest')
          else if in_range 1 9 a then Some (digit_val a, rest)
          else None
      | [] => if in_range 1 9 a then Some (digit_val a, rest) else None
      end
  | [] => None
  end.

(** [%d] is [3[0-1]|[1-2]\d|0[1-9]|[1-9]| [1-9]]. *)
Definition re_d (s : list ascii) : option (nat * list ascii) :=
  match s with
  | a :: rest =>
      match rest with
      | b :: rest' =>
          if in_range 3 3 a && in_range 0 1 b
          then Some (30 + digit_val b, rest')
          else if in_range 1 2 a && is_digit b
          then Some (10 * digit_val a + digit_val b, rest')
          else if in_range 0 0 a && in_range 1 9 b
          then Some (digit_val b, rest')
          else if in_range 1 9 a then Some (digit_val a, rest)
          else if (nat_of_ascii a =? 32) && in_range 1 9 b
          then Some (digit_val b, rest')
          else None
      | [] => if in_range 1 9 a then Some (digit_val a, rest) else None
      end
  | [] => None
  end.

(** [%H] is [2[0-3]|[0-1]\d|\d]. *)
Definition re_H (s : list ascii) : option (nat * list ascii) :=
  match s with
  | a :: rest =>
      match rest with
      | b :: rest' =>
          if in_range 2 2 a && in_range 0 3 b
          then Some (20 + digit_val b, rest')
          else if in_range 0 1 a && is_digit b
          then Some (10 * digit_val a + digit_val b, rest')
          else if is_digit a then Some (digit_val a, rest)
          else None
      | [] => if is_digit a then Some (digit_val a, rest) else None
      end
  | [] => None
  end.

(** [%M] is [[0-5]\d|\d]. *)
Definition re_M (s : list ascii) : option (nat * list ascii) :=
  match s with
  | a :: rest =>
      match rest with
      | b :: rest' =>
          if in_range 0 5 a && is_digit b
          then Some (10 * digit_val a + digit_val b, rest')
          else if is_digit a then Some (digit_val a, rest)
          else None
      | [] => if is_digit a then Some (digit_val a, rest) else None
      end
  | [] => None
  end.

(** A literal character of the format. *)
Definition re_lit (c : ascii) (s : list ascii) : option (list ascii) :=
  match s with
  | a :: rest => if Ascii.eqb a c then Some rest else None
  | [] => None
  end.

Fixpoint skip_spaces (s : list ascii) : list ascii :=
  match s with
  | a :: rest => if is_space a then skip_spaces rest else s
  | [] => []
  end.

(** White space in a format stands for [\s+]: one white-space character or
    more.  What follows it here starts with a digit, so all of them go. *)
Definition re_spaces (s : list ascii) : option (list ascii) :=
  match s with
  | a :: rest => if is_space a then Some (skip_spaces rest) else None
  | [] => None
  end.

(** The fields the expression of ["%Y-%m-%d %H:%M"] captures, and the text
    left after the match. *)
Definition match_format (s : list ascii)
  : option (nat * nat * nat * nat * nat * list ascii) :=
  match re_Y s with None => None | Some (y, s1) =>
  match re_lit "-" s1 with None => None | Some s2 =>
  match re_m s2 with None => None | Some (mo, s3) =>
  match re_lit "-" s3 with None => None | Some s4 =>
  match re_d s4 with None => None | Some (d, s5) =>
  match re_spaces s5 with None => None | Some s6 =>
  match re_H s6 with None => None | Some (h, s7) =>
  match re_lit ":" s7 with None => None | Some s8 =>
  match re_M s8 with None => None | Some (mi, s9) =>
  Some (y, mo, d, h, mi, s9)
  end end end end end end end end end.

(** [datetime.datetime.strptime(text, "%Y-%m-%d %H:%M")]: [None] is the
    [ValueError] raised when the text does not match the format, when text
    remains after the match, or when the fields are no date (year 0, a day
    the month does not have). *)
Definition strptime (text : string) : option datetime :=
  match match_format (list_ascii_of_string text) with
  | Some (y, mo, d, h, mi, []) =>
      let dt := mkDatetime y mo d h mi 0 in
      if valid_datetime dt then Some dt else None
  | _ => None
  end.

Definition pad2 (n : nat) : list ascii :=
  [digit_char (n / 10 mod 10); digit_char (n mod 10)].

Definition pad4 (n : nat) : list ascii :=
  [digit_char (n / 1000 mod 10); digit_char (n / 100 mod 10);
   digit_char (n / 10 mod 10); digit_char (n mod 10)].

(** [%Y] of [strftime].  CPython hands the directive to the C library,
    and glibc prints the year in decimal without leading zeros:
    [datetime(999, 1, 1).strftime("%Y")] is ["999"] on CPython 3.11 with
    glibc.  From the year 1000 on these are the four digits of the year.
    (A [datetime] has a year from 1 to 9999.) *)
Definition year_digits (y : nat) : list ascii :=
  skipn (if y <? 10 then 3 else if y <? 100 then 2
         else if y <? 1000 then 1 else 0)
    (pad4 y).

(** [dt.strftime("%Y-%m-%d %H:%M:%S")]: the year as [%Y] prints it, every
    other field zero-padded to two digits. *)
Definition strftime (dt : datetime) : string :=
  string_of_list_ascii
    (year_digits (year dt) ++ "-"%char :: pad2 (month dt) ++ "-"%char ::
     pad2 (day dt) ++ " "%char :: pad2 (hour dt) ++ ":"%char ::
     pad2 (minute dt) ++ ":"%char :: pad2 (second dt)).

(** The shape [YYYY-MM-DD HH:MM] read letter by letter: sixteen characters,
    a digit for every letter and the punctuation in place. *)
Definition shape_YYYY_MM_DD_HH_MM (text : string) : bool :=
  match list_ascii_of_string text with
  | [y1; y2; y3; y4; s1; m1; m2; s2; d1; d2; s3; h1; h2; s4; n1; n2] =>
      is_digit y1 && is_digit y2 && is_digit y3 && is_digit y4 &&
      Ascii.eqb s1 "-" && is_digit m1 && is_digit m2 &&
      Ascii.eqb s2 "-" && is_digit d1 && is_digit d2 &&
      Ascii.eqb s3 " " && is_digit h1 && is_digit h2 &&
      Ascii.eqb s4 ":" && is_digit n1 && is_digit n2
  | _ => false
  end.

(** The shape [YYYY-MM-DD HH:MM:SS]: a year of four digits, and
    seconds. *)
Definition shape_with_seconds (text : string) : bool :=
  match list_ascii_of_string text with
  | [y1; y2; y3; y4; s1; m1; m2; s2; d1; d2; s3; h1; h2; s4; n1; n2;
     s5; c1; c2] =>
      is_digit y1 && is_digit y2 && is_digit y3 && is_digit y4 &&
      Ascii.eqb s1 "-" && is_digit m1 && is_digit m2 &&
      Ascii.eqb s2 "-" && is_digit d1 && is_digit d2 &&
      Ascii.eqb s3 " " && is_digit h1 && is_digit h2 &&
      Ascii.eqb s4 ":" && is_digit n1 && is_digit n2 &&
      Ascii.eqb s5 ":" && is_digit c1 && is_digit c2
  | _ => false
  end.

(** What follows the year in a stored timestamp: [-MM-DD HH:MM:SS]. *)
Definition shape_after_year (l : list ascii) : bool :=
  match l with
  | [s1; m1; m2; s2; d1; d2; s3; h1; h2; s4; n1; n2; s5; c1; c2] =>
      Ascii.eqb s1 "-" && is_digit m1 && is_digit m2 &&
      Ascii.eqb s2 "-" && is_digit d1 && is_digit d2 &&
      Ascii.eqb s3 " " && is_digit h1 && is_digit h2 &&
      Ascii.eqb s4 ":" && is_digit n1 && is_digit n2 &&
      Ascii.eqb s5 ":" && is_digit c1 && is_digit c2
  | _ => false
  end.

Fixpoint skip_digits (l : list ascii) : list ascii :=
  match l with
  | c :: rest => if is_digit c then skip_digits rest else l
  | [] => []
  end.

(** The shape of a timestamp with seconds whatever the width of the
    year: one digit or more, then [-MM-DD HH:MM:SS]. *)
Definition shape_year_with_seconds (text : string) : bool :=
  match list_ascii_of_string text with
  | c :: rest => is_digit c && shape_after_year (skip_digits rest)
  | [] => false
  end.

(** A text without the zeros its year starts with, the last digit of the
    year apart: ["0999-01-01 10:00"] becomes ["999-01-01 10:00"]. *)
Definition without_leading_zeros (text : string) : string :=
  match list_ascii_of_string text with
  | a :: b :: c :: rest =>
      if negb (Ascii.eqb a "0") then text
      else if negb (Ascii.eqb b "0")
      then string_of_list_ascii (b :: c :: rest)
      else if negb (Ascii.eqb c "0") then string_of_list_ascii (c :: rest)
      else string_of_list_ascii rest
  | _ => text
  end.

End Datetime.

Import Datetime.

(** [text.strip()]: white space removed at both ends. *)
Definition strip (text : string) : string :=
  string_of_list_ascii
    (rev (skip_spaces (rev (skip_spaces (list_ascii_of_string text))))).

(* ===================================================================== *)
(** ** The database file: four tables *)
(* ===================================================================== *)

(** One record per table, one field per column, named as the queries of the
    program name them ([p.pilot_id], [d.city], [f.status],
    [pa.flight_id]).  An [INTEGER] column holds a [Z], a [TEXT] or
    [DATETIME] column the text that was bound to it: the program binds
    timestamps as text that is no number, so the numeric affinity of
    [DATETIME] leaves them text.  No statement of the program binds
    [NULL], so no column holds it. *)

Record pilot : Type := mkPilot {
  p_pilot_id : Z;
  p_name : string;
  p_license_id : string;
  p_years_experience : Z
}.

Record destination : Type := mkDestination {
  d_destination_id : Z;
  d_city : string;
  d_country : string;
  d_airport_code : string
}.

Record flight : Type := mkFlight {
  f_flight_id : Z;
  f_flight_number : string;
  f_origin_id : Z;
  f_destination_id : Z;
  f_departure_time : string;
  f_status : string
}.

Record assignment : Type := mkAssignment {
  pa_assignment_id : Z;
  pa_flight_id : Z;
  pa_pilot_id : Z;
  pa_assignment_date : string
}.

(** The content of [FlightManagement.db].  A table is the list of its rows
    in the order of insertion. *)
Record database : Type := mkDatabase {
  pilots : list pilot;
  destinations : list destination;
  flights : list flight;
  pilot_assignments : list assignment
}.

(** The file after [__init__] has created the tables. *)
Definition empty_database : database := mkDatabase [] [] [] [].

Definition set_pilots (t : list pilot) (db : database) : database :=
  mkDatabase t (destinations db) (flights db) (pilot_assignments db).

Definition set_destinations (t : list destination) (db : database)
  : database :=
  mkDatabase (pilots db) t (flights db) (pilot_assignments db).

Definition set_flights (t : list flight) (db : database) : database :=
  mkDatabase (pilots db) (destinations db) t (pilot_assignments db).

Definition set_pilot_assignments (t : list assignment) (db : database)
  : database :=
  mkDatabase (pilots db) (destinations db) (flights db) t.

(* ===================================================================== *)
(** ** Exceptions and console output *)
(* ===================================================================== *)

(** The constraint an [sqlite3.IntegrityError] names. *)
Inductive constraint : Type :=
| CHECK_status
| CHECK_origin_destination
| UNIQUE_license_id
| UNIQUE_city_airport_code
| UNIQUE_flight_pilot
| FOREIGN_KEY.

Inductive exn : Type :=
| ValueError
| OverflowError
| IntegrityError (c : constraint).

(** A line the program prints.  [Text] is a literal; the other lines carry
    the values an f-string formats. *)
Inductive line : Type :=
| Text (s : string)
| Failure (prefix : string) (e : exn)
| DestinationLine (d : destination)
| FlightLine (flight_id : Z) (flight_number origin destination : string)
| PilotLine (pilot_id : Z) (name : string) (years_experience : Z)
| FlightMissing (flight_id : Z)
| PilotMissing (pilot_id : Z)
| CannotDelete (assignment_count : nat)
| PilotRecord (p : pilot)
| DestinationRecord (d : destination)
| SummaryRecord (pilot_id : Z) (name license_id : string)
                (flight_count upcoming_flights : nat).

(* ===================================================================== *)
(** ** The object [self]: a connection on the file, and the console *)
(* ===================================================================== *)

(** [file] is what is committed; [conn] is what the open connection sees,
    the file and the statements of the connection not yet committed;
    [rowcount] is [self.cur.rowcount]; [stdout] is what was printed. *)
Record world : Type := mkWorld {
  file : database;
  conn : database;
  rowcount : Z;
  stdout : list line
}.

(** How a block of statements ends: with a value, with an exception, or
    with the [return] of the method. *)
Inductive result (A : Type) : Type :=
| Val (a : A)
| Raise (e : exn)
| Return.

Arguments Val {A} a.
Arguments Raise {A} e.
Arguments Return {A}.

Definition M (A : Type) : Type := world -> result A * world.

Definition ret {A} (a : A) : M A := fun w => (Val a, w).

Definition bind {A B} (m : M A) (k : A -> M B) : M B :=
  fun w =>
    match m w with
    | (Val a, w') => k a w'
    | (Raise e, w') => (Raise e, w')
    | (Return, w') => (Return, w')
    end.

Declare Scope py_scope.
Delimit Scope py_scope with py.
Notation "x <- m ;; k" := (bind m (fun x => k))
  (at level 61, m at next level, right associativity) : py_scope.
Notation "m ;; k" := (bind m (fun _ => k))
  (at level 61, right associativity) : py_scope.
Local Open Scope py_scope.

Definition raise {A} (e : exn) : M A := fun w => (Raise e, w).

(** The statement [return]. *)
Definition return_ {A} : M A := fun w => (Return, w).

Definition print (l : line) : M unit :=
  fun w => (Val tt, mkWorld (file w) (conn w) (rowcount w) (stdout w ++ [l])).

Definition print_all (ls : list line) : M unit :=
  fun w => (Val tt, mkWorld (file w) (conn w) (rowcount w) (stdout w ++ ls)).

(** [try: body except Exception as e: handler e]. *)
Definition try_except {A} (body : M A) (handler : exn -> M A) : M A :=
  fun w =>
    match body w with
    | (Raise e, w') => handler e w'
    | r => r
    end.

(** [try: body except ValueError: handler]. *)
Definition try_except_ValueError {A} (body : M A) (handler : M A) : M A :=
  fun w =>
    match body w with
    | (Raise ValueError, w') => handler w'
    | r => r
    end.

(** [try: body finally: final]; [final] never raises here. *)
Definition try_finally {A} (body : M A) (final : M unit) : M A :=
  fun w =>
    match body w with
    | (r, w') => (r, snd (final w'))
    end.

(** [get_connection]: a new connection and a new cursor.  A connection
    starts from the committed file; the work of a connection that is
    dropped without commit is lost. *)
Definition get_connection : M unit :=
  fun w => (Val tt, mkWorld (file w) (file w) (-1) (stdout w)).

Definition commit : M unit :=
  fun w => (Val tt, mkWorld (conn w) (conn w) (rowcount w) (stdout w)).

(** [self.conn.close()]: what was not committed is rolled back. *)
Definition close : M unit :=
  fun w => (Val tt, mkWorld (file w) (file w) (rowcount w) (stdout w)).

(** [self.cur.execute] of a statement that writes: the statement either
    fails as a whole, or changes the connection's view and sets
    [rowcount]. *)
Definition execute (stmt : database -> exn + database * Z) : M unit :=
  fun w =>
    match stmt (conn w) with
    | inl e => (Raise e, w)
    | inr (db, n) => (Val tt, mkWorld (file w) db n (stdout w))
    end.

(** [self.cur.execute] of a [SELECT] followed by [fetchall] or
    [fetchone]. *)
Definition query {A} (q : database -> A) : M A :=
  fun w => (Val (q (conn w)), mkWorld (file w) (conn w) (-1) (stdout w)).

Definition get_rowcount : M Z := fun w => (Val (rowcount w), w).

(** One call of a method on a fresh [DBOperations()], as the menu loop
    makes it: what it printed and the file it left. *)
Definition run (method : M unit) (db : database) : list line * database :=
  let w := snd (method (mkWorld db db (-1) [])) in (stdout w, file w).

(* ===================================================================== *)
(** ** The statements of the program, as SQLite runs them *)
(* ===================================================================== *)

(** A Python [int] bound to a parameter must fit SQLite's 64-bit integer;
    otherwise binding raises [OverflowError]. *)
Definition fits_int64 (z : Z) : bool :=
  ((- 2 ^ 63 <=? z) && (z <=? 2 ^ 63 - 1))%Z.

(** The key an [INSERT] gives a row of a table with an
    [INTEGER PRIMARY KEY] when the statement names no key: one more than
    the largest key in the table, 1 in an empty table.  (At the largest
    64-bit key SQLite picks an unused key at random; a table filled by
    this program does not get there.) *)
Definition next_rowid (ids : list Z) : Z :=
  match ids with
  | [] => 1%Z
  | i :: rest => (fold_right Z.max i rest + 1)%Z
  end.

(** [FOREIGN KEY] clauses are enforced on a connection only after
    [PRAGMA foreign_keys = ON]; a connection opens with it off and the
    program never issues it. *)
Definition pragma_foreign_keys : bool := false.

(** The values of [CHECK (status IN (...))]. *)
Definition status_values : list string :=
  ["Scheduled"; "Cancelled"; "Departed"; "Arrived"; "Delayed"; "Boarding";
   "In Flight"].

Definition status_allowed (status : string) : bool :=
  existsb (String.eqb status) status_values.

Definition destination_exists (id : Z) (db : database) : bool :=
  existsb (fun d => (d_destination_id d =? id)%Z) (destinations db).

Definition flight_exists (id : Z) (db : database) : bool :=
  existsb (fun f => (f_flight_id f =? id)%Z) (flights db).

Definition pilot_exists (id : Z) (db : database) : bool :=
  existsb (fun p => (p_pilot_id p =? id)%Z) (pilots db).

(** [sql_insert_pilot]. *)
Definition insert_pilot (name license_id : string) (years_experience : Z)
    (db : database) : exn + database * Z :=
  if negb (fits_int64 years_experience) then inl OverflowError
  else if existsb (fun p => String.eqb (p_license_id p) license_id)
            (pilots db)
  then inl (IntegrityError UNIQUE_license_id)
  else inr (set_pilots
              (pilots db ++
               [mkPilot (next_rowid (map p_pilot_id (pilots db)))
                  name license_id years_experience]) db, 1%Z).

(** [sql_insert_destination]. *)
Definition insert_destination (city country airport_code : string)
    (db : database) : exn + database * Z :=
  if existsb (fun d => String.eqb (d_city d) city &&
                       String.eqb (d_airport_code d) airport_code)
       (destinations db)
  then inl (IntegrityError UNIQUE_city_airport_code)
  else inr (set_destinations
              (destinations db ++
               [mkDestination
                  (next_rowid (map d_destination_id (destinations db)))
                  city country airport_code]) db, 1%Z).

(** [sql_insert_flight]. *)
Definition insert_flight (flight_number : string)
    (origin_id destination_id : Z) (departure_time status : string)
    (db : database) : exn + database * Z :=
  if negb (fits_int64 origin_id && fits_int64 destination_id)
  then inl OverflowError
  else if negb (status_allowed status)
  then inl (IntegrityError CHECK_status)
  else if (origin_id =? destination_id)%Z
  then inl (IntegrityError CHECK_origin_destination)
  else if pragma_foreign_keys &&
          negb (destination_exists origin_id db &&
                destination_exists destination_id db)
  then inl (IntegrityError FOREIGN_KEY)
  else inr (set_flights
              (flights db ++
               [mkFlight (next_rowid (map f_flight_id (flights db)))
                  flight_number origin_id destination_id departure_time
                  status]) db, 1%Z).

(** [sql_insert_assignment]. *)
Definition insert_assignment (flight_id pilot_id : Z)
    (assignment_date : string) (db : database) : exn + database * Z :=
  if negb (fits_int64 flight_id && fits_int64 pilot_id)
  then inl OverflowError
  else if existsb (fun a => (pa_flight_id a =? flight_id)%Z &&
                            (pa_pilot_id a =? pilot_id)%Z)
            (pilot_assignments db)
  then inl (IntegrityError UNIQUE_flight_pilot)
  else if pragma_foreign_keys &&
          negb (flight_exists flight_id db && pilot_exists pilot_id db)
  then inl (IntegrityError FOREIGN_KEY)
  else inr (set_pilot_assignments
              (pilot_assignments db ++
               [mkAssignment
                  (next_rowid (map pa_assignment_id (pilot_assignments db)))
                  flight_id pilot_id assignment_date]) db, 1%Z).

Definition count_rows {R} (hit : R -> bool) (t : list R) : Z :=
  Z.of_nat (length (filter hit t)).

Definition has_flight_number (flight_number : string) (f : flight) : bool :=
  String.eqb (f_flight_number f) flight_number.

Definition set_departure_time (v : string) (f : flight) : flight :=
  mkFlight (f_flight_id f) (f_flight_number f) (f_origin_id f)
    (f_destination_id f) v (f_status f).

Definition set_status (v : string) (f : flight) : flight :=
  mkFlight (f_flight_id f) (f_flight_number f) (f_origin_id f)
    (f_destination_id f) (f_departure_time f) v.

(** [UPDATE flights SET departure_time = ? WHERE flight_number = ?]. *)
Definition update_departure_time (new_time flight_number : string)
    (db : database) : exn + database * Z :=
  inr (set_flights
         (map (fun f => if has_flight_number flight_number f
                        then set_departure_time new_time f else f)
            (flights db)) db,
       count_rows (has_flight_number flight_number) (flights db)).

(** [UPDATE flights SET status = ? WHERE flight_number = ?]: the [CHECK] on
    [status] is evaluated for each row the statement changes. *)
Definition update_status (new_status flight_number : string)
    (db : database) : exn + database * Z :=
  if existsb (has_flight_number flight_number) (flights db) &&
     negb (status_allowed new_status)
  then inl (IntegrityError CHECK_status)
  else inr (set_flights
              (map (fun f => if has_flight_number flight_number f
                             then set_status new_status f else f)
                 (flights db)) db,
            count_rows (has_flight_number flight_number) (flights db)).

(** An [UPDATE] under a [UNIQUE] constraint goes row by row: a changed row
    must not [clash] with any other row of the table as it stands then. *)
Fixpoint update_rows {R} (hit : R -> bool) (change : R -> R)
    (clash : R -> R -> bool) (done todo : list R) : option (list R) :=
  match todo with
  | [] => Some done
  | r :: rest =>
      if hit r
      then if existsb (clash (change r)) (done ++ rest) then None
           else update_rows hit change clash (done ++ [change r]) rest
      else update_rows hit change clash (done ++ [r]) rest
  end.

(** One [column = ?] of the [SET] list of [UPDATE pilots], with the value
    bound to it. *)
Inductive pilot_update : Type :=
| Set_name (v : string)
| Set_license_id (v : string)
| Set_years_experience (v : Z).

Definition apply_pilot_update (p : pilot) (u : pilot_update) : pilot :=
  match u with
  | Set_name v =>
      mkPilot (p_pilot_id p) v (p_license_id p) (p_years_experience p)
  | Set_license_id v =>
      mkPilot (p_pilot_id p) (p_name p) v (p_years_experience p)
  | Set_years_experience v =>
      mkPilot (p_pilot_id p) (p_name p) (p_license_id p) v
  end.

Definition sets_license_id (u : pilot_update) : bool :=
  match u with Set_license_id _ => true | _ => false end.

Definition pilot_update_fits (u : pilot_update) : bool :=
  match u with Set_years_experience v => fits_int64 v | _ => true end.

(** [UPDATE pilots SET <updates> WHERE pilot_id = ?]. *)
Definition update_pilot (updates : list pilot_update) (pilot_id : Z)
    (db : database) : exn + database * Z :=
  if negb (forallb pilot_update_fits updates) then inl OverflowError
  else
    let hit := fun p => (p_pilot_id p =? pilot_id)%Z in
    let clash := fun p q =>
      existsb sets_license_id updates &&
      String.eqb (p_license_id p) (p_license_id q) in
    match update_rows hit (fun p => fold_left apply_pilot_update updates p)
            clash [] (pilots db) with
    | None => inl (IntegrityError UNIQUE_license_id)
    | Some t => inr (set_pilots t db, count_rows hit (pilots db))
    end.

(** One [column = ?] of the [SET] list of [UPDATE destinations]. *)
Inductive destination_update : Type :=
| Set_city (v : string)
| Set_country (v : string)
| Set_airport_code (v : string).

Definition apply_destination_update (d : destination)
    (u : destination_update) : destination :=
  match u with
  | Set_city v =>
      mkDestination (d_destination_id d) v (d_country d) (d_airport_code d)
  | Set_country v =>
      mkDestination (d_destination_id d) (d_city d) v (d_airport_code d)
  | Set_airport_code v =>
      mkDestination (d_destination_id d) (d_city d) (d_country d) v
  end.

Definition sets_city_or_code (u : destination_update) : bool :=
  match u with Set_country _ => false | _ => true end.

(** [UPDATE destinations SET <updates> WHERE destination_id = ?]. *)
Definition update_destination (updates : list destination_update)
    (destination_id : Z) (db : database) : exn + database * Z :=
  let hit := fun d => (d_destination_id d =? destination_id)%Z in
  let clash := fun d e =>
    existsb sets_city_or_code updates &&
    String.eqb (d_city d) (d_city e) &&
    String.eqb (d_airport_code d) (d_airport_code e) in
  match update_rows hit
          (fun d => fold_left apply_destination_update updates d)
          clash [] (destinations db) with
  | None => inl (IntegrityError UNIQUE_city_airport_code)
  | Some t => inr (set_destinations t db, count_rows hit (destinations db))
  end.

(** [DELETE FROM flights WHERE flight_number = ?]. *)
Definition delete_flights (flight_number : string) (db : database)
  : exn + database * Z :=
  let gone := filter (has_flight_number flight_number) (flights db) in
  if pragma_foreign_keys &&
     existsb (fun a => existsb (fun f => (f_flight_id f =? pa_flight_id a)%Z)
                         gone) (pilot_assignments db)
  then inl (IntegrityError FOREIGN_KEY)
  else inr (set_flights
              (filter (fun f => negb (has_flight_number flight_number f))
                 (flights db)) db,
            count_rows (has_flight_number flight_number) (flights db)).

(** [DELETE FROM pilot_assignments WHERE assignment_id = ?]. *)
Definition delete_assignment (assignment_id : Z) (db : database)
  : exn + database * Z :=
  inr (set_pilot_assignments
         (filter (fun a => negb (pa_assignment_id a =? assignment_id)%Z)
            (pilot_assignments db)) db,
       count_rows (fun a => (pa_assignment_id a =? assignment_id)%Z)
         (pilot_assignments db)).

(** [DELETE FROM pilots WHERE pilot_id = ?]. *)
Definition delete_pilot (pilot_id : Z) (db : database)
  : exn + database * Z :=
  if pragma_foreign_keys &&
     existsb (fun a => (pa_pilot_id a =? pilot_id)%Z) (pilot_assignments db)
     && pilot_exists pilot_id db
  then inl (IntegrityError FOREIGN_KEY)
  else inr (set_pilots
              (filter (fun p => negb (p_pilot_id p =? pilot_id)%Z)
                 (pilots db)) db,
            count_rows (fun p => (p_pilot_id p =? pilot_id)%Z) (pilots db)).

(** [SELECT COUNT( * ) FROM pilot_assignments WHERE pilot_id = ?]. *)
Definition count_assignments (pilot_id : Z) (db : database) : nat :=
  length (filter (fun a => (pa_pilot_id a =? pilot_id)%Z)
            (pilot_assignments db)).

(* ===================================================================== *)
(** ** Queries *)
(* ===================================================================== *)

(** [datetime('now')] is the text [sql_now]; [>] between a stored timestamp
    and it compares two texts byte by byte. *)
Definition departs_after (sql_now : string) (f : flight) : bool :=
  String.ltb sql_now (f_departure_time f).

(** [FROM flights f JOIN destinations d1 ON f.origin_id = d1.destination_id
    JOIN destinations d2 ON f.destination_id = d2.destination_id]. *)
Definition flights_with_cities (db : database)
  : list (flight * destination * destination) :=
  flat_map
    (fun f =>
       flat_map
         (fun d1 =>
            map (fun d2 => (f, d1, d2))
              (filter (fun d2 => (f_destination_id f =? d_destination_id d2)%Z)
                 (destinations db)))
         (filter (fun d1 => (f_origin_id f =? d_destination_id d1)%Z)
            (destinations db)))
    (flights db).

(** The query of [view_flights_by_criteria] for the choice "4. All":
    flight number, origin city, destination city, departure time, status. *)
Definition all_flights_query (db : database)
  : list (string * string * string * string * string) :=
  map (fun '(f, d1, d2) =>
         (f_flight_number f, d_city d1, d_city d2, f_departure_time f,
          f_status f))
    (flights_with_cities db).

(** The flights [assign_pilot] lists: those that depart after
    [datetime('now')]. *)
Definition upcoming_flights_query (sql_now : string) (db : database)
  : list line :=
  map (fun '(f, d1, d2) =>
         FlightLine (f_flight_id f) (f_flight_number f) (d_city d1)
           (d_city d2))
    (filter (fun '(f, _, _) => departs_after sql_now f)
       (flights_with_cities db)).

(** [l LEFT JOIN r ON on]: every row of [l] with each row of [r] that
    matches it, or once with [NULL]s when none does. *)
Definition left_join {A B} (on : A -> B -> bool) (l : list A) (r : list B)
  : list (A * option B) :=
  flat_map
    (fun a =>
       match filter (on a) r with
       | [] => [(a, None)]
       | bs => map (fun b => (a, Some b)) bs
       end)
    l.

(** The distinct values of a list, in the order of their first
    occurrence. *)
Fixpoint distinct {K} (eqb : K -> K -> bool) (ks : list K) : list K :=
  match ks with
  | [] => []
  | k :: rest => k :: filter (fun x => negb (eqb x k)) (distinct eqb rest)
  end.

(** [GROUP BY key]: one group for every distinct key, with the rows that
    have it. *)
Definition group_by {R K} (key : R -> K) (eqb : K -> K -> bool)
    (rows : list R) : list (K * list R) :=
  map (fun k => (k, filter (fun r => eqb (key r) k) rows))
    (distinct eqb (map key rows)).

(** [ORDER BY flight_count DESC], by insertion from the right; the order
    SQLite gives rows with equal counts is not fixed, here they keep the
    order they had. *)
Fixpoint insert_desc {R} (count : R -> nat) (r : R) (sorted : list R)
  : list R :=
  match sorted with
  | [] => [r]
  | x :: rest =>
      if count x <=? count r then r :: sorted
      else x :: insert_desc count r rest
  end.

Definition order_by_desc {R} (count : R -> nat) (rows : list R) : list R :=
  fold_right (insert_desc count) [] rows.

Definition pilot_key : Type := Z * string * string.

Definition pilot_key_eqb (a b : pilot_key) : bool :=
  let '(i, n, l) := a in
  let '(j, m, k) := b in
  (i =? j)%Z && String.eqb n m && String.eqb l k.

Definition summary_row : Type := Z * string * string * nat * nat.

Definition summary_flight_count (r : summary_row) : nat :=
  let '(_, _, _, c, _) := r in c.

(** The query of [get_pilot_flight_count].  [COUNT(pa.flight_id)] counts
    the rows of a group whose assignment is not [NULL]; the second count
    takes the rows whose flight is not [NULL] and departs after
    [datetime('now')]. *)
Definition pilot_flight_count_query (sql_now : string) (db : database)
  : list summary_row :=
  let joined :=
    left_join
      (fun (ppa : pilot * option assignment) (f : flight) =>
         match snd ppa with
         | Some pa => (pa_flight_id pa =? f_flight_id f)%Z
         | None => false
         end)
      (left_join (fun p pa => (p_pilot_id p =? pa_pilot_id pa)%Z)
         (pilots db) (pilot_assignments db))
      (flights db) in
  let groups :=
    group_by
      (fun row : pilot * option assignment * option flight =>
         let p := fst (fst row) in
         (p_pilot_id p, p_name p, p_license_id p))
      pilot_key_eqb joined in
  order_by_desc summary_flight_count
    (map
       (fun '((id, name, license_id), rows) =>
          (id, name, license_id,
           length (filter
                     (fun row : pilot * option assignment * option flight =>
                        match snd (fst row) with
                        | Some _ => true
                        | None => false
                        end) rows),
           length (filter
                     (fun row : pilot * option assignment * option flight =>
                        match snd row with
                        | Some f => departs_after sql_now f
                        | None => false
                        end) rows)))
       groups).

(* ===================================================================== *)
(** ** The methods of [DBOperations] *)
(* ===================================================================== *)

(** The answers typed at the prompts of a method are its arguments.  A
    number read with [int(input(...))] is given as its value; an identifier
    read with [input(...)] alone is bound as text and compared with an
    [INTEGER] column by the number it denotes, and is given as that number
    too.  The blank line some messages start with is left out of the
    text. *)

Definition invalid_datetime : line :=
  Text "Invalid datetime format. Please use 'YYYY-MM-DD HH:MM'".

Definition py_strptime (text : string) : M datetime :=
  match strptime text with
  | Some dt => ret dt
  | None => raise ValueError
  end.

Definition bind_int (z : Z) : M unit :=
  if fits_int64 z then ret tt else raise OverflowError.

Fixpoint for_each {A} (l : list A) (body : A -> M unit) : M unit :=
  match l with
  | [] => ret tt
  | x :: rest => body x ;; for_each rest body
  end.

Definition add_new_flight (flight_num : string) (origin_id dest_id : Z)
    (departure : string) : M unit :=
  try_finally
    (try_except
       (get_connection ;;
        print (Text "Available Destinations:") ;;
        destinations <- query destinations ;;
        print_all (map DestinationLine destinations) ;;
        departure <-
          try_except_ValueError
            (departure_dt <- py_strptime departure ;;
             ret (strftime departure_dt))
            (print invalid_datetime ;; return_) ;;
        execute (insert_flight flight_num origin_id dest_id departure
                   "Scheduled") ;;
        commit ;;
        print (Text "Flight added successfully"))
       (fun e => print (Failure "Error adding flight" e)))
    close.

Definition update_menu : list line :=
  [Text "What would you like to update?"; Text "1. Departure Time";
   Text "2. Status"].

Definition update_flight_info (flight_num : string) (choice : Z)
    (answer : string) : M unit :=
  try_finally
    (try_except
       (get_connection ;;
        print_all update_menu ;;
        (if (choice =? 1)%Z then
           new_time <-
             try_except_ValueError
               (new_time_dt <- py_strptime answer ;;
                ret (strftime new_time_dt))
               (print invalid_datetime ;; return_) ;;
           execute (update_departure_time new_time flight_num)
         else if (choice =? 2)%Z then
           execute (update_status answer flight_num)
         else ret tt) ;;
        n <- get_rowcount ;;
        if (0 <? n)%Z then
          commit ;; print (Text "Flight updated successfully")
        else print (Text "Flight not found"))
       (fun e => print (Failure "Error updating flight" e)))
    close.

Definition validate_flight_id_exists (flight_id : Z) : M bool :=
  get_connection ;;
  bind_int flight_id ;;
  query (flight_exists flight_id).

Definition validate_pilot_exists (pilot_id : Z) : M bool :=
  get_connection ;;
  bind_int pilot_id ;;
  query (pilot_exists pilot_id).

(** [sql_now] is [datetime('now')] of the listing, [now] is
    [datetime.datetime.now()]. *)
Definition assign_pilot (sql_now : string) (now : datetime)
    (flight_id pilot_id : Z) (assignment_date : string) : M unit :=
  try_finally
    (try_except
       (get_connection ;;
        print (Text "Available Flights:") ;;
        flights <- query (upcoming_flights_query sql_now) ;;
        print_all flights ;;
        print (Text "Available Pilots:") ;;
        pilots <- query pilots ;;
        print_all
          (map (fun p => PilotLine (p_pilot_id p) (p_name p)
                           (p_years_experience p)) pilots) ;;
        found <- validate_flight_id_exists flight_id ;;
        (if negb found then print (FlightMissing flight_id) ;; return_
         else ret tt) ;;
        found <- validate_pilot_exists pilot_id ;;
        (if negb found then print (PilotMissing pilot_id) ;; return_
         else ret tt) ;;
        let assignment_date := strip assignment_date in
        assignment_date <-
          (if String.eqb assignment_date "" then ret (strftime now)
           else
             try_except_ValueError
               (assignment_dt <- py_strptime assignment_date ;;
                ret (strftime assignment_dt))
               (print invalid_datetime ;; return_)) ;;
        execute (insert_assignment flight_id pilot_id assignment_date) ;;
        commit ;;
        print (Text "Pilot assigned successfully"))
       (fun e => print (Failure "Error assigning pilot" e)))
    close.

Definition destination_menu : list line :=
  [Text "Destination Management:"; Text "1. View all destinations";
   Text "2. Add new destination"; Text "3. Update destination"].

(** The choice typed in [manage_destinations] with the answers its branch
    asks for. *)
Inductive destination_choice : Type :=
| View_all_destinations
| Add_new_destination (city country airport_code : string)
| Update_destination (dest_id : Z) (city country airport_code : string)
| No_destination_choice.

Definition manage_destinations (choice : destination_choice) : M unit :=
  try_finally
    (try_except
       (get_connection ;;
        print_all destination_menu ;;
        match choice with
        | View_all_destinations =>
            destinations <- query destinations ;;
            print_all (map DestinationRecord destinations)
        | Add_new_destination city country airport_code =>
            execute (insert_destination city country airport_code) ;;
            commit ;;
            print (Text "Destination added successfully")
        | Update_destination dest_id city country airport_code =>
            let updates :=
              (if String.eqb city "" then [] else [Set_city city]) ++
              (if String.eqb country "" then [] else [Set_country country])
              ++
              (if String.eqb airport_code "" then []
               else [Set_airport_code airport_code]) in
            match updates with
            | [] => ret tt
            | _ :: _ =>
                execute (update_destination updates dest_id) ;;
                commit ;;
                print (Text "Destination updated successfully")
            end
        | No_destination_choice => ret tt
        end)
       (fun e => print (Failure "Error managing destinations" e)))
    close.

Definition delete_flight (flight_num : string) : M unit :=
  try_finally
    (try_except
       (get_connection ;;
        execute (delete_flights flight_num) ;;
        n <- get_rowcount ;;
        if (0 <? n)%Z then
          commit ;; print (Text "Flight deleted successfully")
        else print (Text "Flight not found"))
       (fun e => print (Failure "Error deleting flight" e)))
    close.

Definition get_pilot_flight_count (sql_now : string) : M unit :=
  try_finally
    (try_except
       (get_connection ;;
        results <- query (pilot_flight_count_query sql_now) ;;
        print (Text "Pilot Flight Assignments Summary:") ;;
        print_all
          (map (fun '(id, name, license_id, flight_count, upcoming) =>
                  SummaryRecord id name license_id flight_count upcoming)
             results))
       (fun e => print (Failure "Error getting pilot flight count" e)))
    close.

Definition delete_pilot_assignment (assignment_id : Z) : M unit :=
  try_finally
    (try_except
       (get_connection ;;
        execute (delete_assignment assignment_id) ;;
        n <- get_rowcount ;;
        if (0 <? n)%Z then
          commit ;; print (Text "Assignment deleted successfully")
        else print (Text "Assignment not found"))
       (fun e => print (Failure "Error managing assignments" e)))
    close.

Definition pilot_menu : list line :=
  [Text "Pilot Management:"; Text "1. View all pilots";
   Text "2. Add a new pilot"; Text "3. Update a pilot";
   Text "4. Delete a pilot"].

(** The choice typed in [manage_pilots] with the answers its branch asks
    for.  [years_exp] of an update is [None] when the answer is empty. *)
Inductive pilot_choice : Type :=
| View_all_pilots
| Add_a_new_pilot (name license_id : string) (years_exp : Z)
| Update_a_pilot (pilot_id : Z) (name license_id : string)
                 (years_exp : option Z)
| Delete_a_pilot (pilot_id : Z)
| No_pilot_choice.

Definition manage_pilots (choice : pilot_choice) : M unit :=
  try_finally
    (try_except
       (get_connection ;;
        print_all pilot_menu ;;
        match choice with
        | View_all_pilots =>
            pilots <- query pilots ;;
            print_all (map PilotRecord pilots)
        | Add_a_new_pilot name license_id years_exp =>
            execute (insert_pilot name license_id years_exp) ;;
            commit ;;
            print (Text "Pilot added successfully")
        | Update_a_pilot pilot_id name license_id years_exp =>
            let updates :=
              (if String.eqb name "" then [] else [Set_name name]) ++
              (if String.eqb license_id "" then []
               else [Set_license_id license_id]) ++
              (match years_exp with
               | None => []
               | Some v => [Set_years_experience v]
               end) in
            match updates with
            | [] => ret tt
            | _ :: _ =>
                execute (update_pilot updates pilot_id) ;;
                commit ;;
                print (Text "Pilot updated successfully")
            end
        | Delete_a_pilot pilot_id =>
            assignment_count <- query (count_assignments pilot_id) ;;
            (if 0 <? assignment_count then
               print (CannotDelete assignment_count) ;; return_
             else ret tt) ;;
            execute (delete_pilot pilot_id) ;;
            n <- get_rowcount ;;
            if (0 <? n)%Z then
              commit ;; print (Text "Pilot deleted successfully")
            else print (Text "Pilot not found")
        | No_pilot_choice => ret tt
        end)
       (fun e => print (Failure "Error managing pilots" e)))
    close.

Definition sample_pilots : list (string * string * Z) :=
  [("James Smith", "UK10001", 15%Z); ("Jane Smith", "UK10002", 12%Z);
   ("Michael Scott", "UK10003", 8%Z); ("Tim Robinson", "UK10004", 20%Z);
   ("Taylor Swift", "UK10005", 10%Z); ("Matthew Fox", "UK10006", 7%Z);
   ("John Locke", "UK10007", 5%Z); ("Jim Halpert", "UK10008", 18%Z);
   ("Adam Scott", "UK10009", 25%Z); ("Travis Touchdown", "UK10010", 3%Z);
   ("Sarah Connor", "UK10011", 22%Z); ("Ellen Ripley", "UK10012", 19%Z);
   ("Han Solo", "UK10013", 30%Z); ("Cloud Strife", "UK10014", 15%Z);
   ("Luke Skywalker", "UK10015", 12%Z)].

Definition sample_destinations : list (string * string * string) :=
  [("London", "UK", "LHR"); ("Tokyo", "Japan", "HND");
   ("Seoul", "Korea", "KIX"); ("Paris", "France", "CDG");
   ("Berlin", "Germany", "BER"); ("New York", "USA", "JFK");
   ("Dubai", "UAE", "DXB"); ("Sydney", "Australia", "SYD");
   ("Toronto", "Canada", "YYZ"); ("Los Angeles", "USA", "LAX");
   ("Singapore", "Singapore", "SIN"); ("Hong Kong", "China", "HKG");
   ("Rome", "Italy", "FCO"); ("Madrid", "Spain", "MAD");
   ("Cape Town", "South Africa", "CPT")].

Definition sample_flights : list (string * Z * Z * string * string) :=
  [("BA101", 1, 2, "2025-03-10 10:00:00", "Scheduled");
   ("BA102", 2, 1, "2025-03-10 14:00:00", "Scheduled");
   ("BA103", 1, 3, "2025-03-11 09:00:00", "Scheduled");
   ("BA104", 3, 4, "2025-03-12 12:00:00", "Scheduled");
   ("BA105", 4, 5, "2025-03-13 15:00:00", "Scheduled");
   ("BA106", 5, 6, "2025-03-14 08:00:00", "Scheduled");
   ("BA107", 6, 7, "2025-03-15 11:00:00", "Scheduled");
   ("BA108", 7, 8, "2025-03-16 13:00:00", "Scheduled");
   ("BA109", 8, 9, "2025-03-17 16:00:00", "Scheduled");
   ("BA110", 9, 10, "2025-03-18 18:00:00", "Scheduled");
   ("BA111", 10, 11, "2025-03-19 07:00:00", "Scheduled");
   ("BA112", 11, 12, "2025-03-20 09:00:00", "Scheduled");
   ("BA113", 12, 13, "2025-03-21 11:00:00", "Scheduled");
   ("BA114", 13, 14, "2025-03-22 13:00:00", "Scheduled");
   ("BA115", 14, 15, "2025-03-23 15:00:00", "Scheduled")]%Z.

Definition sample_assignments : list (Z * Z * string) :=
  [(1, 1, "2025-02-01 10:00:00"); (1, 2, "2025-02-01 10:00:00");
   (2, 3, "2025-02-02 14:00:00"); (3, 4, "2025-02-03 09:00:00");
   (3, 5, "2025-03-03 09:00:00"); (4, 6, "2025-03-04 12:00:00");
   (5, 7, "2025-03-05 15:00:00"); (6, 8, "2025-03-06 08:00:00");
   (7, 9, "2025-03-07 11:00:00"); (8, 10, "2025-03-08 13:00:00");
   (8, 1, "2025-03-08 13:00:00"); (9, 11, "2025-03-09 16:00:00");
   (10, 12, "2025-03-10 18:00:00"); (11, 13, "2025-03-11 07:00:00");
   (12, 14, "2025-03-12 09:00:00"); (12, 15, "2025-03-12 09:00:00")]%Z.

Definition populate_sample_data : M unit :=
  try_finally
    (try_except
       (get_connection ;;
        for_each sample_pilots
          (fun '(name, license_id, years) =>
             execute (insert_pilot name license_id years)) ;;
        for_each sample_destinations
          (fun '(city, country, airport_code) =>
             execute (insert_destination city country airport_code)) ;;
        for_each sample_flights
          (fun '(flight_number, origin_id, destination_id, departure_time,
                 status) =>
             execute (insert_flight flight_number origin_id destination_id
                        departure_time status)) ;;
        for_each sample_assignments
          (fun '(flight_id, pilot_id, assignment_date) =>
             execute (insert_assignment flight_id pilot_id
                        assignment_date)) ;;
        commit ;;
        print (Text "Sample data populated successfully"))
       (fun e => print (Failure "Error populating sample data" e)))
    close.

(* ===================================================================== *)
(** ** The menu loop *)
(* ===================================================================== *)

(** The entries of the menu that can write to the file, with the answers
    typed.  The other entries (2, 5, 8, 9, 10) only run [SELECT]s and never
    commit. *)
Inductive menu : Type :=
| Menu_add_new_flight (flight_num : string) (origin_id dest_id : Z)
                      (departure : string)
| Menu_update_flight_info (flight_num : string) (choice : Z)
                          (answer : string)
| Menu_assign_pilot (sql_now : string) (now : datetime)
                    (flight_id pilot_id : Z) (assignment_date : string)
| Menu_manage_destinations (choice : destination_choice)
| Menu_delete_flight (flight_num : string)
| Menu_manage_pilots (choice : pilot_choice)
| Menu_delete_pilot_assignment (assignment_id : Z)
| Menu_populate_sample_data.

Definition dispatch (m : menu) : M unit :=
  match m with
  | Menu_add_new_flight n o d t => add_new_flight n o d t
  | Menu_update_flight_info n c a => update_flight_info n c a
  | Menu_assign_pilot s now f p d => assign_pilot s now f p d
  | Menu_manage_destinations c => manage_destinations c
  | Menu_delete_flight n => delete_flight n
  | Menu_manage_pilots c => manage_pilots c
  | Menu_delete_pilot_assignment a => delete_pilot_assignment a
  | Menu_populate_sample_data => populate_sample_data
  end.

(** The file after one turn of the loop. *)
Definition turn (m : menu) (db : database) : database :=
  snd (run (dispatch m) db).

(** The states of the file the program can bring about, starting from the
    empty tables. *)
Inductive reachable : database -> Prop :=
| reachable_empty : reachable empty_database
| reachable_turn (db : database) (m : menu) :
    reachable db -> reachable (turn m db).

Definition sample_database : database :=
  turn Menu_populate_sample_data empty_database.


(* ===================================================================== *)
(** ** Vocabulary of the stated properties *)
(* ===================================================================== *)

(** What [add_new_flight] prints before it asks for the flight. *)
Definition destination_listing (db : database) : list line :=
  Text "Available Destinations:" :: map DestinationLine (destinations db).

(** What [assign_pilot] prints before it asks for the flight id. *)
Definition assignment_listing (sql_now : string) (db : database)
  : list line :=
  Text "Available Flights:" :: upcoming_flights_query sql_now db ++
  Text "Available Pilots:" ::
  map (fun p => PilotLine (p_pilot_id p) (p_name p) (p_years_experience p))
    (pilots db).

(** The assignment date [assign_pilot] stores for an answer, when it takes
    the answer: the current time for a blank one, the time it parses to
    otherwise. *)
Definition accepted_date (now : datetime) (answer : string)
  : option string :=
  if String.eqb (strip answer) "" then Some (strftime now)
  else match strptime (strip answer) with
       | Some dt => Some (strftime dt)
       | None => None
       end.

(** The rows of [pilot_assignments] for the pair [(flight_id, pilot_id)]. *)
Definition assignments_for (flight_id pilot_id : Z) (db : database)
  : list assignment :=
  filter (fun a => (pa_flight_id a =? flight_id)%Z &&
                   (pa_pilot_id a =? pilot_id)%Z)
    (pilot_assignments db).

Definition assignment_pair (a : assignment) : Z * Z :=
  (pa_flight_id a, pa_pilot_id a).

(** [UNIQUE(flight_id, pilot_id)] as a property of the table. *)
Definition pairs_unique (db : database) : Prop :=
  NoDup (map assignment_pair (pilot_assignments db)).

(** The primary keys of [pilots] and [flights] as a property of the
    tables. *)
Definition primary_keys (db : database) : Prop :=
  NoDup (map p_pilot_id (pilots db)) /\ NoDup (map f_flight_id (flights db)).


(** Every stored departure time and assignment date is a year followed
    by [-MM-DD HH:MM:SS]. *)
Definition timestamps_with_seconds (db : database) : Prop :=
  Forall (fun f => shape_year_with_seconds (f_departure_time f) = true)
    (flights db) /\
  Forall (fun a => shape_year_with_seconds (pa_assignment_date a) = true)
    (pilot_assignments db).

Definition well_formed (db : database) : Prop :=
  primary_keys db /\ pairs_unique db /\ timestamps_with_seconds db.


(** The assignments of a pilot. *)
Definition assignments_of (pilot_id : Z) (db : database) : list assignment :=
  filter (fun a => (pa_pilot_id a =? pilot_id)%Z) (pilot_assignments db).

(** [delete_pilot_assignment] called once for each assignment of the
    pilot. *)
Definition delete_assignments_of (pilot_id : Z) (db : database) : database :=
  fold_left
    (fun d a => turn (Menu_delete_pilot_assignment (pa_assignment_id a)) d)
    (assignments_of pilot_id db) db.



(** The digits of a text read as one number; for a timestamp of the
    stored shape that is YYYYMMDDHHMMSS, and the order of these numbers
    is the order of the times. *)
Fixpoint digits_number (l : list ascii) : N :=
  match l with
  | [] => 0%N
  | c :: rest =>
      if is_digit c
      then (N.of_nat (digit_val c)
            * 10 ^ N.of_nat (length (filter is_digit rest))
            + digits_number rest)%N
      else digits_number rest
  end.

Definition timestamp_number (text : string) : N :=
  digits_number (list_ascii_of_string text).


(** A small Hoare logic for the methods: [keeps I w] says the file and the
    connection's view both satisfy [I]; [hoare I m Q] says [m] keeps [I]
    however it ends, and a value it ends with satisfies [Q]. *)
Definition keeps (I : database -> Prop) (w : world) : Prop :=
  I (file w) /\ I (conn w).

Definition hoare (I : database -> Prop) {A} (m : M A) (Q : A -> Prop)
  : Prop :=
  forall w, keeps I w ->
    keeps I (snd (m w)) /\ (forall a, fst (m w) = Val a -> Q a).

(** A statement keeps [I] when it succeeds. *)
Definition statement_keeps (I : database -> Prop)
    (stmt : database -> exn + database * Z) : Prop :=
  forall db db' n, I db -> stmt db = inr (db', n) -> I db'.

(** Two destinations, London and Paris, and nothing else. *)
Definition two_destinations : database :=
  mkDatabase []
    [mkDestination 1 "London" "UK" "LHR";
     mkDestination 2 "Paris" "France" "CDG"]
    [] [].

(* ===================================================================== *)
(** ** The queries and methods that only read *)
(* ===================================================================== *)

(** [str(n)] of a count, as an f-string formats it. *)
Definition decimal (n : nat) : string :=
  NilEmpty.string_of_uint (Nat.to_uint n).

(** The lower-case form SQLite compares ASCII letters by in [LIKE]. *)
Definition lower (c : ascii) : ascii :=
  let n := nat_of_ascii c in
  if (65 <=? n) && (n <=? 90) then ascii_of_nat (n + 32) else c.

(** [text LIKE pattern] with SQLite's defaults: [%] stands for any run of
    characters, [_] for any one character, and letters match without
    regard to case. *)
Fixpoint sql_like (pattern : list ascii) : list ascii -> bool :=
  match pattern with
  | [] => fun text => match text with [] => true | _ :: _ => false end
  | c :: pattern' =>
      if Ascii.eqb c "%" then
        fix any (text : list ascii) : bool :=
          sql_like pattern' text ||
          match text with
          | [] => false
          | _ :: text' => any text'
          end
      else
        fun text =>
          match text with
          | [] => false
          | d :: text' =>
              (Ascii.eqb c "_" || Ascii.eqb (lower c) (lower d)) &&
              sql_like pattern' text'
          end
  end.

(** [text LIKE ?] with the parameter [f"%{answer}%"]. *)
Definition like_contains (text answer : string) : bool :=
  sql_like ("%"%char :: list_ascii_of_string answer ++ ["%"%char])
    (list_ascii_of_string text).

Definition flight_row : Type := string * string * string * string * string.

(** The [SELECT] list of the four queries of [view_flights_by_criteria]. *)
Definition flight_columns (row : flight * destination * destination)
  : flight_row :=
  let '(f, d1, d2) := row in
  (f_flight_number f, d_city d1, d_city d2, f_departure_time f, f_status f).

(** Choice 1: [WHERE d2.city LIKE ?]. *)
Definition search_destination_query (dest : string) (db : database)
  : list flight_row :=
  map flight_columns
    (filter (fun '(_, _, d2) => like_contains (d_city d2) dest)
       (flights_with_cities db)).

(** Choice 2: [WHERE f.status LIKE ?]. *)
Definition search_status_query (status : string) (db : database)
  : list flight_row :=
  map flight_columns
    (filter (fun '(f, _, _) => like_contains (f_status f) status)
       (flights_with_cities db)).

(** Choice 3: [WHERE DATE(f.departure_time) = ?].  [sql_date] is SQLite's
    [DATE] on a text, [None] for its [NULL]. *)
Definition search_date_query (sql_date : string -> option string)
    (date : string) (db : database) : list flight_row :=
  map flight_columns
    (filter (fun '(f, _, _) =>
               match sql_date (f_departure_time f) with
               | Some day => String.eqb day date
               | None => false
               end)
       (flights_with_cities db)).

Definition search_menu : list line :=
  [Text "Search by:"; Text "1. Destination"; Text "2. Status";
   Text "3. Date"; Text "4. All"].

(** The choice typed in [view_flights_by_criteria] with the answer its
    branch asks for. *)
Inductive search_choice : Type :=
| Search_destination (dest : string)
| Search_status (status : string)
| Search_date (date : string)
| Search_all
| No_search_choice.

Definition flight_lines (row : flight_row) : list line :=
  let '(number, origin, destination, departure, status) := row in
  [Text ("Flight Number: " ++ number);
   Text ("Route: " ++ origin ++ " -> " ++ destination);
   Text ("Departure: " ++ departure);
   Text ("Status: " ++ status)]%string.

Definition view_flights_by_criteria (sql_date : string -> option string)
    (choice : search_choice) : M unit :=
  try_finally
    (try_except
       (get_connection ;;
        print_all search_menu ;;
        results <-
          match choice with
          | Search_destination dest => query (search_destination_query dest)
          | Search_status status => query (search_status_query status)
          | Search_date date => query (search_date_query sql_date date)
          | Search_all => query all_flights_query
          | No_search_choice =>
              print (Text "Invalid choice. Please select a valid option.") ;;
              return_
          end ;;
        match results with
        | [] => print (Text "No flights found matching criteria")
        | _ :: _ => print_all (flat_map flight_lines results)
        end)
       (fun e => print (Failure "Error viewing flights" e)))
    close.

(** [ORDER BY] a text column, ascending, by insertion from the right;
    rows with equal texts keep the order they had. *)
Fixpoint insert_asc {R} (key : R -> string) (r : R) (sorted : list R)
  : list R :=
  match sorted with
  | [] => [r]
  | x :: rest =>
      if String.leb (key r) (key x) then r :: sorted
      else x :: insert_asc key r rest
  end.

Definition order_by_asc {R} (key : R -> string) (rows : list R) : list R :=
  fold_right (insert_asc key) [] rows.

(** The rows of the join of [view_pilot_schedule] for the pilot:
    [pilots JOIN pilot_assignments JOIN flights JOIN destinations d1 JOIN
    destinations d2 WHERE p.pilot_id = ?]. *)
Definition schedule_join (pilot_id : Z) (db : database)
  : list (pilot * assignment * (flight * destination * destination)) :=
  flat_map
    (fun p =>
       flat_map
         (fun pa =>
            map (fun fdd => (p, pa, fdd))
              (filter (fun '(f, _, _) => (pa_flight_id pa =? f_flight_id f)%Z)
                 (flights_with_cities db)))
         (filter (fun pa => (p_pilot_id p =? pa_pilot_id pa)%Z)
            (pilot_assignments db)))
    (filter (fun p => (p_pilot_id p =? pilot_id)%Z) (pilots db)).

Definition schedule_row : Type :=
  string * string * string * string * string * string.

Definition schedule_departure (r : schedule_row) : string :=
  let '(_, _, _, _, departure, _) := r in departure.

(** The [SELECT] list of [view_pilot_schedule]: name, flight number,
    origin city, destination city, departure time, assignment date. *)
Definition schedule_columns
    (row : pilot * assignment * (flight * destination * destination))
  : schedule_row :=
  let '(p, pa, (f, d1, d2)) := row in
  (p_name p, f_flight_number f, d_city d1, d_city d2, f_departure_time f,
   pa_assignment_date pa).

(** The query of [view_pilot_schedule]: the rows of the join for the
    pilot, ordered by the departure time. *)
Definition pilot_schedule_query (pilot_id : Z) (db : database)
  : list schedule_row :=
  order_by_asc schedule_departure
    (map schedule_columns (schedule_join pilot_id db)).

Definition schedule_lines (row : schedule_row) : list line :=
  let '(_, number, origin, destination, departure, date) := row in
  [Text ("Flight: " ++ number);
   Text ("Route: " ++ origin ++ " -> " ++ destination);
   Text ("Departure: " ++ departure);
   Text ("Assignment Date: " ++ date)]%string.

Definition view_pilot_schedule (pilot_id : Z) : M unit :=
  try_finally
    (try_except
       (get_connection ;;
        schedule <- query (pilot_schedule_query pilot_id) ;;
        match schedule with
        | [] => print (Text "No flights scheduled for this pilot")
        | (name, _, _, _, _, _) :: _ =>
            print (Text ("Schedule for " ++ name ++ ":")%string) ;;
            print_all (flat_map schedule_lines schedule)
        end)
       (fun e => print (Failure "Error viewing schedule" e)))
    close.

(** [FROM flights f JOIN destinations AS d
    ON f.destination_id = d.destination_id]. *)
Definition flights_with_destination (db : database)
  : list (flight * destination) :=
  flat_map
    (fun f =>
       map (fun d => (f, d))
         (filter (fun d => (f_destination_id f =? d_destination_id d)%Z)
            (destinations db)))
    (flights db).

(** The query of [summarise_flights_by_destination]: the rows of the join
    grouped by the city, each group with the number of its rows. *)
Definition flights_by_destination_query (db : database)
  : list (string * nat) :=
  map (fun '(city, rows) => (city, length rows))
    (group_by (fun fd : flight * destination => d_city (snd fd)) String.eqb
       (flights_with_destination db)).

Definition summarise_flights_by_destination : M unit :=
  try_finally
    (try_except
       (get_connection ;;
        results <- query flights_by_destination_query ;;
        print (Text "Flight Counts by Destination:") ;;
        print_all
          (map (fun '(city, flight_count) =>
                  Text ("Destination: " ++ city ++ ": " ++
                        decimal flight_count ++ " flight(s)")%string)
             results))
       (fun e => print (Failure "Error summarising flights" e)))
    close.

Definition statistics_join : Type :=
  destination * option flight * option assignment * option pilot.

(** [FROM destinations d LEFT JOIN flights f LEFT JOIN pilot_assignments
    pa LEFT JOIN pilots p] of [get_destination_statistics]. *)
Definition statistics_rows (db : database) : list statistics_join :=
  left_join
    (fun (row : destination * option flight * option assignment) p =>
       match snd row with
       | Some pa => (pa_pilot_id pa =? p_pilot_id p)%Z
       | None => false
       end)
    (left_join
       (fun (row : destination * option flight) pa =>
          match snd row with
          | Some f => (f_flight_id f =? pa_flight_id pa)%Z
          | None => false
          end)
       (left_join
          (fun d f => (d_destination_id d =? f_destination_id f)%Z)
          (destinations db) (flights db))
       (pilot_assignments db))
    (pilots db).

Definition statistics_flight (row : statistics_join) : option flight :=
  snd (fst (fst row)).

Definition statistics_key (row : statistics_join) : string * string :=
  let d := fst (fst (fst row)) in (d_city d, d_country d).

Definition city_country_eqb (a b : string * string) : bool :=
  String.eqb (fst a) (fst b) && String.eqb (snd a) (snd b).

(** The pilot ids of the rows that have a pilot, for
    [COUNT(DISTINCT p.pilot_id)]. *)
Definition statistics_pilots (rows : list statistics_join) : list Z :=
  flat_map
    (fun row => match snd row with Some p => [p_pilot_id p] | None => [] end)
    rows.

Definition count_status (status : string) (rows : list statistics_join)
  : nat :=
  length (filter
            (fun row => match statistics_flight row with
                        | Some f => String.eqb (f_status f) status
                        | None => false
                        end) rows).

Definition statistics_row : Type := string * string * nat * nat * nat * nat.

Definition statistics_total (r : statistics_row) : nat :=
  let '(_, _, total, _, _, _) := r in total.

(** The query of [get_destination_statistics]: for every group of
    [GROUP BY d.city, d.country] the number of rows with a flight, the
    number of distinct pilots, and the numbers of rows whose flight is
    delayed and cancelled, by falling total. *)
Definition destination_statistics_query (db : database)
  : list statistics_row :=
  order_by_desc statistics_total
    (map
       (fun '((city, country), rows) =>
          (city, country,
           length (filter
                     (fun row => match statistics_flight row with
                                 | Some _ => true
                                 | None => false
                                 end) rows),
           length (distinct Z.eqb (statistics_pilots rows)),
           count_status "Delayed" rows,
           count_status "Cancelled" rows))
       (group_by statistics_key city_country_eqb (statistics_rows db))).

Definition statistics_lines (r : statistics_row) : list line :=
  let '(city, country, total, unique_pilots, delayed, cancelled) := r in
  [Text ("Destination: " ++ city ++ ", " ++ country);
   Text ("Total Flights: " ++ decimal total);
   Text ("Unique Pilot Count: " ++ decimal unique_pilots);
   Text ("Delayed Flights: " ++ decimal delayed);
   Text ("Cancelled Flights: " ++ decimal cancelled)]%string.

Definition get_destination_statistics : M unit :=
  try_finally
    (try_except
       (get_connection ;;
        results <- query destination_statistics_query ;;
        print (Text "Destination Statistics:") ;;
        print_all (flat_map statistics_lines results))
       (fun e => print (Failure "Error getting destination statistics" e)))
    close.

(** The entries of the menu that only read (2, 5, 8, 9, 10), with the
    answers typed. *)
Inductive report : Type :=
| Report_flights_by_criteria (sql_date : string -> option string)
                             (choice : search_choice)
| Report_pilot_schedule (pilot_id : Z)
| Report_flights_by_destination
| Report_pilot_flight_count (sql_now : string)
| Report_destination_statistics.

Definition report_method (r : report) : M unit :=
  match r with
  | Report_flights_by_criteria sql_date choice =>
      view_flights_by_criteria sql_date choice
  | Report_pilot_schedule pilot_id => view_pilot_schedule pilot_id
  | Report_flights_by_destination => summarise_flights_by_destination
  | Report_pilot_flight_count sql_now => get_pilot_flight_count sql_now
  | Report_destination_statistics => get_destination_statistics
  end.

(* ===================================================================== *)
(** ** Vocabulary of the further properties *)
(* ===================================================================== *)

(** The [SET] list [manage_pilots] builds from the answers to an update. *)
Definition pilot_updates (name license_id : string) (years_exp : option Z)
  : list pilot_update :=
  (if String.eqb name "" then [] else [Set_name name]) ++
  (if String.eqb license_id "" then [] else [Set_license_id license_id]) ++
  (match years_exp with
   | None => []
   | Some v => [Set_years_experience v]
   end).

(** The [SET] list [manage_destinations] builds from the answers to an
    update. *)
Definition destination_updates (city country airport_code : string)
  : list destination_update :=
  (if String.eqb city "" then [] else [Set_city city]) ++
  (if String.eqb country "" then [] else [Set_country country]) ++
  (if String.eqb airport_code "" then []
   else [Set_airport_code airport_code]).

(** The two [CHECK]s of [flights] as a property of the table. *)
Definition checks_hold (db : database) : Prop :=
  Forall (fun f => status_allowed (f_status f) = true /\
                   f_origin_id f <> f_destination_id f)
    (flights db).

Definition destination_place (d : destination) : string * string :=
  (d_city d, d_airport_code d).

(** [UNIQUE] on [license_id] and on [(city, airport_code)], and the
    primary keys of [destinations] and [pilot_assignments], as a property
    of the tables. *)
Definition uniques_hold (db : database) : Prop :=
  NoDup (map p_license_id (pilots db)) /\
  NoDup (map destination_place (destinations db)) /\
  NoDup (map d_destination_id (destinations db)) /\
  NoDup (map pa_assignment_id (pilot_assignments db)).

(** A pilot's row with the answers to an update written over it: an empty
    answer leaves the column as it is. *)
Definition updated_pilot (name license_id : string) (years_exp : option Z)
    (p : pilot) : pilot :=
  mkPilot (p_pilot_id p)
    (if String.eqb name "" then p_name p else name)
    (if String.eqb license_id "" then p_license_id p else license_id)
    (match years_exp with
     | None => p_years_experience p
     | Some v => v
     end).

(** Statements run one after the other on a connection; the first that
    fails ends the run. *)
Fixpoint run_statements (stmts : list (database -> exn + database * Z))
    (db : database) : exn + database :=
  match stmts with
  | [] => inr db
  | stmt :: rest =>
      match stmt db with
      | inl e => inl e
      | inr (db', _) => run_statements rest db'
      end
  end.

(** The statements of [populate_sample_data], in the order it runs
    them. *)
Definition sample_statements : list (database -> exn + database * Z) :=
  map (fun '(name, license_id, years) => insert_pilot name license_id years)
    sample_pilots ++
  map (fun '(city, country, airport_code) =>
         insert_destination city country airport_code)
    sample_destinations ++
  map (fun '(flight_number, origin_id, destination_id, departure_time,
             status) =>
         insert_flight flight_number origin_id destination_id
           departure_time status)
    sample_flights ++
  map (fun '(flight_id, pilot_id, assignment_date) =>
         insert_assignment flight_id pilot_id assignment_date)
    sample_assignments.

(** [m] runs [stmts] on the connection and does nothing else: it raises
    what the first failing statement raises, or leaves the connection
    with the work of all of them; the file and the console are as they
    were. *)
Definition runs_as (m : M unit)
    (stmts : list (database -> exn + database * Z)) : Prop :=
  forall w,
    match run_statements stmts (conn w) with
    | inl e =>
        exists c n, m w = (Raise e, mkWorld (file w) c n (stdout w))
    | inr db' =>
        exists n, m w = (Val tt, mkWorld (file w) db' n (stdout w))
    end.

(** The columns of a row that an [INSERT] of the program names. *)
Definition pilot_values (p : pilot) : string * string * Z :=
  (p_name p, p_license_id p, p_years_experience p).

Definition destination_values (d : destination)
  : string * string * string :=
  (d_city d, d_country d, d_airport_code d).

Definition flight_values (f : flight)
  : string * Z * Z * string * string :=
  (f_flight_number f, f_origin_id f, f_destination_id f,
   f_departure_time f, f_status f).

Definition assignment_values (a : assignment) : Z * Z * string :=
  (pa_flight_id a, pa_pilot_id a, pa_assignment_date a).

(** A line that reports an exception. *)
Definition is_failure (l : line) : bool :=
  match l with
  | Failure _ _ => true
  | _ => false
  end.



(** Both ids of the flight are ids of destinations. *)
Definition both_destinations_exist (db : database) (f : flight) : bool :=
  destination_exists (f_origin_id f) db &&
  destination_exists (f_destination_id f) db.

(** The flight's destination id is the id of a destination in [city]. *)
Definition lands_in (city : string) (db : database) (f : flight) : bool :=
  existsb (fun d => (f_destination_id f =? d_destination_id d)%Z &&
                    String.eqb (d_city d) city)
    (destinations db).

(** The number of assignments to a flight. *)
Definition pilots_on (db : database) (f : flight) : nat :=
  length (filter (fun pa => (f_flight_id f =? pa_flight_id pa)%Z)
            (pilot_assignments db)).

(** The flights whose destination id is the id of the destination. *)
Definition flights_to (db : database) (d : destination) : list flight :=
  filter (fun f => (d_destination_id d =? f_destination_id f)%Z)
    (flights db).

(** The flights to the destinations of a city and country that satisfy
    [keep], each counted once for every pilot assigned to it, and once
    when it has none. *)
Definition counted_per_pilot (db : database) (keep : flight -> bool)
    (place : string * string) : nat :=
  list_sum
    (map (fun f => Nat.max 1 (pilots_on db f))
       (flat_map (fun d => filter keep (flights_to db d))
          (filter (fun d => city_country_eqb (d_city d, d_country d) place)
             (destinations db)))).

(** The city and country of a line of the destination statistics. *)
Definition statistics_place (r : statistics_row) : string * string :=
  let '(city, country, _, _, _, _) := r in (city, country).

(* ===================================================================== *)
(** * Properties *)
(* ===================================================================== *)

(** ** Runs on concrete inputs *)

Example strptime_plain :
  strptime "2025-06-01 10:00" = Some (mkDatetime 2025 6 1 10 0 0).
Proof. reflexivity. Qed.

Example strftime_plain :
  strftime (mkDatetime 2025 6 1 10 0 0) = "2025-06-01 10:00:00".
Proof. reflexivity. Qed.

Example strptime_short_fields :
  strptime "2025-6-1 9:5" = Some (mkDatetime 2025 6 1 9 5 0).
Proof. reflexivity. Qed.

Example strptime_feb_30 : strptime "2025-02-30 10:00" = None.
Proof. reflexivity. Qed.

Example strptime_leap_day :
  strptime "2024-02-29 10:00" = Some (mkDatetime 2024 2 29 10 0 0) /\
  strptime "2025-02-29 10:00" = None.
Proof. split; reflexivity. Qed.

Example strptime_trailing : strptime "2025-06-01 10:00 " = None.
Proof. reflexivity. Qed.

Example strptime_hour_24 : strptime "2025-06-01 24:00" = None.
Proof. reflexivity. Qed.

Example strip_both_ends : strip "  2025-06-01 10:00 " = "2025-06-01 10:00".
Proof. reflexivity. Qed.

Example sample_database_counts :
  (length (pilots sample_database), length (destinations sample_database),
   length (flights sample_database),
   length (pilot_assignments sample_database)) = (15, 15, 15, 16).
Proof. vm_compute. reflexivity. Qed.

(** Populating twice fails on the first pilot's license and changes
    nothing. *)
Example sample_data_twice :
  run populate_sample_data sample_database =
  ([Failure "Error populating sample data"
      (IntegrityError UNIQUE_license_id)], sample_database).
Proof. vm_compute. reflexivity. Qed.

(** ** What a call of a method leaves, by cases *)

(** Unfolds the plumbing of a method, not the statements. *)
Ltac run_method :=
  cbv beta iota zeta delta
    [run turn dispatch try_finally try_except try_except_ValueError bind ret
     raise return_ print print_all get_connection commit close execute query
     get_rowcount py_strptime bind_int validate_flight_id_exists
     validate_pilot_exists negb snd fst file conn stdout rowcount];
  cbn [app].

Lemma set_flights_same db : set_flights (flights db) db = db.
Proof. destruct db; reflexivity. Qed.

Lemma set_pilot_assignments_same db :
  set_pilot_assignments (pilot_assignments db) db = db.
Proof. destruct db; reflexivity. Qed.

Lemma set_pilots_same db : set_pilots (pilots db) db = db.
Proof. destruct db; reflexivity. Qed.

Lemma count_rows_positive {R} (hit : R -> bool) (t : list R) :
  (0 <? count_rows hit t)%Z = existsb hit t.
Proof.
  unfold count_rows.
  induction t as [|r t IH]; cbn [filter existsb]; [reflexivity|].
  destruct (hit r); cbn [orb length].
  - apply Z.ltb_lt. lia.
  - exact IH.
Qed.

Lemma filter_none {R} (hit : R -> bool) (t : list R) :
  existsb hit t = false -> filter (fun r => negb (hit r)) t = t.
Proof.
  induction t as [|r t IH]; cbn [filter existsb]; [reflexivity|].
  intros H. apply orb_false_iff in H as [Hr Ht].
  rewrite Hr. cbn [negb]. now rewrite IH.
Qed.

Lemma map_none {R} (hit : R -> bool) (change : R -> R) (t : list R) :
  existsb hit t = false ->
  map (fun r => if hit r then change r else r) t = t.
Proof.
  induction t as [|r t IH]; cbn [map existsb]; [reflexivity|].
  intros H. apply orb_false_iff in H as [Hr Ht].
  rewrite Hr. now rewrite IH.
Qed.

Lemma add_new_flight_run num o d dep db :
  run (add_new_flight num o d dep) db =
  match strptime dep with
  | None => (destination_listing db ++ [invalid_datetime], db)
  | Some dt =>
      match insert_flight num o d (strftime dt) "Scheduled" db with
      | inl e =>
          (destination_listing db ++ [Failure "Error adding flight" e], db)
      | inr (db', _) =>
          (destination_listing db ++ [Text "Flight added successfully"],
           db')
      end
  end.
Proof.
  unfold add_new_flight. run_method.
  destruct (strptime dep) as [dt|]; run_method; [|reflexivity].
  destruct (insert_flight _ _ _ _ _ _) as [e|[db' n]]; run_method;
    reflexivity.
Qed.

Lemma update_flight_info_run num choice answer db :
  run (update_flight_info num choice answer) db =
  if (choice =? 1)%Z then
    match strptime answer with
    | None => (update_menu ++ [invalid_datetime], db)
    | Some dt =>
        if existsb (has_flight_number num) (flights db)
        then (update_menu ++ [Text "Flight updated successfully"],
              set_flights
                (map (fun f => if has_flight_number num f
                               then set_departure_time (strftime dt) f
                               else f) (flights db)) db)
        else (update_menu ++ [Text "Flight not found"], db)
    end
  else if (choice =? 2)%Z then
    if existsb (has_flight_number num) (flights db)
    then if status_allowed answer
         then (update_menu ++ [Text "Flight updated successfully"],
               set_flights
                 (map (fun f => if has_flight_number num f
                                then set_status answer f else f)
                    (flights db)) db)
         else (update_menu ++
               [Failure "Error updating flight"
                  (IntegrityError CHECK_status)], db)
    else (update_menu ++ [Text "Flight not found"], db)
  else (update_menu ++ [Text "Flight not found"], db).
Proof.
  unfold update_flight_info. run_method.
  destruct (choice =? 1)%Z.
  - destruct (strptime answer) as [dt|]; run_method; [|reflexivity].
    unfold update_departure_time. run_method.
    rewrite count_rows_positive.
    destruct (existsb _ _); run_method; reflexivity.
  - destruct (choice =? 2)%Z; run_method; [|reflexivity].
    unfold update_status.
    destruct (existsb (has_flight_number num) (flights db)) eqn:Hex;
      cbn [andb].
    + destruct (status_allowed answer); cbn [negb]; run_method;
        [|reflexivity].
      rewrite count_rows_positive, Hex. run_method. reflexivity.
    + run_method. rewrite count_rows_positive, Hex. run_method.
      reflexivity.
Qed.

Lemma assign_pilot_run sql_now now flight_id pilot_id date db :
  run (assign_pilot sql_now now flight_id pilot_id date) db =
  let listing := assignment_listing sql_now db in
  if negb (fits_int64 flight_id)
  then (listing ++ [Failure "Error assigning pilot" OverflowError], db)
  else if negb (flight_exists flight_id db)
  then (listing ++ [FlightMissing flight_id], db)
  else if negb (fits_int64 pilot_id)
  then (listing ++ [Failure "Error assigning pilot" OverflowError], db)
  else if negb (pilot_exists pilot_id db)
  then (listing ++ [PilotMissing pilot_id], db)
  else
    match accepted_date now date with
    | None => (listing ++ [invalid_datetime], db)
    | Some t =>
        match insert_assignment flight_id pilot_id t db with
        | inl e => (listing ++ [Failure "Error assigning pilot" e], db)
        | inr (db', _) =>
            (listing ++ [Text "Pilot assigned successfully"], db')
        end
    end.
Proof.
  unfold assign_pilot, accepted_date, assignment_listing. run_method.
  destruct (fits_int64 flight_id); run_method;
    [|now rewrite <- !app_assoc].
  destruct (flight_exists flight_id db); run_method;
    [|now rewrite <- !app_assoc].
  destruct (fits_int64 pilot_id); run_method;
    [|now rewrite <- !app_assoc].
  destruct (pilot_exists pilot_id db); run_method;
    [|now rewrite <- !app_assoc].
  destruct (String.eqb (strip date) ""); run_method.
  - destruct (insert_assignment _ _ _ _) as [e|[db' n]]; run_method;
      now rewrite <- !app_assoc.
  - destruct (strptime (strip date)) as [dt|]; run_method;
      [|now rewrite <- !app_assoc].
    destruct (insert_assignment _ _ _ _) as [e|[db' n]]; run_method;
      now rewrite <- !app_assoc.
Qed.

Lemma delete_pilot_assignment_run assignment_id db :
  run (delete_pilot_assignment assignment_id) db =
  if existsb (fun a => (pa_assignment_id a =? assignment_id)%Z)
       (pilot_assignments db)
  then ([Text "Assignment deleted successfully"],
        set_pilot_assignments
          (filter (fun a => negb (pa_assignment_id a =? assignment_id)%Z)
             (pilot_assignments db)) db)
  else ([Text "Assignment not found"], db).
Proof.
  unfold delete_pilot_assignment, delete_assignment. run_method.
  rewrite count_rows_positive.
  destruct (existsb _ _); run_method; reflexivity.
Qed.

(** Whether it finds a row or not, [delete_pilot_assignment] leaves the
    table without the rows of that id. *)
Lemma delete_pilot_assignment_turn assignment_id db :
  turn (Menu_delete_pilot_assignment assignment_id) db =
  set_pilot_assignments
    (filter (fun a => negb (pa_assignment_id a =? assignment_id)%Z)
       (pilot_assignments db)) db.
Proof.
  unfold turn, dispatch. rewrite delete_pilot_assignment_run.
  destruct (existsb _ _) eqn:Hex; cbn [snd]; [reflexivity|].
  rewrite (filter_none _ _ Hex). now rewrite set_pilot_assignments_same.
Qed.

Lemma delete_a_pilot_run pilot_id db :
  run (manage_pilots (Delete_a_pilot pilot_id)) db =
  if 0 <? count_assignments pilot_id db
  then (pilot_menu ++ [CannotDelete (count_assignments pilot_id db)], db)
  else if pilot_exists pilot_id db
  then (pilot_menu ++ [Text "Pilot deleted successfully"],
        set_pilots
          (filter (fun p => negb (p_pilot_id p =? pilot_id)%Z) (pilots db))
          db)
  else (pilot_menu ++ [Text "Pilot not found"], db).
Proof.
  unfold manage_pilots, delete_pilot, pragma_foreign_keys. run_method.
  destruct (0 <? count_assignments pilot_id db); run_method;
    [reflexivity|].
  cbn [andb]. run_method. rewrite count_rows_positive.
  unfold pilot_exists.
  destruct (existsb _ _); run_method; reflexivity.
Qed.

(** ** C1 and C9: requests that change nothing *)

(** C1.  [add_new_flight] with the origin id as the destination id leaves
    the file as it was, and with it the number of rows of [flights].  When
    the departure time parses the [INSERT] is run and the store refuses
    it: the [CHECK] on the two ids fails (an id outside 64 bits fails
    before, when it is bound); when it does not parse the method has
    returned before the [INSERT]. *)
Theorem add_flight_same_origin_destination_rejected
    (db : database) (flight_num : string) (origin_id : Z)
    (departure : string) :
  run (add_new_flight flight_num origin_id origin_id departure) db =
  (destination_listing db ++
   [match strptime departure with
    | Some _ =>
        Failure "Error adding flight"
          (if fits_int64 origin_id
           then IntegrityError CHECK_origin_destination
           else OverflowError)
    | None => invalid_datetime
    end], db) /\
  length (flights
            (snd (run (add_new_flight flight_num origin_id origin_id
                         departure) db))) =
  length (flights db).
Proof.
  assert (E : run (add_new_flight flight_num origin_id origin_id departure)
                db =
              (destination_listing db ++
               [match strptime departure with
                | Some _ =>
                    Failure "Error adding flight"
                      (if fits_int64 origin_id
                       then IntegrityError CHECK_origin_destination
                       else OverflowError)
                | None => invalid_datetime
                end], db)).
  { rewrite add_new_flight_run.
    destruct (strptime departure) as [dt|]; [|reflexivity].
    unfold insert_flight.
    destruct (fits_int64 origin_id); cbn [andb negb]; [|reflexivity].
    change (status_allowed "Scheduled") with true. cbn [negb].
    now rewrite Z.eqb_refl. }
  split; [exact E|]. now rewrite E.
Qed.

(** C9.  [manage_pilots] and [manage_destinations] asked to update a row
    with every answer left empty run no statement: the file is the same
    file, nothing is printed after the menu, and in particular no error
    line. *)
Theorem update_without_fields_is_noop
    (db : database) (pilot_id dest_id : Z) :
  run (manage_pilots (Update_a_pilot pilot_id "" "" None)) db =
    (pilot_menu, db) /\
  run (manage_destinations (Update_destination dest_id "" "" "")) db =
    (destination_menu, db).
Proof. split; reflexivity. Qed.

(** ** C5: a pilot with assignments is not deleted *)

Lemma filter_twice {R} (p q : R -> bool) (t : list R) :
  filter p (filter q t) = filter (fun r => q r && p r) t.
Proof.
  induction t as [|r t IH]; cbn [filter]; [reflexivity|].
  destruct (q r); cbn [filter andb]; [destruct (p r)|]; now rewrite IH.
Qed.

Lemma filter_agree {R} (p q : R -> bool) (t : list R) :
  (forall r, In r t -> p r = q r) -> filter p t = filter q t.
Proof.
  induction t as [|r t IH]; cbn [filter]; intros H; [reflexivity|].
  rewrite (H r (or_introl eq_refl)), IH; [reflexivity|].
  intros x Hx. apply H. now right.
Qed.

(** Deleting the assignments of a list one by one leaves the rows whose id
    is not in the list. *)
Lemma delete_each_assignment (gone : list assignment) (db : database) :
  fold_left
    (fun d a => turn (Menu_delete_pilot_assignment (pa_assignment_id a)) d)
    gone db =
  set_pilot_assignments
    (filter
       (fun a => negb (existsb (fun g => (pa_assignment_id a =?
                                           pa_assignment_id g)%Z) gone))
       (pilot_assignments db)) db.
Proof.
  revert db. induction gone as [|g gone IH]; intros db; cbn [fold_left].
  - cbn [existsb negb]. rewrite <- (set_pilot_assignments_same db) at 1.
    f_equal. induction (pilot_assignments db) as [|a t IHt];
      cbn [filter]; [reflexivity|now rewrite <- IHt].
  - rewrite IH, delete_pilot_assignment_turn.
    unfold set_pilot_assignments. cbn [pilot_assignments pilots
      destinations flights]. f_equal.
    rewrite filter_twice. apply filter_agree. intros a _.
    cbn [existsb]. now rewrite negb_orb.
Qed.

Lemma filter_nothing {R} (p : R -> bool) (t : list R) :
  (forall r, In r t -> p r = false) -> filter p t = [].
Proof.
  induction t as [|r t IH]; cbn [filter]; intros H; [reflexivity|].
  rewrite (H r (or_introl eq_refl)). apply IH.
  intros x Hx. apply H. now right.
Qed.

Lemma delete_assignments_of_none pilot_id db :
  count_assignments pilot_id (delete_assignments_of pilot_id db) = 0 /\
  pilots (delete_assignments_of pilot_id db) = pilots db.
Proof.
  unfold delete_assignments_of. rewrite delete_each_assignment.
  split; [|reflexivity].
  unfold count_assignments, set_pilot_assignments.
  cbn [pilot_assignments]. rewrite filter_twice, filter_nothing;
    [reflexivity|].
  intros a Ha.
  destruct (pa_pilot_id a =? pilot_id)%Z eqn:Hp;
    [|now rewrite andb_false_r].
  rewrite andb_true_r. apply negb_false_iff, existsb_exists.
  exists a. split; [|apply Z.eqb_refl].
  unfold assignments_of. apply filter_In. now split.
Qed.

(** C5.  For a pilot who has a row and [N > 0] assignments,
    [manage_pilots] asked to delete the pilot prints the refusal with the
    count [N] and leaves the file as it was, so the pilot's row is still
    there.  Once [delete_pilot_assignment] has been called for each of the
    pilot's assignments, none is left, and the same request deletes the
    pilot's row and says so. *)
Theorem delete_pilot_refused_while_assigned
    (db : database) (pilot_id : Z) :
  pilot_exists pilot_id db = true ->
  0 < count_assignments pilot_id db ->
  run (manage_pilots (Delete_a_pilot pilot_id)) db =
    (pilot_menu ++ [CannotDelete (count_assignments pilot_id db)], db) /\
  count_assignments pilot_id (delete_assignments_of pilot_id db) = 0 /\
  run (manage_pilots (Delete_a_pilot pilot_id))
    (delete_assignments_of pilot_id db) =
    (pilot_menu ++ [Text "Pilot deleted successfully"],
     set_pilots
       (filter (fun p => negb (p_pilot_id p =? pilot_id)%Z) (pilots db))
       (delete_assignments_of pilot_id db)) /\
  pilot_exists pilot_id
    (snd (run (manage_pilots (Delete_a_pilot pilot_id))
            (delete_assignments_of pilot_id db))) = false.
Proof.
  intros Hp Hn.
  destruct (delete_assignments_of_none pilot_id db) as [H0 Hpilots].
  assert (E : run (manage_pilots (Delete_a_pilot pilot_id))
                (delete_assignments_of pilot_id db) =
              (pilot_menu ++ [Text "Pilot deleted successfully"],
               set_pilots
                 (filter (fun p => negb (p_pilot_id p =? pilot_id)%Z)
                    (pilots db))
                 (delete_assignments_of pilot_id db))).
  { rewrite delete_a_pilot_run, H0. cbn [Nat.ltb Nat.leb].
    unfold pilot_exists in *. now rewrite Hpilots, Hp. }
  repeat split.
  - rewrite delete_a_pilot_run.
    apply Nat.ltb_lt in Hn. now rewrite Hn.
  - exact H0.
  - exact E.
  - rewrite E. cbn [snd]. unfold pilot_exists, set_pilots.
    cbn [pilots].
    apply not_true_is_false. intros H.
    apply existsb_exists in H as (p & Hin & Hid).
    apply filter_In in Hin as [_ Hne]. now rewrite Hid in Hne.
Qed.

(** Pilot 1 of the sample data has two assignments, with ids 1 and 11. *)
Lemma delete_pilot_refused_while_assigned_witness :
  run (manage_pilots (Delete_a_pilot 1)) sample_database =
    (pilot_menu ++ [CannotDelete (count_assignments 1 sample_database)],
     sample_database) /\
  count_assignments 1 (delete_assignments_of 1 sample_database) = 0 /\
  run (manage_pilots (Delete_a_pilot 1))
    (delete_assignments_of 1 sample_database) =
    (pilot_menu ++ [Text "Pilot deleted successfully"],
     set_pilots
       (filter (fun p => negb (p_pilot_id p =? 1)%Z)
          (pilots sample_database))
       (delete_assignments_of 1 sample_database)) /\
  pilot_exists 1
    (snd (run (manage_pilots (Delete_a_pilot 1))
            (delete_assignments_of 1 sample_database))) = false.
Proof.
  apply (delete_pilot_refused_while_assigned sample_database 1).
  - vm_compute. reflexivity.
  - vm_compute. lia.
Defined.

Example sample_pilot_1_assignments :
  count_assignments 1 sample_database = 2 /\
  map pa_assignment_id (assignments_of 1 sample_database) = [1; 11]%Z.
Proof. vm_compute. split; reflexivity. Qed.

(** ** C2, C7 and C3: what [add_new_flight] takes and what it refuses *)

(** C2.  The [INSERT] of [add_new_flight] is not checked against
    [destinations]: with destinations 1 and 2 only, a flight from 1 to 99
    is added and committed, although no destination has the id 99. *)
Theorem add_flight_unknown_destination_inserted :
  destination_exists 99 two_destinations = false /\
  run (add_new_flight "BA900" 1 99 "2025-06-01 10:00") two_destinations =
  (destination_listing two_destinations ++
   [Text "Flight added successfully"],
   set_flights [mkFlight 1 "BA900" 1 99 "2025-06-01 10:00:00" "Scheduled"]
     two_destinations).
Proof. split; reflexivity. Qed.

(** The same for any request: when the two ids differ and the departure
    time parses, the row is inserted whether the ids are ids of
    destinations or not. *)
Lemma add_new_flight_inserts num o d dep dt db :
  strptime dep = Some dt ->
  fits_int64 o = true -> fits_int64 d = true -> o <> d ->
  run (add_new_flight num o d dep) db =
  (destination_listing db ++ [Text "Flight added successfully"],
   set_flights
     (flights db ++
      [mkFlight (next_rowid (map f_flight_id (flights db))) num o d
         (strftime dt) "Scheduled"]) db).
Proof.
  intros Hdt Ho Hd Hne. rewrite add_new_flight_run, Hdt.
  unfold insert_flight, pragma_foreign_keys. rewrite Ho, Hd.
  change (status_allowed "Scheduled") with true. cbn [andb negb].
  apply Z.eqb_neq in Hne. now rewrite Hne.
Qed.

Lemma in_flights_with_cities f d1 d2 db :
  In f (flights db) -> In d1 (destinations db) -> In d2 (destinations db) ->
  f_origin_id f = d_destination_id d1 ->
  f_destination_id f = d_destination_id d2 ->
  In (f, d1, d2) (flights_with_cities db).
Proof.
  intros Hf H1 H2 E1 E2. unfold flights_with_cities.
  apply in_flat_map. exists f. split; [exact Hf|].
  apply in_flat_map. exists d1. split.
  - apply filter_In. split; [exact H1|]. now apply Z.eqb_eq.
  - apply in_map, filter_In. split; [exact H2|]. now apply Z.eqb_eq.
Qed.

(** C7, as the code has it.  For two rows of [destinations] with distinct
    ids and a departure time that parses, so that it is a date and a time
    and not their shape alone, [add_new_flight] adds the flight, and the
    query behind "View Flights by Criteria / All" returns it with the two
    cities, the departure time with seconds, and the status "Scheduled".
    The ids are 64-bit as every key SQLite stores. *)
Theorem add_flight_valid_request_retrievable
    (db : database) (flight_num departure : string) (dt : datetime)
    (d1 d2 : destination) :
  In d1 (destinations db) -> In d2 (destinations db) ->
  d_destination_id d1 <> d_destination_id d2 ->
  fits_int64 (d_destination_id d1) = true ->
  fits_int64 (d_destination_id d2) = true ->
  strptime departure = Some dt ->
  fst (run (add_new_flight flight_num (d_destination_id d1)
              (d_destination_id d2) departure) db) =
    destination_listing db ++ [Text "Flight added successfully"] /\
  In (flight_num, d_city d1, d_city d2, strftime dt, "Scheduled")
    (all_flights_query
       (snd (run (add_new_flight flight_num (d_destination_id d1)
                    (d_destination_id d2) departure) db))).
Proof.
  intros H1 H2 Hne Hf1 Hf2 Hdt.
  rewrite (add_new_flight_inserts _ _ _ _ _ _ Hdt Hf1 Hf2 Hne).
  cbn [fst snd]. split; [reflexivity|].
  unfold all_flights_query.
  set (f := mkFlight _ _ _ _ _ _).
  change (flight_num, d_city d1, d_city d2, strftime dt, "Scheduled")
    with ((fun '(f, d1, d2) =>
             (f_flight_number f, d_city d1, d_city d2, f_departure_time f,
              f_status f)) (f, d1, d2)).
  apply in_map, in_flights_with_cities; try reflexivity;
    [|exact H1|exact H2].
  cbn [flights set_flights]. apply in_or_app. right. now left.
Qed.

Lemma add_flight_valid_request_retrievable_witness :
  fst (run (add_new_flight "BA900" 1 2 "2025-06-01 10:00")
         two_destinations) =
    destination_listing two_destinations ++
    [Text "Flight added successfully"] /\
  In ("BA900", "London", "Paris", "2025-06-01 10:00:00", "Scheduled")
    (all_flights_query
       (snd (run (add_new_flight "BA900" 1 2 "2025-06-01 10:00")
               two_destinations))).
Proof.
  apply (add_flight_valid_request_retrievable two_destinations "BA900"
           "2025-06-01 10:00" (mkDatetime 2025 6 1 10 0 0)
           (mkDestination 1 "London" "UK" "LHR")
           (mkDestination 2 "Paris" "France" "CDG")).
  - left. reflexivity.
  - right. left. reflexivity.
  - discriminate.
  - reflexivity.
  - reflexivity.
  - reflexivity.
Defined.

(** C7, as stated, fails: "2025-02-30 10:00" has the shape
    YYYY-MM-DD HH:MM and the two destinations exist, but February has no
    30th day, the text does not parse, and no flight is added. *)
Lemma add_flight_day_outside_month_refused :
  shape_YYYY_MM_DD_HH_MM "2025-02-30 10:00" = true /\
  destination_exists 1 two_destinations = true /\
  destination_exists 2 two_destinations = true /\
  run (add_new_flight "BA900" 1 2 "2025-02-30 10:00") two_destinations =
  (destination_listing two_destinations ++ [invalid_datetime],
   two_destinations).
Proof. repeat split. Qed.

(** C3, as the code has it.  A text that [strptime] does not take is
    answered with the format message and the file is left as it was: by
    [add_new_flight], by [update_flight_info] asked for a new departure
    time, and by [assign_pilot] for a date that is not blank (it strips
    the answer first, and asks for a date only after it has found the
    flight and the pilot). *)
Theorem unparsed_timestamp_changes_nothing (db : database) (text : string) :
  strptime text = None ->
  (forall flight_num origin_id dest_id,
     run (add_new_flight flight_num origin_id dest_id text) db =
     (destination_listing db ++ [invalid_datetime], db)) /\
  (forall flight_num,
     run (update_flight_info flight_num 1 text) db =
     (update_menu ++ [invalid_datetime], db)) /\
  (forall sql_now now flight_id pilot_id answer,
     strip answer = text -> text <> "" ->
     snd (run (assign_pilot sql_now now flight_id pilot_id answer) db) =
       db /\
     (fits_int64 flight_id = true -> flight_exists flight_id db = true ->
      fits_int64 pilot_id = true -> pilot_exists pilot_id db = true ->
      run (assign_pilot sql_now now flight_id pilot_id answer) db =
      (assignment_listing sql_now db ++ [invalid_datetime], db))).
Proof.
  intros Hnone. split; [|split].
  - intros. now rewrite add_new_flight_run, Hnone.
  - intros. now rewrite update_flight_info_run, Hnone.
  - intros sql_now now flight_id pilot_id answer Hstrip Hblank.
    apply String.eqb_neq in Hblank.
    assert (Hdate : accepted_date now answer = None).
    { unfold accepted_date. now rewrite Hstrip, Hblank, Hnone. }
    rewrite assign_pilot_run. cbv zeta. rewrite Hdate. split.
    + repeat match goal with
             | |- context [if ?c then _ else _] => destruct c
             end; reflexivity.
    + intros Hf He Hp Hq. now rewrite Hf, He, Hp, Hq.
Qed.

Lemma unparsed_timestamp_changes_nothing_witness :
  run (add_new_flight "BA900" 1 2 "01/06/2025 10:00") sample_database =
    (destination_listing sample_database ++ [invalid_datetime],
     sample_database) /\
  run (update_flight_info "BA101" 1 "01/06/2025 10:00") sample_database =
    (update_menu ++ [invalid_datetime], sample_database) /\
  run (assign_pilot "2025-03-01 00:00:00" (mkDatetime 2025 3 1 0 0 0) 1 3
         " 01/06/2025 10:00 ") sample_database =
    (assignment_listing "2025-03-01 00:00:00" sample_database ++
     [invalid_datetime], sample_database).
Proof.
  destruct (unparsed_timestamp_changes_nothing sample_database
              "01/06/2025 10:00" eq_refl) as (Hadd & Hupdate & Hassign).
  split; [apply Hadd|]. split; [apply Hupdate|].
  apply Hassign.
  - reflexivity.
  - discriminate.
  - reflexivity.
  - vm_compute. reflexivity.
  - reflexivity.
  - vm_compute. reflexivity.
Defined.

(** C3, as stated, fails: "2025-6-1 9:5" does not have the shape
    YYYY-MM-DD HH:MM, yet [strptime] takes it, and the flight is added
    with the departure time "2025-06-01 09:05:00". *)
Lemma add_flight_short_fields_accepted :
  shape_YYYY_MM_DD_HH_MM "2025-6-1 9:5" = false /\
  run (add_new_flight "BA900" 1 2 "2025-6-1 9:5") two_destinations =
  (destination_listing two_destinations ++
   [Text "Flight added successfully"],
   set_flights [mkFlight 1 "BA900" 1 2 "2025-06-01 09:05:00" "Scheduled"]
     two_destinations).
Proof. split; reflexivity. Qed.

(** ** Timestamps: what [strftime] writes *)

Lemma is_digit_digit_char n : n < 10 -> is_digit (digit_char n) = true.
Proof.
  intros H. do 10 (destruct n as [|n]; [reflexivity|]). lia.
Qed.

Lemma digit_char_digit_val c : is_digit c = true -> digit_char (digit_val c) = c.
Proof.
  destruct c as [[] [] [] [] [] [] [] []]; cbv; first [reflexivity | discriminate].
Qed.

Lemma digit_val_bound c : is_digit c = true -> digit_val c < 10.
Proof.
  destruct c as [[] [] [] [] [] [] [] []]; cbv; first [discriminate | lia].
Qed.

Lemma digit_val_digit_char n : n < 10 -> digit_val (digit_char n) = n.
Proof.
  intros H. do 10 (destruct n as [|n]; [reflexivity|]). lia.
Qed.


(** The year is printed with as many digits as it has, four at most. *)
Lemma year_digits_width y :
  year_digits y =
  if y <? 10 then [digit_char (y mod 10)]
  else if y <? 100 then [digit_char (y / 10 mod 10); digit_char (y mod 10)]
  else if y <? 1000
  then [digit_char (y / 100 mod 10); digit_char (y / 10 mod 10);
        digit_char (y mod 10)]
  else pad4 y.
Proof.
  unfold year_digits, pad4.
  destruct (y <? 10), (y <? 100), (y <? 1000); reflexivity.
Qed.

Ltac digits_of_fields :=
  repeat first
    [ rewrite is_digit_digit_char by (apply Nat.mod_upper_bound; lia)
    | rewrite digit_val_digit_char by (apply Nat.mod_upper_bound; lia)
    | progress change (is_digit "-"%char) with false
    | progress change (is_digit " "%char) with false
    | progress change (is_digit ":"%char) with false
    | progress cbn [app skip_digits andb shape_after_year digits_number
                    filter length] ].

(** Whatever the date, [strftime] writes a year and
    [-MM-DD HH:MM:SS]. *)
Lemma strftime_shape dt : shape_year_with_seconds (strftime dt) = true.
Proof.
  unfold shape_year_with_seconds, strftime.
  rewrite list_ascii_of_string_of_list_ascii, year_digits_width.
  unfold pad4, pad2.
  destruct (year dt <? 10), (year dt <? 100), (year dt <? 1000);
    digits_of_fields; reflexivity.
Qed.


Lemma digit_cases c :
  is_digit c = true ->
  c = "0"%char \/ c = "1"%char \/ c = "2"%char \/ c = "3"%char \/
  c = "4"%char \/ c = "5"%char \/ c = "6"%char \/ c = "7"%char \/
  c = "8"%char \/ c = "9"%char.
Proof.
  destruct c as [[] [] [] [] [] [] [] []]; cbv; intros H;
    first [discriminate | tauto].
Qed.

Ltac each_digit H :=
  apply digit_cases in H;
  destruct H as [H|[H|[H|[H|[H|[H|[H|[H|[H|H]]]]]]]]]; subst.

Ltac two_digit_field :=
  let Ha := fresh in let Hb := fresh in let E := fresh in
  intros Ha Hb E; each_digit Ha; each_digit Hb; cbn in E;
  first [discriminate E | injection E as <- <-; auto].

(** A directive on two digits reads both, or reads one and leaves the
    other in front of the rest. *)
Lemma re_m_two_digits a b rest v rest' :
  is_digit a = true -> is_digit b = true ->
  re_m (a :: b :: rest) = Some (v, rest') ->
  (rest' = rest /\ pad2 v = [a; b]) \/ rest' = b :: rest.
Proof. two_digit_field. Qed.

Lemma re_d_two_digits a b rest v rest' :
  is_digit a = true -> is_digit b = true ->
  re_d (a :: b :: rest) = Some (v, rest') ->
  (rest' = rest /\ pad2 v = [a; b]) \/ rest' = b :: rest.
Proof. two_digit_field. Qed.

Lemma re_H_two_digits a b rest v rest' :
  is_digit a = true -> is_digit b = true ->
  re_H (a :: b :: rest) = Some (v, rest') ->
  (rest' = rest /\ pad2 v = [a; b]) \/ rest' = b :: rest.
Proof. two_digit_field. Qed.

Lemma re_M_two_digits a b rest v rest' :
  is_digit a = true -> is_digit b = true ->
  re_M (a :: b :: rest) = Some (v, rest') ->
  (rest' = rest /\ pad2 v = [a; b]) \/ rest' = b :: rest.
Proof. two_digit_field. Qed.

Lemma pad4_digits a b c d :
  is_digit a = true -> is_digit b = true -> is_digit c = true ->
  is_digit d = true ->
  pad4 (1000 * digit_val a + 100 * digit_val b + 10 * digit_val c
        + digit_val d) = [a; b; c; d].
Proof.
  intros Ha Hb Hc Hd.
  rewrite <- (digit_char_digit_val a Ha) at 2.
  rewrite <- (digit_char_digit_val b Hb) at 2.
  rewrite <- (digit_char_digit_val c Hc) at 2.
  rewrite <- (digit_char_digit_val d Hd) at 2.
  apply digit_val_bound in Ha, Hb, Hc, Hd.
  generalize dependent (digit_val a). intros x Hx.
  generalize dependent (digit_val b). intros y Hy.
  generalize dependent (digit_val c). intros z Hz.
  generalize dependent (digit_val d). intros t Ht.
  unfold pad4.
  assert (E1 : (1000 * x + 100 * y + 10 * z + t) / 1000 mod 10 = x).
  { rewrite <- (Nat.div_unique (1000 * x + 100 * y + 10 * z + t) 1000 x
                 (100 * y + 10 * z + t)) by lia.
    now apply Nat.mod_small. }
  assert (E2 : (1000 * x + 100 * y + 10 * z + t) / 100 mod 10 = y).
  { rewrite <- (Nat.div_unique (1000 * x + 100 * y + 10 * z + t) 100
                 (10 * x + y) (10 * z + t)) by lia.
    symmetry. apply (Nat.mod_unique _ 10 x y); lia. }
  assert (E3 : (1000 * x + 100 * y + 10 * z + t) / 10 mod 10 = z).
  { rewrite <- (Nat.div_unique (1000 * x + 100 * y + 10 * z + t) 10
                 (100 * x + 10 * y + z) t) by lia.
    symmetry. apply (Nat.mod_unique _ 10 (10 * x + y) z); lia. }
  assert (E4 : (1000 * x + 100 * y + 10 * z + t) mod 10 = t).
  { symmetry. apply (Nat.mod_unique _ 10 (100 * x + 10 * y + z) t); lia. }
  now rewrite E1, E2, E3, E4.
Qed.

Lemma digit_not_literal c (l : ascii) rest :
  is_digit c = true -> is_digit l = false -> re_lit l (c :: rest) = None.
Proof.
  intros Hc Hl. cbn [re_lit].
  destruct (Ascii.eqb_spec c l) as [->|]; [congruence|reflexivity].
Qed.

Lemma digit_not_space c : is_digit c = true -> is_space c = false.
Proof.
  intros H. each_digit H; reflexivity.
Qed.

Lemma digit_is_zero c :
  is_digit c = true -> Ascii.eqb c "0" = (digit_val c =? 0).
Proof. intros H. each_digit H; reflexivity. Qed.

(** The year read from four digits is printed without the zeros it
    starts with. *)
Lemma year_digits_of_text a b c d :
  is_digit a = true -> is_digit b = true -> is_digit c = true ->
  is_digit d = true ->
  year_digits (1000 * digit_val a + 100 * digit_val b + 10 * digit_val c
               + digit_val d) =
  if negb (Ascii.eqb a "0") then [a; b; c; d]
  else if negb (Ascii.eqb b "0") then [b; c; d]
  else if negb (Ascii.eqb c "0") then [c; d]
  else [d].
Proof.
  intros Ha Hb Hc Hd. unfold year_digits.
  rewrite (pad4_digits a b c d Ha Hb Hc Hd).
  rewrite (digit_is_zero a Ha), (digit_is_zero b Hb), (digit_is_zero c Hc).
  apply digit_val_bound in Ha, Hb, Hc, Hd.
  generalize dependent (digit_val a). intros x Hx.
  generalize dependent (digit_val b). intros y Hy.
  generalize dependent (digit_val c). intros z Hz.
  generalize dependent (digit_val d). intros t Ht.
  destruct (Nat.eqb_spec x 0), (Nat.eqb_spec y 0), (Nat.eqb_spec z 0);
    cbn [negb];
    repeat match goal with
           | |- context [?n <? ?m] =>
               destruct (Nat.ltb_spec n m); try lia
           end;
    reflexivity.
Qed.

(** A text of the shape [YYYY-MM-DD HH:MM] that parses is written back
    without the zeros its year starts with, and with [":00"] after
    it. *)
Lemma strftime_appends_seconds text dt :
  shape_YYYY_MM_DD_HH_MM text = true ->
  strptime text = Some dt ->
  strftime dt = (without_leading_zeros text ++ ":00")%string.
Proof.
  intros Hshape Hparse.
  rewrite <- (string_of_list_ascii_of_string text).
  unfold without_leading_zeros.
  rewrite list_ascii_of_string_of_list_ascii.
  revert Hshape Hparse. unfold shape_YYYY_MM_DD_HH_MM, strptime.
  destruct (list_ascii_of_string text)
    as [|y1 [|y2 [|y3 [|y4 [|s1 [|m1 [|m2 [|s2 [|d1 [|d2 [|s3 [|h1 [|h2
        [|s4 [|n1 [|n2 [|]]]]]]]]]]]]]]]]]; try discriminate.
  intros Hshape.
  repeat match goal with
         | H : (_ && _) = true |- _ => apply andb_true_iff in H as [? ?]
         end.
  repeat match goal with
         | H : Ascii.eqb _ _ = true |- _ => apply Ascii.eqb_eq in H; subst
         end.
  unfold match_format. cbn [re_Y].
  assert (Py := year_digits_of_text y1 y2 y3 y4).
  set (y := 1000 * digit_val y1 + _ + _ + _) in *.
  repeat match goal with H : is_digit _ = true |- _ => rewrite H end.
  cbn [andb re_lit]. rewrite Ascii.eqb_refl.
  destruct (re_m _) as [[mo s3]|] eqn:Em; [|discriminate].
  apply re_m_two_digits in Em as [[-> Pm]| ->]; try assumption;
    [|now rewrite digit_not_literal].
  cbn [re_lit]. rewrite Ascii.eqb_refl.
  destruct (re_d _) as [[d s5]|] eqn:Ed; [|discriminate].
  apply re_d_two_digits in Ed as [[-> Pd]| ->]; try assumption;
    [|cbn [re_spaces]; now rewrite digit_not_space].
  cbn [re_spaces]. change (is_space " ") with true.
  cbn [skip_spaces]. rewrite (digit_not_space h1) by assumption.
  destruct (re_H _) as [[h s7]|] eqn:Eh; [|discriminate].
  apply re_H_two_digits in Eh as [[-> Ph]| ->]; try assumption;
    [|now rewrite digit_not_literal].
  cbn [re_lit]. rewrite Ascii.eqb_refl.
  destruct (re_M _) as [[mi s9]|] eqn:Emi; [|discriminate].
  apply re_M_two_digits in Emi as [[-> Pmi]| ->]; try assumption;
    [|discriminate].
  destruct (valid_datetime _); [|discriminate].
  intros [= <-]. unfold strftime. cbn [year month day hour minute second].
  rewrite Py, Pm, Pd, Ph, Pmi by assumption.
  destruct (Ascii.eqb y1 "0"), (Ascii.eqb y2 "0"), (Ascii.eqb y3 "0");
    reflexivity.
Qed.


Lemma shape_with_seconds_year text :
  shape_with_seconds text = true -> shape_year_with_seconds text = true.
Proof.
  unfold shape_with_seconds, shape_year_with_seconds.
  destruct (list_ascii_of_string text)
    as [|a1 [|a2 [|a3 [|a4 [|a5 [|a6 [|a7 [|a8 [|a9 [|a10 [|a11 [|a12
        [|a13 [|a14 [|a15 [|a16 [|a17 [|a18 [|a19 [|]]]]]]]]]]]]]]]]]]]];
    try discriminate.
  intros H.
  repeat match goal with
         | H : (_ && _) = true |- _ => apply andb_true_iff in H as [? ?]
         end.
  repeat match goal with
         | H : Ascii.eqb _ _ = true |- _ => apply Ascii.eqb_eq in H; subst
         end.
  repeat first
    [ progress
        (repeat match goal with H : is_digit _ = true |- _ => rewrite H end)
    | progress change (is_digit "-"%char) with false
    | progress cbn [skip_digits shape_after_year andb] ].
  rewrite !Ascii.eqb_refl. reflexivity.
Qed.






(** ** C6: [update_flight_info] writes by flight number *)

(** C6.  [update_flight_info] matches rows by the flight number.  For a
    departure time that parses, one call leaves in every row of [flights]
    that has the number the time as [strftime] writes it, and for an
    answer of the shape [YYYY-MM-DD HH:MM] that is the answer, without
    the zeros its year starts with, followed by [":00"]; for a status
    that is one of the seven values it leaves that status in every such
    row.  The other columns of these rows, the other rows and the other
    tables are as they were, and the change is committed.  When no row
    has the number the method prints "Flight not found" and the file is
    as it was. *)
Theorem update_flight_writes_every_match
    (db : database) (flight_num answer : string) :
  (forall dt,
     strptime answer = Some dt ->
     run (update_flight_info flight_num 1 answer) db =
     if existsb (fun f => String.eqb (f_flight_number f) flight_num)
          (flights db)
     then (update_menu ++ [Text "Flight updated successfully"],
           mkDatabase (pilots db) (destinations db)
             (map (fun f =>
                     if String.eqb (f_flight_number f) flight_num
                     then mkFlight (f_flight_id f) (f_flight_number f)
                            (f_origin_id f) (f_destination_id f)
                            (strftime dt) (f_status f)
                     else f)
                (flights db))
             (pilot_assignments db))
     else (update_menu ++ [Text "Flight not found"], db)) /\
  (forall dt,
     shape_YYYY_MM_DD_HH_MM answer = true ->
     strptime answer = Some dt ->
     strftime dt = (without_leading_zeros answer ++ ":00")%string) /\
  (status_allowed answer = true ->
   run (update_flight_info flight_num 2 answer) db =
   if existsb (fun f => String.eqb (f_flight_number f) flight_num)
        (flights db)
   then (update_menu ++ [Text "Flight updated successfully"],
         mkDatabase (pilots db) (destinations db)
           (map (fun f =>
                   if String.eqb (f_flight_number f) flight_num
                   then mkFlight (f_flight_id f) (f_flight_number f)
                          (f_origin_id f) (f_destination_id f)
                          (f_departure_time f) answer
                   else f)
              (flights db))
           (pilot_assignments db))
   else (update_menu ++ [Text "Flight not found"], db)).
Proof.
  split; [|split].
  - intros dt Hdt. rewrite update_flight_info_run. cbn [Z.eqb Pos.eqb].
    rewrite Hdt. reflexivity.
  - intros dt Hshape Hdt. now apply strftime_appends_seconds.
  - intros Hs. rewrite update_flight_info_run. cbn [Z.eqb Pos.eqb].
    rewrite Hs. reflexivity.
Qed.

(** Two rows share the flight number BA101; one call sets the departure
    time of both, another the status of both. *)
Lemma update_flight_writes_every_match_witness :
  let db :=
    mkDatabase [] []
      [mkFlight 1 "BA101" 1 2 "2025-03-10 10:00:00" "Scheduled";
       mkFlight 2 "BA102" 2 1 "2025-03-10 14:00:00" "Scheduled";
       mkFlight 3 "BA101" 1 3 "2025-03-11 09:00:00" "Scheduled"] [] in
  run (update_flight_info "BA101" 1 "2025-04-01 08:30") db =
    (update_menu ++ [Text "Flight updated successfully"],
     mkDatabase [] []
       [mkFlight 1 "BA101" 1 2 "2025-04-01 08:30:00" "Scheduled";
        mkFlight 2 "BA102" 2 1 "2025-03-10 14:00:00" "Scheduled";
        mkFlight 3 "BA101" 1 3 "2025-04-01 08:30:00" "Scheduled"] []) /\
  strftime (mkDatetime 2025 4 1 8 30 0) =
    (without_leading_zeros "2025-04-01 08:30" ++ ":00")%string /\
  run (update_flight_info "BA101" 2 "Delayed") db =
    (update_menu ++ [Text "Flight updated successfully"],
     mkDatabase [] []
       [mkFlight 1 "BA101" 1 2 "2025-03-10 10:00:00" "Delayed";
        mkFlight 2 "BA102" 2 1 "2025-03-10 14:00:00" "Scheduled";
        mkFlight 3 "BA101" 1 3 "2025-03-11 09:00:00" "Delayed"] []).
Proof.
  intros db. split; [|split].
  - exact (proj1 (update_flight_writes_every_match db "BA101"
                    "2025-04-01 08:30")
             (mkDatetime 2025 4 1 8 30 0) eq_refl).
  - exact (proj1 (proj2 (update_flight_writes_every_match db "BA101"
                           "2025-04-01 08:30"))
             (mkDatetime 2025 4 1 8 30 0) eq_refl eq_refl).
  - exact (proj2 (proj2 (update_flight_writes_every_match db "BA101"
                           "Delayed")) eq_refl).
Defined.

(** With no flight BA777 in the file nothing is written. *)
Example update_flight_no_match :
  run (update_flight_info "BA777" 2 "Delayed") sample_database =
  (update_menu ++ [Text "Flight not found"], sample_database).
Proof. vm_compute. reflexivity. Qed.

(** ** What every method keeps *)

Section Hoare.

Variable I : database -> Prop.

Lemma hoare_ret {A} (a : A) (Q : A -> Prop) : Q a -> hoare I (ret a) Q.
Proof. intros HQ w Hw. split; [exact Hw|]. now intros b [= <-]. Qed.

Lemma hoare_raise {A} (e : exn) (Q : A -> Prop) : hoare I (raise e) Q.
Proof. intros w Hw. split; [exact Hw|discriminate]. Qed.

Lemma hoare_return {A} (Q : A -> Prop) : hoare I return_ Q.
Proof. intros w Hw. split; [exact Hw|discriminate]. Qed.

Lemma hoare_bind {A B} (m : M A) (k : A -> M B) (Q : A -> Prop)
    (R : B -> Prop) :
  hoare I m Q -> (forall a, Q a -> hoare I (k a) R) -> hoare I (bind m k) R.
Proof.
  intros Hm Hk w Hw. unfold bind.
  destruct (Hm w Hw) as [Hkeep Hval].
  destruct (m w) as [[a| e |] w']; cbn [fst snd] in *.
  - exact (Hk a (Hval a eq_refl) w' Hkeep).
  - split; [exact Hkeep|discriminate].
  - split; [exact Hkeep|discriminate].
Qed.

Lemma hoare_seq {A B} (m : M A) (k : A -> M B) (R : B -> Prop) :
  hoare I m (fun _ => True) -> (forall a, hoare I (k a) R) ->
  hoare I (bind m k) R.
Proof. intros Hm Hk. apply (hoare_bind m k (fun _ => True)); auto. Qed.

Lemma hoare_try_except {A} (body : M A) (handler : exn -> M A)
    (Q : A -> Prop) :
  hoare I body Q -> (forall e, hoare I (handler e) Q) ->
  hoare I (try_except body handler) Q.
Proof.
  intros Hb Hh w Hw. unfold try_except.
  destruct (Hb w Hw) as [Hkeep Hval].
  destruct (body w) as [[a| e |] w']; cbn [fst snd] in *.
  - split; assumption.
  - exact (Hh e w' Hkeep).
  - split; [exact Hkeep|discriminate].
Qed.

Lemma hoare_try_except_ValueError {A} (body handler : M A)
    (Q : A -> Prop) :
  hoare I body Q -> hoare I handler Q ->
  hoare I (try_except_ValueError body handler) Q.
Proof.
  intros Hb Hh w Hw. unfold try_except_ValueError.
  destruct (Hb w Hw) as [Hkeep Hval].
  destruct (body w) as [[a| [] |] w']; cbn [fst snd] in *;
    try (split; [exact Hkeep|discriminate]).
  - split; assumption.
  - exact (Hh w' Hkeep).
Qed.

Lemma hoare_try_finally {A} (body : M A) (final : M unit) (Q : A -> Prop) :
  hoare I body Q -> hoare I final (fun _ => True) ->
  hoare I (try_finally body final) Q.
Proof.
  intros Hb Hf w Hw. unfold try_finally.
  destruct (Hb w Hw) as [Hkeep Hval].
  destruct (body w) as [r w']; cbn [fst snd] in *.
  split; [exact (proj1 (Hf w' Hkeep))|exact Hval].
Qed.

Lemma hoare_print l : hoare I (print l) (fun _ => True).
Proof. intros w Hw. split; [exact Hw|trivial]. Qed.

Lemma hoare_print_all ls : hoare I (print_all ls) (fun _ => True).
Proof. intros w Hw. split; [exact Hw|trivial]. Qed.

Lemma hoare_get_connection : hoare I get_connection (fun _ => True).
Proof. intros w [Hf Hc]. split; [split; exact Hf|trivial]. Qed.

Lemma hoare_commit : hoare I commit (fun _ => True).
Proof. intros w [Hf Hc]. split; [split; exact Hc|trivial]. Qed.

Lemma hoare_close : hoare I close (fun _ => True).
Proof. intros w [Hf Hc]. split; [split; exact Hf|trivial]. Qed.

Lemma hoare_query {A} (q : database -> A) : hoare I (query q) (fun _ => True).
Proof. intros w Hw. split; [exact Hw|trivial]. Qed.

Lemma hoare_get_rowcount : hoare I get_rowcount (fun _ => True).
Proof. intros w Hw. split; [exact Hw|trivial]. Qed.

Lemma hoare_bind_int z : hoare I (bind_int z) (fun _ => True).
Proof.
  unfold bind_int. destruct (fits_int64 z);
    [now apply hoare_ret|apply hoare_raise].
Qed.

Lemma hoare_execute stmt :
  statement_keeps I stmt -> hoare I (execute stmt) (fun _ => True).
Proof.
  intros Hs w [Hf Hc]. unfold execute.
  destruct (stmt (conn w)) as [e|[db n]] eqn:E; cbn [fst snd].
  - split; [now split|trivial].
  - split; [|trivial]. split; [exact Hf|]. exact (Hs _ _ _ Hc E).
Qed.

Lemma hoare_for_each {A} (l : list A) (body : A -> M unit) :
  (forall x, In x l -> hoare I (body x) (fun _ => True)) ->
  hoare I (for_each l body) (fun _ => True).
Proof.
  induction l as [|x l IH]; intros H; cbn [for_each].
  - now apply hoare_ret.
  - apply hoare_seq; [apply H; now left|].
    intros _. apply IH. intros y Hy. apply H. now right.
Qed.

(** The text a method stores for a timestamp it has parsed is a year
    and [-MM-DD HH:MM:SS]. *)
Lemma hoare_parse_timestamp text :
  hoare I
    (try_except_ValueError
       (bind (py_strptime text) (fun dt => ret (strftime dt)))
       (bind (print invalid_datetime) (fun _ => return_)))
    (fun t => shape_year_with_seconds t = true).
Proof.
  apply hoare_try_except_ValueError.
  - apply (hoare_bind _ _ (fun _ => True)).
    + unfold py_strptime. destruct (strptime text);
        [now apply hoare_ret|apply hoare_raise].
    + intros dt _. apply hoare_ret, strftime_shape.
  - apply hoare_seq; [apply hoare_print|]. intros _. apply hoare_return.
Qed.

(** A method that keeps [I] leaves a file that satisfies it. *)
Lemma hoare_run (method : M unit) (db : database) :
  hoare I method (fun _ => True) -> I db -> I (snd (run method db)).
Proof.
  intros Hm Hdb. unfold run. cbn [snd].
  exact (proj1 (proj1 (Hm (mkWorld db db (-1) []) (conj Hdb Hdb)))).
Qed.

(** *** The methods, given that the statements keep [I] *)

Hypothesis keeps_insert_pilot :
  forall n l y, statement_keeps I (insert_pilot n l y).
Hypothesis keeps_insert_destination :
  forall c k a, statement_keeps I (insert_destination c k a).
Hypothesis keeps_insert_flight :
  forall n o d t s, shape_year_with_seconds t = true ->
    statement_keeps I (insert_flight n o d t s).
Hypothesis keeps_insert_assignment :
  forall f p t, shape_year_with_seconds t = true ->
    statement_keeps I (insert_assignment f p t).
Hypothesis keeps_update_departure_time :
  forall t n, shape_year_with_seconds t = true ->
    statement_keeps I (update_departure_time t n).
Hypothesis keeps_update_status :
  forall s n, statement_keeps I (update_status s n).
Hypothesis keeps_update_pilot :
  forall u p, statement_keeps I (update_pilot u p).
Hypothesis keeps_update_destination :
  forall u d, statement_keeps I (update_destination u d).
Hypothesis keeps_delete_flights :
  forall n, statement_keeps I (delete_flights n).
Hypothesis keeps_delete_assignment :
  forall a, statement_keeps I (delete_assignment a).
Hypothesis keeps_delete_pilot :
  forall p, statement_keeps I (delete_pilot p).

Ltac hoare_step :=
  lazymatch goal with
  | |- forall _, _ => intro
  | |- hoare _ (let _ := _ in _) _ => cbv zeta
  | |- hoare _ (try_finally _ _) _ => apply hoare_try_finally
  | |- hoare _ (try_except _ _) _ => apply hoare_try_except
  | |- hoare _ (bind (try_except_ValueError _ _) _) _ =>
      apply (hoare_bind _ _ (fun t => shape_year_with_seconds t = true));
      [apply hoare_parse_timestamp|intros]
  | |- hoare _ (bind (if ?c then ret (strftime _) else _) _) _ =>
      apply (hoare_bind _ _ (fun t => shape_year_with_seconds t = true));
      [destruct c;
       [apply hoare_ret, strftime_shape|apply hoare_parse_timestamp]
      |intros]
  | |- hoare _ (bind _ _) _ => apply hoare_seq
  | |- hoare _ close _ => apply hoare_close
  | |- hoare _ get_connection _ => apply hoare_get_connection
  | |- hoare _ commit _ => apply hoare_commit
  | |- hoare _ (print _) _ => apply hoare_print
  | |- hoare _ (print_all _) _ => apply hoare_print_all
  | |- hoare _ (query _) _ => apply hoare_query
  | |- hoare _ get_rowcount _ => apply hoare_get_rowcount
  | |- hoare _ (bind_int _) _ => apply hoare_bind_int
  | |- hoare _ return_ _ => apply hoare_return
  | |- hoare _ (ret _) _ => apply hoare_ret; exact Logic.I
  | |- hoare _ (execute _) _ => apply hoare_execute; auto
  | |- hoare _ (if ?c then _ else _) _ => destruct c
  | |- hoare _ (match ?x with _ => _ end) _ => destruct x
  end.

Ltac hoare_method := repeat hoare_step.

Lemma hoare_add_new_flight n o d t :
  hoare I (add_new_flight n o d t) (fun _ => True).
Proof. unfold add_new_flight. hoare_method. Qed.

Lemma hoare_update_flight_info n c a :
  hoare I (update_flight_info n c a) (fun _ => True).
Proof. unfold update_flight_info. hoare_method. Qed.

Lemma hoare_assign_pilot s now f p d :
  hoare I (assign_pilot s now f p d) (fun _ => True).
Proof.
  unfold assign_pilot, validate_flight_id_exists, validate_pilot_exists.
  hoare_method.
Qed.

Lemma hoare_manage_destinations c :
  hoare I (manage_destinations c) (fun _ => True).
Proof. unfold manage_destinations. hoare_method. Qed.

Lemma hoare_delete_flight n : hoare I (delete_flight n) (fun _ => True).
Proof. unfold delete_flight. hoare_method. Qed.

Lemma hoare_delete_pilot_assignment a :
  hoare I (delete_pilot_assignment a) (fun _ => True).
Proof. unfold delete_pilot_assignment. hoare_method. Qed.

Lemma hoare_manage_pilots c : hoare I (manage_pilots c) (fun _ => True).
Proof. unfold manage_pilots. hoare_method. Qed.

Lemma hoare_populate_sample_data :
  hoare I populate_sample_data (fun _ => True).
Proof.
  unfold populate_sample_data. hoare_method.
  all: apply hoare_for_each; intros x Hx.
  all: repeat match goal with x : (_ * _)%type |- _ => destruct x end.
  all: apply hoare_execute; auto.
  - apply keeps_insert_flight.
    cbn [In] in Hx.
    repeat (destruct Hx as [Hx|Hx]; [injection Hx as <- <- <- <- <-; 
                                       reflexivity|]).
    contradiction.
  - apply keeps_insert_assignment.
    cbn [In] in Hx.
    repeat (destruct Hx as [Hx|Hx]; [injection Hx as <- <- <-;
                                       reflexivity|]).
    contradiction.
Qed.

(** One turn of the menu loop keeps [I]. *)
Lemma turn_keeps (m : menu) (db : database) : I db -> I (turn m db).
Proof.
  intros Hdb. unfold turn. apply hoare_run; [|exact Hdb].
  destruct m; cbn [dispatch].
  - apply hoare_add_new_flight.
  - apply hoare_update_flight_info.
  - apply hoare_assign_pilot.
  - apply hoare_manage_destinations.
  - apply hoare_delete_flight.
  - apply hoare_manage_pilots.
  - apply hoare_delete_pilot_assignment.
  - apply hoare_populate_sample_data.
Qed.

(** What the empty tables satisfy and every statement keeps holds in
    every state the program can bring about. *)
Lemma reachable_keeps (db : database) :
  I empty_database -> reachable db -> I db.
Proof.
  intros H0 Hr. induction Hr as [|db m _ IH]; [exact H0|].
  now apply turn_keeps.
Qed.

End Hoare.

(** ** The three invariants of the file *)

Lemma fold_max_bound (i : Z) (ids : list Z) :
  (i <= fold_right Z.max i ids)%Z /\
  (forall x, In x ids -> x <= fold_right Z.max i ids)%Z.
Proof.
  induction ids as [|y ids [IH1 IH2]]; cbn [fold_right].
  - split; [lia|]. intros x [].
  - split; [lia|]. intros x [<-|Hx]; [lia|]. specialize (IH2 x Hx). lia.
Qed.

(** The key an [INSERT] gives is not in the table. *)
Lemma next_rowid_fresh (ids : list Z) : ~ In (next_rowid ids) ids.
Proof.
  destruct ids as [|i ids]; [intros []|]. cbn [next_rowid].
  destruct (fold_max_bound i ids) as [H1 H2].
  intros [H|H]; [lia|]. specialize (H2 _ H). lia.
Qed.

Lemma NoDup_snoc {A} (l : list A) (x : A) :
  NoDup l -> ~ In x l -> NoDup (l ++ [x]).
Proof.
  induction l as [|y l IH]; intros Hl Hx; cbn [app].
  - constructor; [intros []|constructor].
  - inversion Hl as [|? ? Hy Hl']; subst. constructor.
    + intros H. apply in_app_or in H as [H|[->|[]]]; [contradiction|].
      apply Hx. now left.
    + apply IH; [exact Hl'|]. intros H. apply Hx. now right.
Qed.

Lemma NoDup_map_filter {R K} (key : R -> K) (keep : R -> bool)
    (t : list R) :
  NoDup (map key t) -> NoDup (map key (filter keep t)).
Proof.
  induction t as [|r t IH]; cbn [map filter]; intros H; [constructor|].
  inversion H as [|? ? Hr Ht]; subst.
  destruct (keep r); cbn [map]; [|now apply IH].
  constructor; [|now apply IH].
  intros Hin. apply Hr. apply in_map_iff in Hin as (y & <- & Hy).
  apply in_map. now apply filter_In in Hy as [Hy _].
Qed.

Lemma Forall_filter_keeps {A} (P : A -> Prop) (p : A -> bool) (l : list A) :
  Forall P l -> Forall P (filter p l).
Proof.
  rewrite !Forall_forall. intros H x Hx.
  apply H. now apply filter_In in Hx as [Hx _].
Qed.

Lemma map_key_unchanged {A B} (key : A -> B) (hit : A -> bool)
    (change : A -> A) (l : list A) :
  (forall r, key (change r) = key r) ->
  map key (map (fun r => if hit r then change r else r) l) = map key l.
Proof.
  intros H. rewrite map_map. apply map_ext. intros r.
  destruct (hit r); [apply H|reflexivity].
Qed.

(** An [UPDATE] that leaves a column alone leaves the column of the table
    as it was. *)
Lemma update_rows_key {R B} (key : R -> B) hit change clash
    (done todo t : list R) :
  (forall r, key (change r) = key r) ->
  update_rows hit change clash done todo = Some t ->
  map key t = map key (done ++ todo).
Proof.
  intros Hkey. revert done.
  induction todo as [|r todo IH]; intros done; cbn [update_rows].
  - intros [= <-]. now rewrite app_nil_r.
  - destruct (hit r).
    + destruct (existsb _ _); [discriminate|].
      intros E. rewrite (IH _ E), <- app_assoc, !map_app. cbn [map app].
      now rewrite Hkey.
    + intros E. now rewrite (IH _ E), <- app_assoc.
Qed.

Lemma fold_pilot_update_id updates p :
  p_pilot_id (fold_left apply_pilot_update updates p) = p_pilot_id p.
Proof.
  revert p. induction updates as [|u updates IH]; intros p;
    cbn [fold_left]; [reflexivity|].
  rewrite IH. now destruct u.
Qed.

(** Opens a statement that has succeeded: every test on the way is
    decided, the failing branches go. *)
Ltac open_statement E :=
  repeat match type of E with
         | context [if ?c then _ else _] =>
             let C := fresh "C" in destruct c eqn:C
         | context [match ?x with Some _ => _ | None => _ end] =>
             let C := fresh "C" in destruct x eqn:C
         end;
  try discriminate E;
  injection E as <- <-.

Ltac untouched stmt :=
  let db := fresh "db" in let db' := fresh "db'" in let n := fresh "n" in
  let H := fresh "H" in let E := fresh "E" in
  intros db db' n H E; unfold stmt in E; open_statement E; exact H.

(** *** [UNIQUE(flight_id, pilot_id)] *)

Lemma pairs_unique_insert_assignment f p t :
  statement_keeps pairs_unique (insert_assignment f p t).
Proof.
  intros db db' n H E. unfold insert_assignment in E. open_statement E.
  unfold pairs_unique, set_pilot_assignments. cbn [pilot_assignments].
  rewrite map_app. cbn [map]. apply NoDup_snoc; [exact H|].
  intros Hin. apply in_map_iff in Hin as (a & Ea & Ha).
  injection Ea as Ef Ep.
  apply not_true_iff_false in C0. apply C0, existsb_exists.
  exists a. split; [exact Ha|]. apply andb_true_iff.
  split; now apply Z.eqb_eq.
Qed.

Lemma pairs_unique_delete_assignment a :
  statement_keeps pairs_unique (delete_assignment a).
Proof.
  intros db db' n H E. unfold delete_assignment in E.
  injection E as <- <-.
  unfold pairs_unique, set_pilot_assignments. cbn [pilot_assignments].
  now apply NoDup_map_filter.
Qed.

Lemma pairs_unique_turn m db : pairs_unique db -> pairs_unique (turn m db).
Proof.
  apply turn_keeps; intros.
  - untouched insert_pilot.
  - untouched insert_destination.
  - untouched insert_flight.
  - apply pairs_unique_insert_assignment.
  - untouched update_departure_time.
  - untouched update_status.
  - untouched update_pilot.
  - untouched update_destination.
  - untouched delete_flights.
  - apply pairs_unique_delete_assignment.
  - untouched delete_pilot.
Qed.

(** *** The primary keys of [pilots] and [flights] *)

Lemma primary_keys_insert_pilot n l y :
  statement_keeps primary_keys (insert_pilot n l y).
Proof.
  intros db db' k [Hp Hf] E. unfold insert_pilot in E. open_statement E.
  split; [|exact Hf]. cbn [set_pilots pilots].
  rewrite map_app. cbn [map]. apply NoDup_snoc; [exact Hp|].
  apply next_rowid_fresh.
Qed.

Lemma primary_keys_insert_flight n o d t s :
  statement_keeps primary_keys (insert_flight n o d t s).
Proof.
  intros db db' k [Hp Hf] E. unfold insert_flight in E. open_statement E.
  split; [exact Hp|]. cbn [set_flights flights].
  rewrite map_app. cbn [map]. apply NoDup_snoc; [exact Hf|].
  apply next_rowid_fresh.
Qed.

Lemma primary_keys_update_departure_time t n :
  statement_keeps primary_keys (update_departure_time t n).
Proof.
  intros db db' k [Hp Hf] E. unfold update_departure_time in E.
  injection E as <- <-. split; [exact Hp|]. cbn [set_flights flights].
  now rewrite map_key_unchanged.
Qed.

Lemma primary_keys_update_status s n :
  statement_keeps primary_keys (update_status s n).
Proof.
  intros db db' k [Hp Hf] E. unfold update_status in E. open_statement E.
  split; [exact Hp|]. cbn [set_flights flights].
  now rewrite map_key_unchanged.
Qed.

Lemma primary_keys_update_pilot u p :
  statement_keeps primary_keys (update_pilot u p).
Proof.
  intros db db' k [Hp Hf] E. unfold update_pilot in E. open_statement E.
  split; [|exact Hf]. cbn [set_pilots pilots].
  rewrite (update_rows_key p_pilot_id _ _ _ _ _ _
             (fold_pilot_update_id u) C0).
  exact Hp.
Qed.

Lemma primary_keys_delete_flights n :
  statement_keeps primary_keys (delete_flights n).
Proof.
  intros db db' k [Hp Hf] E. unfold delete_flights in E. open_statement E.
  split; [exact Hp|]. cbn [set_flights flights].
  now apply NoDup_map_filter.
Qed.

Lemma primary_keys_delete_pilot p :
  statement_keeps primary_keys (delete_pilot p).
Proof.
  intros db db' k [Hp Hf] E. unfold delete_pilot in E. open_statement E.
  split; [|exact Hf]. cbn [set_pilots pilots].
  now apply NoDup_map_filter.
Qed.

Lemma primary_keys_turn m db : primary_keys db -> primary_keys (turn m db).
Proof.
  apply turn_keeps; intros.
  - apply primary_keys_insert_pilot.
  - untouched insert_destination.
  - apply primary_keys_insert_flight.
  - untouched insert_assignment.
  - apply primary_keys_update_departure_time.
  - apply primary_keys_update_status.
  - apply primary_keys_update_pilot.
  - untouched update_destination.
  - apply primary_keys_delete_flights.
  - untouched delete_assignment.
  - apply primary_keys_delete_pilot.
Qed.

Lemma reachable_primary_keys db : reachable db -> primary_keys db.
Proof.
  intros Hr. induction Hr as [|db m _ IH].
  - split; constructor.
  - now apply primary_keys_turn.
Qed.

(** *** Timestamps with seconds *)

Lemma timestamps_insert_flight n o d t s :
  shape_year_with_seconds t = true ->
  statement_keeps timestamps_with_seconds (insert_flight n o d t s).
Proof.
  intros Ht db db' k [Hf Ha] E. unfold insert_flight in E.
  open_statement E. split; [|exact Ha]. cbn [set_flights flights].
  apply Forall_app. split; [exact Hf|]. now constructor.
Qed.

Lemma timestamps_insert_assignment f p t :
  shape_year_with_seconds t = true ->
  statement_keeps timestamps_with_seconds (insert_assignment f p t).
Proof.
  intros Ht db db' k [Hf Ha] E. unfold insert_assignment in E.
  open_statement E. split; [exact Hf|].
  cbn [set_pilot_assignments pilot_assignments].
  apply Forall_app. split; [exact Ha|]. now constructor.
Qed.

Lemma timestamps_update_departure_time t n :
  shape_year_with_seconds t = true ->
  statement_keeps timestamps_with_seconds (update_departure_time t n).
Proof.
  intros Ht db db' k [Hf Ha] E. unfold update_departure_time in E.
  injection E as <- <-. split; [|exact Ha]. cbn [set_flights flights].
  apply Forall_map. revert Hf. apply Forall_impl. intros f Hf.
  now destruct (has_flight_number n f).
Qed.

Lemma timestamps_update_status s n :
  statement_keeps timestamps_with_seconds (update_status s n).
Proof.
  intros db db' k [Hf Ha] E. unfold update_status in E. open_statement E.
  split; [|exact Ha]. cbn [set_flights flights].
  apply Forall_map. revert Hf. apply Forall_impl. intros f Hf.
  now destruct (has_flight_number n f).
Qed.

Lemma timestamps_delete_flights n :
  statement_keeps timestamps_with_seconds (delete_flights n).
Proof.
  intros db db' k [Hf Ha] E. unfold delete_flights in E. open_statement E.
  split; [|exact Ha]. cbn [set_flights flights].
  now apply Forall_filter_keeps.
Qed.

Lemma timestamps_delete_assignment a :
  statement_keeps timestamps_with_seconds (delete_assignment a).
Proof.
  intros db db' k [Hf Ha] E. unfold delete_assignment in E.
  injection E as <- <-. split; [exact Hf|].
  cbn [set_pilot_assignments pilot_assignments].
  now apply Forall_filter_keeps.
Qed.

Lemma timestamps_turn m db :
  timestamps_with_seconds db -> timestamps_with_seconds (turn m db).
Proof.
  apply turn_keeps; intros.
  - untouched insert_pilot.
  - untouched insert_destination.
  - now apply timestamps_insert_flight.
  - now apply timestamps_insert_assignment.
  - now apply timestamps_update_departure_time.
  - apply timestamps_update_status.
  - untouched update_pilot.
  - untouched update_destination.
  - apply timestamps_delete_flights.
  - apply timestamps_delete_assignment.
  - untouched delete_pilot.
Qed.

(** The three together, in every state the program can bring about. *)
Lemma reachable_well_formed db : reachable db -> well_formed db.
Proof.
  intros Hr. induction Hr as [|db m _ (Hk & Hu & Ht)].
  - repeat split; constructor.
  - split; [now apply primary_keys_turn|].
    split; [now apply pairs_unique_turn|now apply timestamps_turn].
Qed.

(** ** C4: one assignment for a flight and a pilot *)

Lemma existsb_filter_nil {A} (p : A -> bool) (l : list A) :
  filter p l = [] -> existsb p l = false.
Proof.
  induction l as [|x l IH]; cbn [filter existsb]; [reflexivity|].
  destruct (p x); [discriminate|]. exact IH.
Qed.

Lemma filter_snoc_fresh {A} (p : A -> bool) (l : list A) (x : A) :
  filter p l = [] -> p x = true -> filter p (l ++ [x]) = [x].
Proof.
  intros Hl Hx. rewrite filter_app, Hl. cbn [filter app]. now rewrite Hx.
Qed.

(** C4.  For a flight and a pilot that have rows (their ids are 64-bit as
    every key SQLite stores) and no assignment yet, and a date
    [assign_pilot] takes (blank, or one that parses), the call inserts the
    assignment and says so; the table then has one row for the pair.  A
    second call for the same pair, whatever the date, leaves the file as
    the first call left it, so still with one row; with a date that is
    taken, what it prints is the store's error for
    [UNIQUE(flight_id, pilot_id)].  In every state the program can bring
    about no pair occurs twice in [pilot_assignments]. *)
Theorem assign_pilot_pair_once
    (db : database) (sql_now : string) (now : datetime)
    (flight_id pilot_id : Z) (answer : string) :
  fits_int64 flight_id = true -> flight_exists flight_id db = true ->
  fits_int64 pilot_id = true -> pilot_exists pilot_id db = true ->
  accepted_date now answer <> None ->
  assignments_for flight_id pilot_id db = [] ->
  let first := run (assign_pilot sql_now now flight_id pilot_id answer) db in
  fst first =
    assignment_listing sql_now db ++ [Text "Pilot assigned successfully"] /\
  length (assignments_for flight_id pilot_id (snd first)) = 1 /\
  (forall sql_now' now' answer',
     let second :=
       run (assign_pilot sql_now' now' flight_id pilot_id answer')
         (snd first) in
     snd second = snd first /\
     (accepted_date now' answer' <> None ->
      fst second =
        assignment_listing sql_now' (snd first) ++
        [Failure "Error assigning pilot"
           (IntegrityError UNIQUE_flight_pilot)])) /\
  (forall db', reachable db' -> pairs_unique db').
Proof.
  intros Hf Hfe Hp Hpe Hdate Hnone.
  destruct (accepted_date now answer) as [t|] eqn:Et; [|contradiction].
  set (row := mkAssignment
                (next_rowid (map pa_assignment_id (pilot_assignments db)))
                flight_id pilot_id t).
  assert (E1 : run (assign_pilot sql_now now flight_id pilot_id answer) db =
               (assignment_listing sql_now db ++
                [Text "Pilot assigned successfully"],
                set_pilot_assignments (pilot_assignments db ++ [row]) db)).
  { rewrite assign_pilot_run. cbv zeta. rewrite Hf, Hfe, Hp, Hpe, Et.
    cbn [negb]. unfold insert_assignment, pragma_foreign_keys.
    rewrite Hf, Hp. cbn [andb negb].
    unfold assignments_for in Hnone.
    now rewrite (existsb_filter_nil _ _ Hnone). }
  assert (Hrow : (pa_flight_id row =? flight_id)%Z &&
                 (pa_pilot_id row =? pilot_id)%Z = true).
  { cbn [row pa_flight_id pa_pilot_id]. now rewrite !Z.eqb_refl. }
  cbv zeta. rewrite E1. cbn [fst snd].
  split; [reflexivity|]. split; [|split].
  - unfold assignments_for. cbn [set_pilot_assignments pilot_assignments].
    now rewrite (filter_snoc_fresh _ _ _ Hnone Hrow).
  - intros sql_now' now' answer'. rewrite assign_pilot_run. cbv zeta.
    rewrite Hf, Hp. cbn [negb].
    change (flight_exists flight_id
              (set_pilot_assignments (pilot_assignments db ++ [row]) db))
      with (flight_exists flight_id db).
    change (pilot_exists pilot_id
              (set_pilot_assignments (pilot_assignments db ++ [row]) db))
      with (pilot_exists pilot_id db).
    rewrite Hfe, Hpe. cbn [negb].
    assert (Hdup : forall t',
              insert_assignment flight_id pilot_id t'
                (set_pilot_assignments (pilot_assignments db ++ [row]) db) =
              inl (IntegrityError UNIQUE_flight_pilot)).
    { intros t'. unfold insert_assignment. rewrite Hf, Hp.
      cbn [andb negb set_pilot_assignments pilot_assignments].
      rewrite existsb_app. cbn [existsb]. rewrite Hrow.
      now rewrite orb_true_r. }
    destruct (accepted_date now' answer') as [t'|].
    + rewrite Hdup. cbn [fst snd]. split; [reflexivity|]. reflexivity.
    + cbn [fst snd]. split; [reflexivity|]. intros H. now contradiction H.
  - intros db' Hr. induction Hr as [|db' m _ IH].
    + constructor.
    + now apply pairs_unique_turn.
Qed.

(** Pilot 3 of the sample data is not on flight 1; a blank date. *)
Lemma assign_pilot_pair_once_witness :
  let first :=
    run (assign_pilot "2025-03-01 00:00:00" (mkDatetime 2025 3 1 9 30 15)
           1 3 "") sample_database in
  fst first =
    assignment_listing "2025-03-01 00:00:00" sample_database ++
    [Text "Pilot assigned successfully"] /\
  length (assignments_for 1 3 (snd first)) = 1 /\
  (forall sql_now' now' answer',
     let second :=
       run (assign_pilot sql_now' now' 1 3 answer') (snd first) in
     snd second = snd first /\
     (accepted_date now' answer' <> None ->
      fst second =
        assignment_listing sql_now' (snd first) ++
        [Failure "Error assigning pilot"
           (IntegrityError UNIQUE_flight_pilot)])) /\
  (forall db', reachable db' -> pairs_unique db').
Proof.
  apply (assign_pilot_pair_once sample_database "2025-03-01 00:00:00"
           (mkDatetime 2025 3 1 9 30 15) 1 3 "").
  - reflexivity.
  - vm_compute. reflexivity.
  - reflexivity.
  - vm_compute. reflexivity.
  - discriminate.
  - vm_compute. reflexivity.
Defined.

Example assign_pilot_blank_date_row :
  pilot_assignments
    (snd (run (assign_pilot "2025-03-01 00:00:00"
                 (mkDatetime 2025 3 1 9 30 15) 1 3 "")
            two_destinations)) = [] /\
  last (pilot_assignments
          (snd (run (assign_pilot "2025-03-01 00:00:00"
                       (mkDatetime 2025 3 1 9 30 15) 1 3 "")
                  sample_database)))
    (mkAssignment 0 0 0 "") =
  mkAssignment 17 1 3 "2025-03-01 09:30:15".
Proof. vm_compute. split; reflexivity. Qed.

(** ** C10: stored timestamps carry seconds *)

Lemma accepted_date_shape now answer t :
  accepted_date now answer = Some t -> shape_year_with_seconds t = true.
Proof.
  unfold accepted_date. destruct (String.eqb _ _).
  - intros [= <-]. apply strftime_shape.
  - destruct (strptime _); [|discriminate].
    intros [= <-]. apply strftime_shape.
Qed.




(** A blank date at 09:30:15 on 1 March 2025, and the flight of the year
    999 among the flights of a pilot. *)
Example stored_timestamp_samples :
  timestamp_number (strftime (mkDatetime 2025 3 1 9 30 15)) =
    20250301093015%N /\
  strftime (mkDatetime 999 1 1 10 0 0) = "999-01-01 10:00:00" /\
  shape_year_with_seconds "999-01-01 10:00:00" = true /\
  without_leading_zeros "0999-01-01 10:00" = "999-01-01 10:00".
Proof. repeat split. Qed.

(** ** C8: the pilot flight summary *)

Lemma insert_desc_permutation {R} (count : R -> nat) (r : R) (l : list R) :
  Permutation (insert_desc count r l) (r :: l).
Proof.
  induction l as [|x l IH]; cbn [insert_desc]; [reflexivity|].
  destruct (count x <=? count r); [reflexivity|].
  rewrite IH. apply perm_swap.
Qed.

Lemma order_by_desc_permutation {R} (count : R -> nat) (l : list R) :
  Permutation (order_by_desc count l) l.
Proof.
  unfold order_by_desc.
  induction l as [|x l IH]; cbn [fold_right]; [reflexivity|].
  rewrite insert_desc_permutation. now constructor.
Qed.

Lemma filter_everything {R} (p : R -> bool) (t : list R) :
  (forall r, In r t -> p r = true) -> filter p t = t.
Proof.
  induction t as [|r t IH]; cbn [filter]; intros H; [reflexivity|].
  rewrite (H r (or_introl eq_refl)), IH; [reflexivity|].
  intros x Hx. apply H. now right.
Qed.

Section Grouping.

Variables A R K : Type.
Variable eqb : K -> K -> bool.
Hypothesis eqb_eq : forall x y, eqb x y = true <-> x = y.
(** [rows a] are the rows of the join that come from [a], all with the
    key [k a]; each [a] has one row at least. *)
Variable rows : A -> list R.
Variable key : R -> K.
Variable k : A -> K.
Hypothesis rows_key : forall a r, In r (rows a) -> key r = k a.
Hypothesis rows_some : forall a, rows a <> [].



Lemma distinct_in x ks : In x (distinct eqb ks) -> In x ks.
Proof.
  induction ks as [|y ks IH]; cbn [distinct]; [trivial|].
  intros [->|H]; [now left|]. right.
  apply filter_In in H as [H _]. now apply IH.
Qed.







End Grouping.


Lemma left_join_cons {A B} (on : A -> B -> bool) a l r :
  left_join on (a :: l) r = left_join on [a] r ++ left_join on l r.
Proof. unfold left_join. cbn [flat_map]. now rewrite app_nil_r. Qed.

Lemma left_join_app {A B} (on : A -> B -> bool) l1 l2 r :
  left_join on (l1 ++ l2) r = left_join on l1 r ++ left_join on l2 r.
Proof. unfold left_join. apply flat_map_app. Qed.

Lemma left_join_flat_map {A B C} (on : B -> C -> bool) (g : A -> list B)
    (l : list A) (r : list C) :
  left_join on (flat_map g l) r = flat_map (fun a => left_join on (g a) r) l.
Proof.
  induction l as [|a l IH]; cbn [flat_map]; [reflexivity|].
  now rewrite left_join_app, IH.
Qed.

Lemma left_join_fst {A B} (on : A -> B -> bool) l r row :
  In row (left_join on l r) -> In (fst row) l.
Proof.
  unfold left_join. intros H. apply in_flat_map in H as (a & Ha & H).
  destruct (filter (on a) r) as [|b bs].
  - destruct H as [<-|[]]. exact Ha.
  - apply in_map_iff in H as (x & <- & _). exact Ha.
Qed.

Lemma left_join_some {A B} (on : A -> B -> bool) l r :
  l <> [] -> left_join on l r <> [].
Proof.
  destruct l as [|a l]; [contradiction|]. intros _.
  rewrite left_join_cons. unfold left_join at 1. cbn [flat_map].
  destruct (filter (on a) r); discriminate.
Qed.


Lemma existsb_filter {A} (p q : A -> bool) (l : list A) :
  existsb (fun x => p x && q x) l = existsb q (filter p l).
Proof.
  induction l as [|x l IH]; cbn [existsb filter]; [reflexivity|].
  destruct (p x); cbn [andb existsb orb]; now rewrite IH.
Qed.







Example timestamp_number_sample :
  timestamp_number "2025-03-10 10:00:00" = 20250310100000%N.
Proof. reflexivity. Qed.

Section Summary.

Variable sql_now : string.
Variable db : database.
Hypothesis flight_keys : NoDup (map f_flight_id (flights db)).

(** The [ON] clauses and the two counted conditions of the query. *)
Let on_pilot (p : pilot) (pa : assignment) : bool :=
  (p_pilot_id p =? pa_pilot_id pa)%Z.

Let on_flight (ppa : pilot * option assignment) (f : flight) : bool :=
  match snd ppa with
  | Some pa => (pa_flight_id pa =? f_flight_id f)%Z
  | None => false
  end.


Let upcoming (row : pilot * option assignment * option flight) : bool :=
  match snd row with Some f => departs_after sql_now f | None => false end.










End Summary.




(** On that file at 2025-03-15: pilot 1 has two assignments, one of them
    on a flight still to depart; the new pilot comes last with none. *)
Example pilot_flight_summary_sample :
  let result :=
    pilot_flight_count_query "2025-03-15 00:00:00"
      (turn (Menu_manage_pilots (Add_a_new_pilot "Test Pilot" "X1" 0))
         sample_database) in
  length result = 16 /\
  nth 0 result (0%Z, "", "", 0, 0) = (1%Z, "James Smith", "UK10001", 2, 1) /\
  nth 1 result (0%Z, "", "", 0, 0) = (2%Z, "Jane Smith", "UK10002", 1, 0) /\
  nth 15 result (0%Z, "", "", 0, 0) = (16%Z, "Test Pilot", "X1", 0, 0).
Proof. vm_compute. repeat split. Qed.

(* ===================================================================== *)
(** * More properties of the program *)
(* ===================================================================== *)

(** ** The reports never write *)

Ltac reading_step :=
  lazymatch goal with
  | |- forall _, _ => intro
  | |- hoare _ (try_finally _ _) _ => apply hoare_try_finally
  | |- hoare _ (try_except _ _) _ => apply hoare_try_except
  | |- hoare _ (bind _ _) _ => apply hoare_seq
  | |- hoare _ close _ => apply hoare_close
  | |- hoare _ get_connection _ => apply hoare_get_connection
  | |- hoare _ (print _) _ => apply hoare_print
  | |- hoare _ (print_all _) _ => apply hoare_print_all
  | |- hoare _ (query _) _ => apply hoare_query
  | |- hoare _ return_ _ => apply hoare_return
  | |- hoare _ (match ?x with _ => _ end) _ => destruct x
  end.

(** X1.  The five entries of the menu that report (view flights by
    criteria, pilot schedule, flights by destination, pilot flight
    summary, destination statistics) leave the file as it was, whatever is
    typed and whatever the file holds. *)
Theorem reports_never_write (r : report) (db : database) :
  snd (run (report_method r) db) = db.
Proof.
  symmetry. apply (hoare_run (eq db)); [|reflexivity].
  destruct r; cbn [report_method];
    unfold view_flights_by_criteria, view_pilot_schedule,
      summarise_flights_by_destination, get_pilot_flight_count,
      get_destination_statistics;
    repeat reading_step.
Qed.

(** ** What the other calls leave, by cases *)

Lemma delete_flight_run num db :
  run (delete_flight num) db =
  if existsb (has_flight_number num) (flights db)
  then ([Text "Flight deleted successfully"],
        set_flights
          (filter (fun f => negb (has_flight_number num f)) (flights db)) db)
  else ([Text "Flight not found"], db).
Proof.
  unfold delete_flight, delete_flights, pragma_foreign_keys. run_method.
  cbn [andb]. run_method. rewrite count_rows_positive.
  destruct (existsb _ _); run_method; reflexivity.
Qed.

Lemma delete_flight_turn num db :
  turn (Menu_delete_flight num) db =
  set_flights
    (filter (fun f => negb (has_flight_number num f)) (flights db)) db.
Proof.
  unfold turn, dispatch. rewrite delete_flight_run.
  destruct (existsb _ _) eqn:Hex; cbn [snd]; [reflexivity|].
  rewrite (filter_none _ _ Hex). now rewrite set_flights_same.
Qed.

Lemma add_a_pilot_run name license_id years db :
  run (manage_pilots (Add_a_new_pilot name license_id years)) db =
  match insert_pilot name license_id years db with
  | inl e => (pilot_menu ++ [Failure "Error managing pilots" e], db)
  | inr (db', _) => (pilot_menu ++ [Text "Pilot added successfully"], db')
  end.
Proof.
  unfold manage_pilots. run_method.
  destruct (insert_pilot _ _ _ _) as [e|[db' n]]; run_method; reflexivity.
Qed.

Lemma add_a_destination_run city country code db :
  run (manage_destinations (Add_new_destination city country code)) db =
  match insert_destination city country code db with
  | inl e =>
      (destination_menu ++ [Failure "Error managing destinations" e], db)
  | inr (db', _) =>
      (destination_menu ++ [Text "Destination added successfully"], db')
  end.
Proof.
  unfold manage_destinations. run_method.
  destruct (insert_destination _ _ _ _) as [e|[db' n]]; run_method;
    reflexivity.
Qed.

(** The [SET] list [manage_pilots] builds from the answers. *)
Lemma update_a_pilot_run pilot_id name license_id years db :
  run (manage_pilots (Update_a_pilot pilot_id name license_id years)) db =
  match pilot_updates name license_id years with
  | [] => (pilot_menu, db)
  | updates =>
      match update_pilot updates pilot_id db with
      | inl e => (pilot_menu ++ [Failure "Error managing pilots" e], db)
      | inr (db', _) =>
          (pilot_menu ++ [Text "Pilot updated successfully"], db')
      end
  end.
Proof.
  unfold manage_pilots, pilot_updates. run_method.
  destruct (_ ++ _) as [|u us]; run_method; [reflexivity|].
  destruct (update_pilot _ _ _) as [e|[db' n]]; run_method; reflexivity.
Qed.

Lemma update_a_destination_run dest_id city country code db :
  run (manage_destinations (Update_destination dest_id city country code))
    db =
  match destination_updates city country code with
  | [] => (destination_menu, db)
  | updates =>
      match update_destination updates dest_id db with
      | inl e =>
          (destination_menu ++ [Failure "Error managing destinations" e],
           db)
      | inr (db', _) =>
          (destination_menu ++ [Text "Destination updated successfully"],
           db')
      end
  end.
Proof.
  unfold manage_destinations, destination_updates. run_method.
  destruct (_ ++ _) as [|u us]; run_method; [reflexivity|].
  destruct (update_destination _ _ _) as [e|[db' n]]; run_method;
    reflexivity.
Qed.

(** ** Deleting a flight *)

(** X2.  [delete_flight] removes every row of [flights] that has the
    number, keeps the other rows in their order, and touches no other
    table: the assignments of a deleted flight stay in
    [pilot_assignments]. *)
Theorem delete_flight_leaves_other_tables (num : string) (db : database) :
  let db' := turn (Menu_delete_flight num) db in
  flights db' =
    filter (fun f => negb (has_flight_number num f)) (flights db) /\
  pilot_assignments db' = pilot_assignments db /\
  pilots db' = pilots db /\
  destinations db' = destinations db.
Proof. cbv zeta. rewrite delete_flight_turn. repeat split. Qed.

(** X3.  In a state the program can bring about, an assignment to a
    flight that [delete_flight] deletes is still stored afterwards, and
    its flight id is then the id of no flight. *)
Theorem delete_flight_orphans_assignments
    (num : string) (db : database) (a : assignment) (f : flight) :
  reachable db ->
  In a (pilot_assignments db) ->
  In f (flights db) ->
  f_flight_id f = pa_flight_id a ->
  has_flight_number num f = true ->
  In a (pilot_assignments (turn (Menu_delete_flight num) db)) /\
  flight_exists (pa_flight_id a) (turn (Menu_delete_flight num) db) = false.
Proof.
  intros Hr Ha Hf Hid Hnum. rewrite delete_flight_turn.
  split; [exact Ha|].
  destruct (reachable_primary_keys db Hr) as [_ Hkeys].
  unfold flight_exists, set_flights. cbn [flights].
  apply not_true_is_false. intros H.
  apply existsb_exists in H as (g & Hg & Hgid).
  apply filter_In in Hg as [Hg Hgnum]. apply Z.eqb_eq in Hgid.
  assert (g = f) as ->.
  { clear - Hkeys Hg Hf Hgid Hid.
    induction (flights db) as [|x t IH]; [destruct Hg|].
    cbn [map] in Hkeys. inversion Hkeys as [|? ? Hx Ht]; subst.
    destruct Hg as [->|Hg], Hf as [->|Hf]; auto.
    - exfalso. apply Hx. rewrite Hgid, <- Hid. now apply in_map.
    - exfalso. apply Hx. rewrite Hid, <- Hgid. now apply in_map. }
  now rewrite Hnum in Hgnum.
Qed.

(** Flight BA101 of the sample data has id 1 and two pilots. *)
Lemma delete_flight_orphans_assignments_witness :
  let a := mkAssignment 1 1 1 "2025-02-01 10:00:00" in
  In a (pilot_assignments (turn (Menu_delete_flight "BA101") sample_database))
  /\ flight_exists (pa_flight_id a)
       (turn (Menu_delete_flight "BA101") sample_database) = false.
Proof.
  apply (delete_flight_orphans_assignments "BA101" sample_database
           (mkAssignment 1 1 1 "2025-02-01 10:00:00")
           (mkFlight 1 "BA101" 1 2 "2025-03-10 10:00:00" "Scheduled")).
  - apply reachable_turn, reachable_empty.
  - vm_compute. left. reflexivity.
  - vm_compute. left. reflexivity.
  - reflexivity.
  - reflexivity.
Defined.

(** X4.  Deleting a flight does not free its pilots: a pilot with
    assignments has as many after [delete_flight], whatever flight was
    deleted, and [manage_pilots] still refuses to delete the pilot. *)
Theorem deleted_flight_still_blocks_pilot
    (num : string) (pilot_id : Z) (db : database) :
  0 < count_assignments pilot_id db ->
  run (manage_pilots (Delete_a_pilot pilot_id))
    (turn (Menu_delete_flight num) db) =
  (pilot_menu ++ [CannotDelete (count_assignments pilot_id db)],
   turn (Menu_delete_flight num) db).
Proof.
  intros Hn. rewrite delete_a_pilot_run, delete_flight_turn.
  unfold count_assignments, set_flights in *. cbn [pilot_assignments].
  apply Nat.ltb_lt in Hn. now rewrite Hn.
Qed.

(** Pilot 3 of the sample data flies BA102 only. *)
Lemma deleted_flight_still_blocks_pilot_witness :
  run (manage_pilots (Delete_a_pilot 3))
    (turn (Menu_delete_flight "BA102") sample_database) =
  (pilot_menu ++ [CannotDelete (count_assignments 3 sample_database)],
   turn (Menu_delete_flight "BA102") sample_database).
Proof.
  apply (deleted_flight_still_blocks_pilot "BA102" 3 sample_database).
  vm_compute. lia.
Defined.

(** ** Round trips *)

Lemma filter_snoc_only {A} (p : A -> bool) (l : list A) (x : A) :
  existsb (fun y => negb (p y)) l = false -> p x = false ->
  filter p (l ++ [x]) = l.
Proof.
  intros Hl Hx. rewrite filter_app. cbn [filter]. rewrite Hx, app_nil_r.
  induction l as [|y l IH]; cbn [filter existsb] in *; [reflexivity|].
  apply orb_false_iff in Hl as [Hy Hl].
  apply negb_false_iff in Hy. rewrite Hy. now rewrite IH.
Qed.

Lemma existsb_negb_negb {A} (p : A -> bool) (l : list A) :
  existsb (fun y => negb (negb (p y))) l = existsb p l.
Proof.
  induction l as [|y l IH]; cbn [existsb]; [reflexivity|].
  now rewrite negb_involutive, IH.
Qed.

Lemma no_row_with_next_rowid {R} (key : R -> Z) (t : list R) :
  existsb (fun r => (key r =? next_rowid (map key t))%Z) t = false.
Proof.
  apply not_true_is_false. intros H.
  apply existsb_exists in H as (r & Hr & E). apply Z.eqb_eq in E.
  apply (next_rowid_fresh (map key t)). rewrite <- E. now apply in_map.
Qed.

(** X5.  When no flight has the number yet, adding a flight under it and
    then deleting the number gives back the file as it was, whether the
    flight was accepted or not. *)
Theorem add_then_delete_flight_restores
    (num : string) (o d : Z) (dep : string) (db : database) :
  existsb (has_flight_number num) (flights db) = false ->
  turn (Menu_delete_flight num) (turn (Menu_add_new_flight num o d dep) db)
  = db.
Proof.
  intros Hnum. rewrite delete_flight_turn.
  unfold turn at 1 2. cbn [dispatch]. rewrite add_new_flight_run.
  destruct (strptime dep) as [dt|]; cbn [snd].
  2:{ now rewrite (filter_none _ _ Hnum), set_flights_same. }
  destruct (insert_flight _ _ _ _ _ _) as [e|[db' n]] eqn:E; cbn [snd].
  { now rewrite (filter_none _ _ Hnum), set_flights_same. }
  unfold insert_flight in E. open_statement E.
  unfold set_flights. cbn [flights pilots destinations pilot_assignments].
  rewrite filter_snoc_only.
  - now destruct db.
  - now rewrite existsb_negb_negb.
  - unfold has_flight_number. cbn [f_flight_number].
    now rewrite String.eqb_refl.
Qed.

Lemma add_then_delete_flight_restores_witness :
  turn (Menu_delete_flight "ZZ999")
    (turn (Menu_add_new_flight "ZZ999" 1 2 "2025-06-01 10:00")
       sample_database)
  = sample_database.
Proof.
  apply (add_then_delete_flight_restores "ZZ999" 1 2 "2025-06-01 10:00"
           sample_database).
  vm_compute. reflexivity.
Defined.

(** X6.  [assign_pilot] followed by [delete_pilot_assignment] of the id
    the next assignment gets gives back the file as it was, whether the
    assignment was made or refused. *)
Theorem assign_then_delete_assignment_restores
    (sql_now : string) (now : datetime) (flight_id pilot_id : Z)
    (date : string) (db : database) :
  turn (Menu_delete_pilot_assignment
          (next_rowid (map pa_assignment_id (pilot_assignments db))))
    (turn (Menu_assign_pilot sql_now now flight_id pilot_id date) db)
  = db.
Proof.
  rewrite delete_pilot_assignment_turn.
  set (i := next_rowid (map pa_assignment_id (pilot_assignments db))).
  assert (Hsame :
    set_pilot_assignments
      (filter (fun a => negb (pa_assignment_id a =? i)%Z)
         (pilot_assignments db)) db = db).
  { rewrite filter_none; [apply set_pilot_assignments_same|].
    apply (no_row_with_next_rowid pa_assignment_id). }
  unfold turn. cbn [dispatch]. rewrite assign_pilot_run. cbv zeta.
  repeat match goal with
         | |- context [if ?c then _ else _] => destruct c; cbn [snd]
         end; try exact Hsame.
  destruct (accepted_date now date) as [t|]; cbn [snd]; [|exact Hsame].
  destruct (insert_assignment _ _ _ _) as [e|[db' n]] eqn:E; cbn [snd];
    [exact Hsame|].
  unfold insert_assignment in E. open_statement E.
  unfold set_pilot_assignments.
  cbn [flights pilots destinations pilot_assignments].
  rewrite filter_snoc_only.
  - now destruct db.
  - rewrite existsb_negb_negb.
    apply (no_row_with_next_rowid pa_assignment_id).
  - cbn [pa_assignment_id]. fold i. now rewrite Z.eqb_refl.
Qed.

(** X7.  When no assignment names the id the next pilot gets, adding a
    pilot and then deleting that id gives back the file as it was,
    whether the pilot was accepted or not. *)
Theorem add_then_delete_pilot_restores
    (name license_id : string) (years : Z) (db : database) :
  count_assignments (next_rowid (map p_pilot_id (pilots db))) db = 0 ->
  turn (Menu_manage_pilots
          (Delete_a_pilot (next_rowid (map p_pilot_id (pilots db)))))
    (turn (Menu_manage_pilots (Add_a_new_pilot name license_id years)) db)
  = db.
Proof.
  intros Hnone.
  set (i := next_rowid (map p_pilot_id (pilots db))) in *.
  assert (Hfresh : existsb (fun p => (p_pilot_id p =? i)%Z) (pilots db)
                   = false)
    by apply (no_row_with_next_rowid p_pilot_id).
  unfold turn. cbn [dispatch]. rewrite add_a_pilot_run.
  destruct (insert_pilot _ _ _ _) as [e|[db' n]] eqn:E; cbn [snd].
  - rewrite delete_a_pilot_run, Hnone. cbn [Nat.ltb Nat.leb].
    unfold pilot_exists. now rewrite Hfresh.
  - unfold insert_pilot in E. open_statement E.
    rewrite delete_a_pilot_run.
    unfold count_assignments, pilot_exists, set_pilots in *.
    cbn [flights pilots destinations pilot_assignments].
    rewrite Hnone. cbn [Nat.ltb Nat.leb].
    rewrite existsb_app. cbn [existsb p_pilot_id]. fold i.
    rewrite Z.eqb_refl, orb_true_r. cbn [snd].
    rewrite filter_snoc_only.
    + now destruct db.
    + now rewrite existsb_negb_negb.
    + cbn [p_pilot_id]. now rewrite Z.eqb_refl.
Qed.

Lemma add_then_delete_pilot_restores_witness :
  turn (Menu_manage_pilots
          (Delete_a_pilot
             (next_rowid (map p_pilot_id (pilots sample_database)))))
    (turn (Menu_manage_pilots (Add_a_new_pilot "Test Pilot" "X1" 0))
       sample_database)
  = sample_database.
Proof.
  apply (add_then_delete_pilot_restores "Test Pilot" "X1" 0
           sample_database).
  vm_compute. reflexivity.
Defined.

(** ** A deleted flight's id goes to the next flight *)

Lemma next_rowid_snoc_filter (t : list flight) (x : flight) (num : string) :
  existsb (has_flight_number num) t = false ->
  has_flight_number num x = true ->
  filter (fun f => negb (has_flight_number num f)) (t ++ [x]) = t.
Proof.
  intros Ht Hx. apply filter_snoc_only.
  - now rewrite existsb_negb_negb.
  - now rewrite Hx.
Qed.

(** X8.  The id of a deleted flight is given out again.  Add a flight
    under a new number, assign a pilot to it, delete the flight, add
    another flight: the second flight has the id the first one had, and
    the assignment made to the first flight, which [delete_flight] left
    in place, is now an assignment to the second. *)
Theorem deleted_flight_id_goes_to_next_flight
    (num num' : string) (o d o' d' pilot_id : Z) (dep dep' : string)
    (dt dt' : datetime) (sql_now : string) (now : datetime)
    (db : database) :
  let i := next_rowid (map f_flight_id (flights db)) in
  let db1 := turn (Menu_add_new_flight num o d dep) db in
  let db2 := turn (Menu_assign_pilot sql_now now i pilot_id "") db1 in
  let db3 := turn (Menu_delete_flight num) db2 in
  let db4 := turn (Menu_add_new_flight num' o' d' dep') db3 in
  existsb (has_flight_number num) (flights db) = false ->
  strptime dep = Some dt -> strptime dep' = Some dt' ->
  fits_int64 o = true -> fits_int64 d = true -> o <> d ->
  fits_int64 o' = true -> fits_int64 d' = true -> o' <> d' ->
  fits_int64 i = true ->
  fits_int64 pilot_id = true -> pilot_exists pilot_id db = true ->
  flights db1 =
    flights db ++ [mkFlight i num o d (strftime dt) "Scheduled"] /\
  flights db4 =
    flights db ++ [mkFlight i num' o' d' (strftime dt') "Scheduled"] /\
  assignments_for i pilot_id db4 <> [] /\
  pilot_assignments db4 = pilot_assignments db2.
Proof.
  intros i db1 db2 db3 db4 Hnum Hdt Hdt' Ho Hd Hod Ho' Hd' Hod' Hi Hp Hpe.
  assert (E1 : db1 =
               set_flights
                 (flights db ++
                  [mkFlight i num o d (strftime dt) "Scheduled"]) db).
  { unfold db1, turn. cbn [dispatch].
    now rewrite (add_new_flight_inserts num o d dep dt db). }
  assert (F2 : flights db2 = flights db1 /\
               assignments_for i pilot_id db2 <> []).
  { unfold db2, turn. cbn [dispatch]. rewrite assign_pilot_run. cbv zeta.
    rewrite Hi, Hp. cbn [negb].
    replace (flight_exists i db1) with true.
    2:{ rewrite E1. unfold flight_exists, set_flights. cbn [flights].
        rewrite existsb_app. cbn [existsb f_flight_id].
        now rewrite Z.eqb_refl, orb_true_r. }
    replace (pilot_exists pilot_id db1) with true
      by (now rewrite E1). cbn [negb].
    change (accepted_date now "") with (Some (strftime now)).
    unfold insert_assignment, pragma_foreign_keys. rewrite Hi, Hp.
    cbn [andb negb].
    destruct (existsb _ (pilot_assignments db1)) eqn:Hex; cbn [snd].
    - split; [reflexivity|]. unfold assignments_for.
      apply existsb_exists in Hex as (a & Ha & Hpair).
      intros Hnil.
      assert (Hin : In a (filter
                            (fun a => (pa_flight_id a =? i)%Z &&
                                      (pa_pilot_id a =? pilot_id)%Z)
                            (pilot_assignments db1)))
        by (apply filter_In; now split).
      now rewrite Hnil in Hin.
    - split; [reflexivity|]. unfold assignments_for, set_pilot_assignments.
      cbn [pilot_assignments]. rewrite filter_app.
      cbn [filter pa_flight_id pa_pilot_id].
      rewrite !Z.eqb_refl. cbn [andb].
      intros Hnil. now apply app_eq_nil in Hnil as [_ Hnil]. }
  destruct F2 as [F2 A2].
  assert (F3 : flights db3 = flights db /\
               pilot_assignments db3 = pilot_assignments db2).
  { unfold db3. rewrite delete_flight_turn. unfold set_flights.
    cbn [flights pilot_assignments]. split; [|reflexivity].
    rewrite F2, E1. cbn [set_flights flights].
    apply next_rowid_snoc_filter; [exact Hnum|].
    unfold has_flight_number. cbn [f_flight_number].
    apply String.eqb_refl. }
  destruct F3 as [F3 A3].
  assert (E4 : db4 =
               set_flights
                 (flights db3 ++
                  [mkFlight (next_rowid (map f_flight_id (flights db3)))
                     num' o' d' (strftime dt') "Scheduled"]) db3).
  { unfold db4, turn. cbn [dispatch].
    now rewrite (add_new_flight_inserts num' o' d' dep' dt' db3). }
  split; [now rewrite E1|]. split; [|split].
  - rewrite E4. cbn [set_flights flights]. now rewrite F3.
  - rewrite E4. unfold assignments_for, set_flights.
    cbn [pilot_assignments]. rewrite A3. exact A2.
  - rewrite E4. unfold set_flights. cbn [pilot_assignments]. exact A3.
Qed.

Lemma deleted_flight_id_goes_to_next_flight_witness :
  let db1 :=
    turn (Menu_add_new_flight "ZZ1" 1 2 "2025-06-01 10:00")
      sample_database in
  let db2 :=
    turn (Menu_assign_pilot "2025-01-01 00:00:00"
            (mkDatetime 2025 1 1 0 0 0) 16 4 "") db1 in
  let db3 := turn (Menu_delete_flight "ZZ1") db2 in
  let db4 := turn (Menu_add_new_flight "ZZ2" 3 4 "2025-07-01 12:00") db3 in
  flights db1 =
    flights sample_database ++
    [mkFlight 16 "ZZ1" 1 2 "2025-06-01 10:00:00" "Scheduled"] /\
  flights db4 =
    flights sample_database ++
    [mkFlight 16 "ZZ2" 3 4 "2025-07-01 12:00:00" "Scheduled"] /\
  assignments_for 16 4 db4 <> [] /\
  pilot_assignments db4 = pilot_assignments db2.
Proof.
  apply (deleted_flight_id_goes_to_next_flight "ZZ1" "ZZ2" 1 2 3 4 4
           "2025-06-01 10:00" "2025-07-01 12:00"
           (mkDatetime 2025 6 1 10 0 0) (mkDatetime 2025 7 1 12 0 0)
           "2025-01-01 00:00:00" (mkDatetime 2025 1 1 0 0 0)
           sample_database);
    try (vm_compute; reflexivity); try lia.
Defined.

(** ** Updates and deletes of a key no row has *)

Lemma update_rows_no_hit {R} (hit : R -> bool) change clash
    (done todo : list R) :
  existsb hit todo = false ->
  update_rows hit change clash done todo = Some (done ++ todo).
Proof.
  revert done. induction todo as [|r todo IH]; intros done H;
    cbn [update_rows existsb] in *.
  - now rewrite app_nil_r.
  - apply orb_false_iff in H as [Hr Ht]. rewrite Hr.
    rewrite (IH _ Ht). now rewrite <- app_assoc.
Qed.

Lemma set_destinations_same db : set_destinations (destinations db) db = db.
Proof. destruct db; reflexivity. Qed.

(** X9.  [manage_pilots] asked to update a pilot id that no row has, with
    at least one new value, prints "Pilot updated successfully" and
    leaves the file as it was: the method does not look at the number of
    rows the [UPDATE] changed. *)
Theorem update_unknown_pilot_reports_success
    (pilot_id : Z) (name license_id : string) (years : option Z)
    (db : database) :
  pilot_exists pilot_id db = false ->
  pilot_updates name license_id years <> [] ->
  forallb pilot_update_fits (pilot_updates name license_id years) = true ->
  run (manage_pilots (Update_a_pilot pilot_id name license_id years)) db =
  (pilot_menu ++ [Text "Pilot updated successfully"], db).
Proof.
  intros Hnone Hsome Hfits. rewrite update_a_pilot_run.
  destruct (pilot_updates name license_id years) as [|u us] eqn:E;
    [contradiction|].
  unfold update_pilot. rewrite Hfits. cbn [negb].
  rewrite update_rows_no_hit by exact Hnone. cbn [app].
  now rewrite set_pilots_same.
Qed.

Lemma update_unknown_pilot_reports_success_witness :
  run (manage_pilots (Update_a_pilot 99 "Nobody" "" None)) sample_database =
  (pilot_menu ++ [Text "Pilot updated successfully"], sample_database).
Proof.
  apply (update_unknown_pilot_reports_success 99 "Nobody" "" None
           sample_database).
  - vm_compute. reflexivity.
  - discriminate.
  - reflexivity.
Defined.

(** X10.  The same for [manage_destinations]: an update of a destination
    id that no row has, with at least one new value, prints "Destination
    updated successfully" and leaves the file as it was. *)
Theorem update_unknown_destination_reports_success
    (dest_id : Z) (city country airport_code : string) (db : database) :
  destination_exists dest_id db = false ->
  destination_updates city country airport_code <> [] ->
  run (manage_destinations
         (Update_destination dest_id city country airport_code)) db =
  (destination_menu ++ [Text "Destination updated successfully"], db).
Proof.
  intros Hnone Hsome. rewrite update_a_destination_run.
  destruct (destination_updates city country airport_code) as [|u us] eqn:E;
    [contradiction|].
  unfold update_destination.
  rewrite update_rows_no_hit by exact Hnone. cbn [app].
  now rewrite set_destinations_same.
Qed.

Lemma update_unknown_destination_reports_success_witness :
  run (manage_destinations (Update_destination 99 "" "Nowhere" ""))
    sample_database =
  (destination_menu ++ [Text "Destination updated successfully"],
   sample_database).
Proof.
  apply (update_unknown_destination_reports_success 99 "" "Nowhere" ""
           sample_database).
  - vm_compute. reflexivity.
  - discriminate.
Defined.

(** X11.  A delete of a key no row has changes nothing and says so:
    [delete_flight] for a flight number, [delete_pilot_assignment] for an
    assignment id, and [manage_pilots] for the id of a pilot, when no
    assignment names that id. *)
Theorem delete_unknown_key_changes_nothing (db : database) :
  (forall num,
     existsb (has_flight_number num) (flights db) = false ->
     run (delete_flight num) db = ([Text "Flight not found"], db)) /\
  (forall assignment_id,
     existsb (fun a => (pa_assignment_id a =? assignment_id)%Z)
       (pilot_assignments db) = false ->
     run (delete_pilot_assignment assignment_id) db =
     ([Text "Assignment not found"], db)) /\
  (forall pilot_id,
     pilot_exists pilot_id db = false ->
     count_assignments pilot_id db = 0 ->
     run (manage_pilots (Delete_a_pilot pilot_id)) db =
     (pilot_menu ++ [Text "Pilot not found"], db)).
Proof.
  split; [|split].
  - intros num H. now rewrite delete_flight_run, H.
  - intros a H. now rewrite delete_pilot_assignment_run, H.
  - intros p Hp Hc. now rewrite delete_a_pilot_run, Hc, Hp.
Qed.

(** ** [update_flight_info]: requests the store does not take *)

(** X12.  With a choice other than 1 and 2 [update_flight_info] runs no
    statement, prints "Flight not found" and leaves the file as it was,
    whether a flight has the number or not. *)
Theorem update_flight_other_choice_not_found
    (num : string) (choice : Z) (answer : string) (db : database) :
  choice <> 1%Z -> choice <> 2%Z ->
  run (update_flight_info num choice answer) db =
  (update_menu ++ [Text "Flight not found"], db).
Proof.
  intros H1 H2. rewrite update_flight_info_run.
  apply Z.eqb_neq in H1, H2. now rewrite H1, H2.
Qed.

Lemma update_flight_other_choice_not_found_witness :
  run (update_flight_info "BA101" 3 "Delayed") sample_database =
  (update_menu ++ [Text "Flight not found"], sample_database).
Proof.
  apply (update_flight_other_choice_not_found "BA101" 3 "Delayed"
           sample_database); lia.
Defined.

(** X13.  A status outside the seven values of the [CHECK] is never
    stored by [update_flight_info]: when a flight has the number the
    store refuses the [UPDATE] and the error is printed, when none has it
    the answer is "Flight not found"; the file is as it was in both
    cases. *)
Theorem update_flight_status_outside_values
    (num answer : string) (db : database) :
  status_allowed answer = false ->
  run (update_flight_info num 2 answer) db =
  (update_menu ++
   [if existsb (has_flight_number num) (flights db)
    then Failure "Error updating flight" (IntegrityError CHECK_status)
    else Text "Flight not found"], db).
Proof.
  intros H. rewrite update_flight_info_run. cbn [Z.eqb Pos.eqb].
  rewrite H. now destruct (existsb _ _).
Qed.

Lemma update_flight_status_outside_values_witness :
  run (update_flight_info "BA101" 2 "delayed") sample_database =
  (update_menu ++
   [if existsb (has_flight_number "BA101") (flights sample_database)
    then Failure "Error updating flight" (IntegrityError CHECK_status)
    else Text "Flight not found"], sample_database).
Proof.
  apply (update_flight_status_outside_values "BA101" "delayed"
           sample_database).
  reflexivity.
Defined.

(** ** [assign_pilot] checks both ids itself *)

(** X14.  A row [assign_pilot] adds names a flight and a pilot that are
    in the file at that moment, and a date the method accepted: every
    assignment in the file after the call was there before, or is such a
    row. *)
Theorem assign_pilot_adds_only_checked_rows
    (sql_now : string) (now : datetime) (flight_id pilot_id : Z)
    (date : string) (db : database) (a : assignment) :
  In a (pilot_assignments
          (turn (Menu_assign_pilot sql_now now flight_id pilot_id date) db))
  ->
  In a (pilot_assignments db) \/
  (pa_flight_id a = flight_id /\ pa_pilot_id a = pilot_id /\
   flight_exists flight_id db = true /\ pilot_exists pilot_id db = true /\
   accepted_date now date = Some (pa_assignment_date a)).
Proof.
  unfold turn. cbn [dispatch]. rewrite assign_pilot_run. cbv zeta.
  destruct (fits_int64 flight_id); cbn [negb snd]; [|now left].
  destruct (flight_exists flight_id db); cbn [negb snd]; [|now left].
  destruct (fits_int64 pilot_id); cbn [negb snd]; [|now left].
  destruct (pilot_exists pilot_id db); cbn [negb snd]; [|now left].
  destruct (accepted_date now date) as [t|]; cbn [snd]; [|now left].
  destruct (insert_assignment _ _ _ _) as [e|[db' n]] eqn:E; cbn [snd];
    [now left|].
  unfold insert_assignment in E. open_statement E.
  unfold set_pilot_assignments. cbn [pilot_assignments].
  intros Hin. apply in_app_or in Hin as [Hin|[<-|[]]]; [now left|].
  right. repeat split.
Qed.

Lemma assign_pilot_adds_only_checked_rows_witness :
  let a := mkAssignment 17 2 5 "2025-03-01 08:00:00" in
  In a (pilot_assignments sample_database) \/
  (pa_flight_id a = 2%Z /\ pa_pilot_id a = 5%Z /\
   flight_exists 2 sample_database = true /\
   pilot_exists 5 sample_database = true /\
   accepted_date (mkDatetime 2025 1 1 0 0 0) "2025-03-01 08:00" =
     Some (pa_assignment_date a)).
Proof.
  apply (assign_pilot_adds_only_checked_rows "2025-01-01 00:00:00"
           (mkDatetime 2025 1 1 0 0 0) 2 5 "2025-03-01 08:00"
           sample_database (mkAssignment 17 2 5 "2025-03-01 08:00:00")).
  vm_compute. do 16 right. left. reflexivity.
Defined.

(** ** The [CHECK] and [UNIQUE] constraints in every state *)

Lemma checks_insert_flight n o d t s :
  statement_keeps checks_hold (insert_flight n o d t s).
Proof.
  intros db db' k H E. unfold insert_flight in E. open_statement E.
  unfold checks_hold, set_flights. cbn [flights].
  apply Forall_app. split; [exact H|]. constructor; [|constructor].
  cbn [f_status f_origin_id f_destination_id]. split.
  - now apply negb_false_iff in C0.
  - now apply Z.eqb_neq.
Qed.

Lemma checks_update_departure_time t n :
  statement_keeps checks_hold (update_departure_time t n).
Proof.
  intros db db' k H E. unfold update_departure_time in E.
  injection E as <- <-. unfold checks_hold, set_flights in *.
  cbn [flights]. rewrite Forall_forall in *. intros f Hf.
  apply in_map_iff in Hf as (g & <- & Hg).
  destruct (has_flight_number n g); [|now apply H].
  exact (H g Hg).
Qed.

Lemma checks_update_status s n :
  statement_keeps checks_hold (update_status s n).
Proof.
  intros db db' k H E. unfold update_status in E. open_statement E.
  unfold checks_hold, set_flights in *.
  cbn [flights]. rewrite Forall_forall in *. intros f Hf.
  apply in_map_iff in Hf as (g & <- & Hg).
  destruct (has_flight_number n g) eqn:Hn; [|now apply H].
  cbn [set_status f_status f_origin_id f_destination_id].
  split; [|exact (proj2 (H g Hg))].
  apply andb_false_iff in C as [C|C].
  - exfalso. apply not_true_iff_false in C. apply C.
    apply existsb_exists. now exists g.
  - now apply negb_false_iff in C.
Qed.

Lemma checks_delete_flights n : statement_keeps checks_hold (delete_flights n).
Proof.
  intros db db' k H E. unfold delete_flights in E. open_statement E.
  unfold checks_hold, set_flights. cbn [flights].
  now apply Forall_filter_keeps.
Qed.

Lemma checks_turn m db : checks_hold db -> checks_hold (turn m db).
Proof.
  apply turn_keeps; intros.
  - untouched insert_pilot.
  - untouched insert_destination.
  - apply checks_insert_flight.
  - untouched insert_assignment.
  - apply checks_update_departure_time.
  - apply checks_update_status.
  - untouched update_pilot.
  - untouched update_destination.
  - apply checks_delete_flights.
  - untouched delete_assignment.
  - untouched delete_pilot.
Qed.

(** X15.  In every state the program can bring about, each flight has one
    of the seven status values and an origin id other than its
    destination id: no sequence of menu entries gets a row past the two
    [CHECK]s. *)
Theorem reachable_checks_hold (db : database) :
  reachable db -> checks_hold db.
Proof.
  intros Hr. induction Hr as [|db m _ IH]; [constructor|].
  now apply checks_turn.
Qed.

Lemma reachable_checks_hold_witness :
  checks_hold
    (turn (Menu_update_flight_info "BA101" 2 "Delayed") sample_database).
Proof.
  apply (reachable_checks_hold
           (turn (Menu_update_flight_info "BA101" 2 "Delayed")
              sample_database)).
  do 2 apply reachable_turn. apply reachable_empty.
Defined.

Lemma NoDup_middle {A} (x : A) (l1 l2 : list A) :
  NoDup (l1 ++ l2) -> ~ In x (l1 ++ l2) -> NoDup (l1 ++ x :: l2).
Proof.
  intros Hl Hx.
  apply (Permutation_NoDup (Permutation_middle l1 l2 x)).
  now constructor.
Qed.

(** An [UPDATE] under a [UNIQUE] constraint on [key] keeps the keys of
    the table distinct. *)
Lemma update_rows_unique {R K} (key : R -> K) hit change clash
    (done todo t : list R) :
  (forall a b, clash a b = false -> key a <> key b) ->
  NoDup (map key (done ++ todo)) ->
  update_rows hit change clash done todo = Some t ->
  NoDup (map key t).
Proof.
  intros Hclash. revert done.
  induction todo as [|r todo IH]; intros done Hnd; cbn [update_rows].
  - intros [= <-]. now rewrite app_nil_r in Hnd.
  - destruct (hit r).
    + destruct (existsb _ _) eqn:Hex; [discriminate|].
      intros E. refine (IH _ _ E). clear E IH.
      rewrite <- app_assoc. cbn [app].
      rewrite map_app in *. cbn [map] in *.
      apply NoDup_middle; [now apply NoDup_remove_1 in Hnd|].
      rewrite <- map_app. intros Hin.
      apply in_map_iff in Hin as (q & Hq & Hin).
      apply not_true_iff_false in Hex. apply Hex.
      apply existsb_exists. exists q. split; [exact Hin|].
      destruct (clash (change r) q) eqn:Hc; [reflexivity|].
      exfalso. now apply (Hclash _ _ Hc).
    + intros E. refine (IH _ _ E). now rewrite <- app_assoc.
Qed.

Lemma fold_pilot_update_license updates p :
  existsb sets_license_id updates = false ->
  p_license_id (fold_left apply_pilot_update updates p) = p_license_id p.
Proof.
  revert p. induction updates as [|u updates IH]; intros p H;
    cbn [fold_left existsb] in *; [reflexivity|].
  apply orb_false_iff in H as [Hu H]. rewrite (IH _ H).
  now destruct u.
Qed.

Lemma fold_destination_update_id updates d :
  d_destination_id (fold_left apply_destination_update updates d) =
  d_destination_id d.
Proof.
  revert d. induction updates as [|u updates IH]; intros d;
    cbn [fold_left]; [reflexivity|].
  rewrite IH. now destruct u.
Qed.

Lemma fold_destination_update_place updates d :
  existsb sets_city_or_code updates = false ->
  destination_place (fold_left apply_destination_update updates d) =
  destination_place d.
Proof.
  revert d. induction updates as [|u updates IH]; intros d H;
    cbn [fold_left existsb] in *; [reflexivity|].
  apply orb_false_iff in H as [Hu H]. rewrite (IH _ H).
  now destruct u.
Qed.

Lemma uniques_insert_pilot n l y :
  statement_keeps uniques_hold (insert_pilot n l y).
Proof.
  intros db db' k (Hl & Hrest) E. unfold insert_pilot in E.
  open_statement E. split; [|exact Hrest].
  cbn [set_pilots pilots]. rewrite map_app. cbn [map p_license_id].
  apply NoDup_snoc; [exact Hl|]. intros Hin.
  apply in_map_iff in Hin as (p & Ep & Hp).
  apply not_true_iff_false in C0. apply C0, existsb_exists.
  exists p. split; [exact Hp|]. now apply String.eqb_eq.
Qed.

Lemma uniques_insert_destination c k a :
  statement_keeps uniques_hold (insert_destination c k a).
Proof.
  intros db db' n (Hl & Hp & Hd & Ha) E. unfold insert_destination in E.
  open_statement E. split; [exact Hl|]. split; [|split; [|exact Ha]].
  - cbn [set_destinations destinations]. rewrite map_app.
    cbn [map destination_place]. apply NoDup_snoc; [exact Hp|].
    intros Hin. apply in_map_iff in Hin as (d & Ed & Hin).
    injection Ed as Ec Ea.
    apply not_true_iff_false in C. apply C, existsb_exists.
    exists d. split; [exact Hin|]. apply andb_true_iff.
    split; now apply String.eqb_eq.
  - cbn [set_destinations destinations]. rewrite map_app. cbn [map].
    apply NoDup_snoc; [exact Hd|]. apply next_rowid_fresh.
Qed.

Lemma uniques_insert_assignment f p t :
  statement_keeps uniques_hold (insert_assignment f p t).
Proof.
  intros db db' n (Hl & Hp & Hd & Ha) E. unfold insert_assignment in E.
  open_statement E. repeat split; try assumption.
  cbn [set_pilot_assignments pilot_assignments]. rewrite map_app.
  cbn [map]. apply NoDup_snoc; [exact Ha|]. apply next_rowid_fresh.
Qed.

Lemma uniques_update_pilot u p :
  statement_keeps uniques_hold (update_pilot u p).
Proof.
  intros db db' n (Hl & Hrest) E. unfold update_pilot in E.
  open_statement E. split; [|exact Hrest].
  cbn [set_pilots pilots].
  destruct (existsb sets_license_id u) eqn:Hu.
  - apply (update_rows_unique p_license_id _ _ _ _ _ _) with (3 := C0);
      [|exact Hl].
    intros a b Hc. cbn [andb] in Hc. now apply String.eqb_neq.
  - rewrite (update_rows_key p_license_id _ _ _ _ _ _
               (fun r => fold_pilot_update_license u r Hu) C0).
    exact Hl.
Qed.

Lemma uniques_update_destination u d :
  statement_keeps uniques_hold (update_destination u d).
Proof.
  intros db db' n (Hl & Hp & Hd & Ha) E. unfold update_destination in E.
  open_statement E. split; [exact Hl|]. split; [|split; [|exact Ha]].
  - cbn [set_destinations destinations].
    destruct (existsb sets_city_or_code u) eqn:Hu.
    + apply (update_rows_unique destination_place _ _ _ _ _ _)
        with (3 := C); [|exact Hp].
      intros a b Hc. cbn [andb] in Hc. unfold destination_place.
      intros [= Ec Ea]. rewrite Ec, Ea, !String.eqb_refl in Hc.
      discriminate.
    + rewrite (update_rows_key destination_place _ _ _ _ _ _
                 (fun r => fold_destination_update_place u r Hu) C).
      exact Hp.
  - cbn [set_destinations destinations].
    rewrite (update_rows_key d_destination_id _ _ _ _ _ _
               (fold_destination_update_id u) C).
    exact Hd.
Qed.

Lemma uniques_delete_assignment a :
  statement_keeps uniques_hold (delete_assignment a).
Proof.
  intros db db' n (Hl & Hp & Hd & Ha) E. unfold delete_assignment in E.
  injection E as <- <-. repeat split; try assumption.
  cbn [set_pilot_assignments pilot_assignments].
  now apply NoDup_map_filter.
Qed.

Lemma uniques_delete_pilot p :
  statement_keeps uniques_hold (delete_pilot p).
Proof.
  intros db db' n (Hl & Hrest) E. unfold delete_pilot in E.
  open_statement E. split; [|exact Hrest].
  cbn [set_pilots pilots]. now apply NoDup_map_filter.
Qed.

Lemma uniques_turn m db : uniques_hold db -> uniques_hold (turn m db).
Proof.
  apply turn_keeps; intros.
  - apply uniques_insert_pilot.
  - apply uniques_insert_destination.
  - untouched insert_flight.
  - apply uniques_insert_assignment.
  - untouched update_departure_time.
  - untouched update_status.
  - apply uniques_update_pilot.
  - apply uniques_update_destination.
  - untouched delete_flights.
  - apply uniques_delete_assignment.
  - apply uniques_delete_pilot.
Qed.

(** The primary key of [destinations] in every state the program can
    bring about. *)
Lemma reachable_destination_keys db :
  reachable db -> NoDup (map d_destination_id (destinations db)).
Proof.
  intros Hr.
  enough (H : uniques_hold db) by apply H.
  induction Hr as [|db m _ IH]; [|now apply uniques_turn].
  repeat split; constructor.
Qed.

(** X16.  In every state the program can bring about, no two pilots have
    the same license id, no two destinations the same city and airport
    code, and no two destinations or two assignments the same id: adds
    and updates that would break one of these are refused as a whole. *)
Theorem reachable_uniques_hold (db : database) :
  reachable db -> uniques_hold db.
Proof.
  intros Hr. induction Hr as [|db m _ IH].
  - repeat split; constructor.
  - now apply uniques_turn.
Qed.

Lemma reachable_uniques_hold_witness :
  uniques_hold
    (turn (Menu_manage_pilots (Update_a_pilot 2 "" "UK10001" None))
       sample_database).
Proof.
  apply (reachable_uniques_hold
           (turn (Menu_manage_pilots (Update_a_pilot 2 "" "UK10001" None))
              sample_database)).
  do 2 apply reachable_turn. apply reachable_empty.
Defined.

(** ** An update of a pilot writes the answers given, on that pilot *)

Lemma fold_pilot_updates name license_id years p :
  fold_left apply_pilot_update (pilot_updates name license_id years) p =
  updated_pilot name license_id years p.
Proof.
  unfold pilot_updates, updated_pilot.
  destruct p as [i n l y].
  destruct (String.eqb name ""), (String.eqb license_id ""), years;
    reflexivity.
Qed.

Lemma sets_license_pilot_updates name license_id years :
  existsb sets_license_id (pilot_updates name license_id years) =
  negb (String.eqb license_id "").
Proof.
  unfold pilot_updates.
  destruct (String.eqb name ""), (String.eqb license_id ""), years;
    reflexivity.
Qed.

(** When at most one row of the table is hit, and the changed row clashes
    with no other, the [UPDATE] changes that row and no other. *)
Lemma update_rows_one_hit {R} (key : R -> Z) (id : Z) change clash
    (done todo : list R) :
  let hit := fun r => (key r =? id)%Z in
  NoDup (map key todo) ->
  existsb hit done = false ->
  (forall r q, In r todo -> hit r = true -> In q (done ++ todo) ->
               hit q = false -> clash (change r) q = false) ->
  update_rows hit change clash done todo =
  Some (done ++ map (fun r => if hit r then change r else r) todo).
Proof.
  intros hit. revert done.
  induction todo as [|r todo IH]; intros done Hnd Hdone Hclash;
    cbn [update_rows map].
  - now rewrite app_nil_r.
  - inversion Hnd as [|? ? Hr Hnd']; subst.
    destruct (hit r) eqn:Hhit.
    + assert (Hrest : existsb hit todo = false).
      { apply not_true_is_false. intros H.
        apply existsb_exists in H as (q & Hq & Hqhit).
        apply Hr. unfold hit in *. apply Z.eqb_eq in Hhit, Hqhit.
        rewrite Hhit, <- Hqhit. now apply in_map. }
      replace (existsb (clash (change r)) (done ++ todo)) with false.
      * rewrite update_rows_no_hit by exact Hrest.
        rewrite (map_none hit change todo Hrest).
        now rewrite <- app_assoc.
      * symmetry. apply not_true_is_false. intros H.
        apply existsb_exists in H as (q & Hq & Hc).
        rewrite (Hclash r q) in Hc; [discriminate|now left|exact Hhit| |].
        -- apply in_app_or in Hq as [Hq|Hq]; apply in_or_app;
             [now left|right; now right].
        -- apply in_app_or in Hq as [Hq|Hq].
           ++ apply not_true_is_false. intros Hqhit.
              apply not_true_iff_false in Hdone. apply Hdone.
              apply existsb_exists. now exists q.
           ++ apply not_true_is_false. intros Hqhit.
              apply not_true_iff_false in Hrest. apply Hrest.
              apply existsb_exists. now exists q.
    + rewrite IH.
      * now rewrite <- app_assoc.
      * exact Hnd'.
      * rewrite existsb_app. cbn [existsb]. now rewrite Hdone, Hhit.
      * intros x q Hx Hxhit Hq Hqhit. apply Hclash; try assumption.
        -- now right.
        -- rewrite <- app_assoc in Hq. exact Hq.
Qed.

(** X17.  In a state the program can bring about, when no other pilot
    holds the new license id and the years fit 64 bits, [manage_pilots]
    asked to update a pilot writes the answers that are not empty over
    the columns of that pilot's row, and leaves the other columns, the
    other pilots and the other tables as they were. *)
Theorem update_pilot_writes_given_fields
    (pilot_id : Z) (name license_id : string) (years : option Z)
    (db : database) :
  reachable db ->
  (forall q, license_id <> "" -> In q (pilots db) ->
             p_pilot_id q <> pilot_id -> p_license_id q <> license_id) ->
  (forall v, years = Some v -> fits_int64 v = true) ->
  turn (Menu_manage_pilots (Update_a_pilot pilot_id name license_id years))
    db =
  set_pilots
    (map (fun q => if (p_pilot_id q =? pilot_id)%Z
                   then updated_pilot name license_id years q else q)
       (pilots db)) db.
Proof.
  intros Hr Hfree Hfits. unfold turn. cbn [dispatch].
  rewrite update_a_pilot_run.
  destruct (pilot_updates name license_id years) as [|u us] eqn:E.
  - cbn [snd]. unfold pilot_updates in E.
    destruct (String.eqb name "") eqn:En; [|discriminate].
    destruct (String.eqb license_id "") eqn:El; [|discriminate].
    destruct years; [discriminate|].
    rewrite <- (set_pilots_same db) at 1. f_equal.
    rewrite <- (map_id (pilots db)) at 1. apply map_ext. intros q.
    destruct (p_pilot_id q =? pilot_id)%Z; [|reflexivity].
    unfold updated_pilot. rewrite En, El. now destruct q.
  - rewrite <- E. clear u us E. unfold update_pilot.
    replace (forallb pilot_update_fits (pilot_updates name license_id years))
      with true.
    2:{ symmetry. unfold pilot_updates.
        destruct (String.eqb name ""), (String.eqb license_id "");
          destruct years as [v|]; cbn [app forallb pilot_update_fits andb];
          try reflexivity; now rewrite (Hfits v eq_refl). }
    cbn [negb].
    rewrite (update_rows_one_hit p_pilot_id pilot_id).
    + cbn [app snd]. f_equal. apply map_ext. intros q.
      now rewrite fold_pilot_updates.
    + exact (proj1 (reachable_primary_keys db Hr)).
    + reflexivity.
    + intros r q Hin Hhit Hq Hqhit. cbn [app] in Hq.
      rewrite sets_license_pilot_updates, fold_pilot_updates.
      destruct (String.eqb license_id "") eqn:El; [reflexivity|].
      cbn [negb andb]. unfold updated_pilot. cbn [p_license_id].
      rewrite El. apply String.eqb_neq. intros Heq.
      apply String.eqb_neq in El. apply Z.eqb_neq in Hqhit.
      now apply (Hfree q El Hq Hqhit).
Qed.

(** Pilot 2 of the sample data gets a new name and 13 years; the license
    stays. *)
Lemma update_pilot_writes_given_fields_witness :
  turn (Menu_manage_pilots (Update_a_pilot 2 "Jane Doe" "" (Some 13%Z)))
    sample_database =
  set_pilots
    (map (fun q => if (p_pilot_id q =? 2)%Z
                   then updated_pilot "Jane Doe" "" (Some 13%Z) q else q)
       (pilots sample_database)) sample_database.
Proof.
  apply (update_pilot_writes_given_fields 2 "Jane Doe" "" (Some 13%Z)
           sample_database).
  - apply reachable_turn, reachable_empty.
  - intros q H. now contradiction H.
  - intros v [= <-]. reflexivity.
Defined.

(** ** [populate_sample_data]: all of the sample or none of it *)

Lemma run_statements_app stmts1 stmts2 db :
  run_statements (stmts1 ++ stmts2) db =
  match run_statements stmts1 db with
  | inl e => inl e
  | inr db' => run_statements stmts2 db'
  end.
Proof.
  revert db. induction stmts1 as [|s stmts1 IH]; intros db;
    cbn [app run_statements]; [reflexivity|].
  destruct (s db) as [e|[db' n]]; [reflexivity|apply IH].
Qed.

Lemma runs_as_for_each {A} (l : list A) (body : A -> M unit)
    (stmt : A -> database -> exn + database * Z) :
  (forall x, body x = execute (stmt x)) ->
  runs_as (for_each l body) (map stmt l).
Proof.
  intros Hbody. induction l as [|x l IH]; intros w;
    cbn [map run_statements for_each].
  - exists (rowcount w). now destruct w.
  - rewrite Hbody. unfold bind, execute.
    destruct (stmt x (conn w)) as [e|[db1 n1]] eqn:E.
    + exists (conn w), (rowcount w). now destruct w.
    + exact (IH (mkWorld (file w) db1 n1 (stdout w))).
Qed.

Lemma runs_as_seq (m1 m2 : M unit) stmts1 stmts2 :
  runs_as m1 stmts1 -> runs_as m2 stmts2 ->
  runs_as (m1 ;; m2) (stmts1 ++ stmts2).
Proof.
  intros H1 H2 w. rewrite run_statements_app. unfold bind.
  specialize (H1 w).
  destruct (run_statements stmts1 (conn w)) as [e|db1].
  - destruct H1 as (c & n & ->). now exists c, n.
  - destruct H1 as (n & ->).
    exact (H2 (mkWorld (file w) db1 n (stdout w))).
Qed.

Lemma sample_inserts_run :
  runs_as
    (for_each sample_pilots
       (fun '(name, license_id, years) =>
          execute (insert_pilot name license_id years)) ;;
     for_each sample_destinations
       (fun '(city, country, airport_code) =>
          execute (insert_destination city country airport_code)) ;;
     for_each sample_flights
       (fun '(flight_number, origin_id, destination_id, departure_time,
              status) =>
          execute (insert_flight flight_number origin_id destination_id
                     departure_time status)) ;;
     for_each sample_assignments
       (fun '(flight_id, pilot_id, assignment_date) =>
          execute (insert_assignment flight_id pilot_id assignment_date)))
    sample_statements.
Proof.
  unfold sample_statements.
  apply runs_as_seq; [apply runs_as_for_each; now intros [[? ?] ?]|].
  apply runs_as_seq; [apply runs_as_for_each; now intros [[? ?] ?]|].
  apply runs_as_seq; apply runs_as_for_each.
  - now intros [[[[? ?] ?] ?] ?].
  - now intros [[? ?] ?].
Qed.

(** Statements in a row, then [commit] and a message, under the
    [try]/[except]/[finally] of a method. *)
Lemma transaction_run (a b c d : M unit) stmts (ok : line)
    (prefix : string) db :
  runs_as (a ;; b ;; c ;; d) stmts ->
  run (try_finally
         (try_except
            (get_connection ;; a ;; b ;; c ;; d ;; commit ;; print ok)
            (fun e => print (Failure prefix e)))
         close) db =
  match run_statements stmts db with
  | inl e => ([Failure prefix e], db)
  | inr db' => ([ok], db')
  end.
Proof.
  intros H. specialize (H (mkWorld db db (-1) [])).
  cbn [conn file stdout] in H.
  set (w := mkWorld db db (-1) []) in *.
  assert (E0 : forall X : M unit, (get_connection ;; X) w = X w)
    by reflexivity.
  assert (E1 : (a ;; b ;; c ;; d ;; commit ;; print ok) w =
               ((a ;; b ;; c ;; d) ;; commit ;; print ok) w).
  { unfold bind.
    destruct (a w) as [[[]|e|] w1]; try reflexivity.
    destruct (b w1) as [[[]|e|] w2]; try reflexivity.
    destruct (c w2) as [[[]|e|] w3]; try reflexivity. }
  assert (E2 : forall (m k : M unit),
            (m ;; k) w =
            match m w with
            | (Val _, w') => k w'
            | (Raise e, w') => (Raise e, w')
            | (Return, w') => (Return, w')
            end) by reflexivity.
  unfold run, try_finally, try_except. fold w.
  rewrite E0, E1, (E2 (a ;; b ;; c ;; d)).
  destruct (run_statements stmts db) as [e|db'].
  - destruct H as (k & n & ->). reflexivity.
  - destruct H as (n & ->). reflexivity.
Qed.

Lemma populate_sample_data_run db :
  run populate_sample_data db =
  match run_statements sample_statements db with
  | inl e => ([Failure "Error populating sample data" e], db)
  | inr db' => ([Text "Sample data populated successfully"], db')
  end.
Proof.
  unfold populate_sample_data.
  apply transaction_run, sample_inserts_run.
Qed.

(** Rows appended to one table by a run of [INSERT]s. *)
Lemma run_insert_pilots (l : list (string * string * Z)) db db' :
  run_statements
    (map (fun '(name, license_id, years) =>
            insert_pilot name license_id years) l) db = inr db' ->
  exists ps,
    db' = set_pilots (pilots db ++ ps) db /\ map pilot_values ps = l.
Proof.
  revert db. induction l as [|[[n li] y] l IH]; intros db;
    cbn [map run_statements].
  - intros [= <-]. exists []. now rewrite app_nil_r, set_pilots_same.
  - destruct (insert_pilot n li y db) as [e|[db1 k]] eqn:E;
      [discriminate|].
    intros H. destruct (IH _ H) as (ps & Hdb & Hl). clear IH H.
    unfold insert_pilot in E. open_statement E.
    eexists (_ :: ps). split.
    + rewrite Hdb. unfold set_pilots.
      cbn [pilots destinations flights pilot_assignments].
      now rewrite <- app_assoc.
    + cbn [map]. now rewrite Hl.
Qed.

Lemma run_insert_destinations (l : list (string * string * string)) db db' :
  run_statements
    (map (fun '(city, country, airport_code) =>
            insert_destination city country airport_code) l) db = inr db' ->
  exists ds,
    db' = set_destinations (destinations db ++ ds) db /\
    map destination_values ds = l.
Proof.
  revert db. induction l as [|[[c k] a] l IH]; intros db;
    cbn [map run_statements].
  - intros [= <-]. exists []. now rewrite app_nil_r, set_destinations_same.
  - destruct (insert_destination c k a db) as [e|[db1 n]] eqn:E;
      [discriminate|].
    intros H. destruct (IH _ H) as (ds & Hdb & Hl). clear IH H.
    unfold insert_destination in E. open_statement E.
    eexists (_ :: ds). split.
    + rewrite Hdb. unfold set_destinations.
      cbn [pilots destinations flights pilot_assignments].
      now rewrite <- app_assoc.
    + cbn [map]. now rewrite Hl.
Qed.

Lemma run_insert_flights (l : list (string * Z * Z * string * string))
    db db' :
  run_statements
    (map (fun '(flight_number, origin_id, destination_id, departure_time,
                status) =>
            insert_flight flight_number origin_id destination_id
              departure_time status) l) db = inr db' ->
  exists fs,
    db' = set_flights (flights db ++ fs) db /\ map flight_values fs = l.
Proof.
  revert db. induction l as [|[[[[n o] d] t] s] l IH]; intros db;
    cbn [map run_statements].
  - intros [= <-]. exists []. now rewrite app_nil_r, set_flights_same.
  - destruct (insert_flight n o d t s db) as [e|[db1 k]] eqn:E;
      [discriminate|].
    intros H. destruct (IH _ H) as (fs & Hdb & Hl). clear IH H.
    unfold insert_flight in E. open_statement E.
    eexists (_ :: fs). split.
    + rewrite Hdb. unfold set_flights.
      cbn [pilots destinations flights pilot_assignments].
      now rewrite <- app_assoc.
    + cbn [map]. now rewrite Hl.
Qed.

Lemma run_insert_assignments (l : list (Z * Z * string)) db db' :
  run_statements
    (map (fun '(flight_id, pilot_id, assignment_date) =>
            insert_assignment flight_id pilot_id assignment_date) l) db
  = inr db' ->
  exists pas,
    db' = set_pilot_assignments (pilot_assignments db ++ pas) db /\
    map assignment_values pas = l.
Proof.
  revert db. induction l as [|[[f p] t] l IH]; intros db;
    cbn [map run_statements].
  - intros [= <-]. exists [].
    now rewrite app_nil_r, set_pilot_assignments_same.
  - destruct (insert_assignment f p t db) as [e|[db1 k]] eqn:E;
      [discriminate|].
    intros H. destruct (IH _ H) as (pas & Hdb & Hl). clear IH H.
    unfold insert_assignment in E. open_statement E.
    eexists (_ :: pas). split.
    + rewrite Hdb. unfold set_pilot_assignments.
      cbn [pilots destinations flights pilot_assignments].
      now rewrite <- app_assoc.
    + cbn [map]. now rewrite Hl.
Qed.

Lemma sample_statements_added db db' :
  run_statements sample_statements db = inr db' ->
  exists ps ds fs pas,
    db' = mkDatabase (pilots db ++ ps) (destinations db ++ ds)
            (flights db ++ fs) (pilot_assignments db ++ pas) /\
    map pilot_values ps = sample_pilots /\
    map destination_values ds = sample_destinations /\
    map flight_values fs = sample_flights /\
    map assignment_values pas = sample_assignments.
Proof.
  intros E. unfold sample_statements in E.
  rewrite run_statements_app in E.
  destruct (run_statements _ db) as [|db1] eqn:E1 in E; [discriminate|].
  rewrite run_statements_app in E.
  destruct (run_statements _ db1) as [|db2] eqn:E2 in E; [discriminate|].
  rewrite run_statements_app in E.
  destruct (run_statements _ db2) as [|db3] eqn:E3 in E; [discriminate|].
  apply run_insert_pilots in E1 as (ps & -> & Hps).
  apply run_insert_destinations in E2 as (ds & -> & Hds).
  apply run_insert_flights in E3 as (fs & -> & Hfs).
  apply run_insert_assignments in E as (pas & -> & Hpas).
  exists ps, ds, fs, pas. repeat split; assumption.
Qed.

(** X18.  [populate_sample_data] writes all of the sample or nothing.
    Either the file is as it was, or each table is the table as it was
    followed by the rows of the sample in their order, with the values
    the source lists: the flights and assignments of the sample carry the
    destination, flight and pilot ids written in the source, whatever ids
    the rows added before them were given. *)
Theorem populate_sample_data_all_or_nothing (db : database) :
  let db' := turn Menu_populate_sample_data db in
  db' = db \/
  exists ps ds fs pas,
    db' = mkDatabase (pilots db ++ ps) (destinations db ++ ds)
            (flights db ++ fs) (pilot_assignments db ++ pas) /\
    map pilot_values ps = sample_pilots /\
    map destination_values ds = sample_destinations /\
    map flight_values fs = sample_flights /\
    map assignment_values pas = sample_assignments.
Proof.
  cbv zeta. unfold turn. cbn [dispatch]. rewrite populate_sample_data_run.
  destruct (run_statements sample_statements db) as [e|db'] eqn:E;
    cbn [snd]; [now left|right].
  now apply sample_statements_added.
Qed.

(** With a pilot in the file who holds the license of the first pilot of
    the sample, [populate_sample_data] fails on its first [INSERT]. *)
Lemma sample_statements_refused db :
  existsb (fun p => String.eqb (p_license_id p) "UK10001") (pilots db)
  = true ->
  run_statements sample_statements db =
  inl (IntegrityError UNIQUE_license_id).
Proof.
  intros H. unfold sample_statements, sample_pilots.
  cbn [map app run_statements]. unfold insert_pilot at 1.
  change (fits_int64 15) with true. cbn [negb]. now rewrite H.
Qed.

(** X19.  [populate_sample_data] a second time changes nothing, on any
    file: when the first call added the sample the second fails on the
    license of the sample's first pilot, and when the first call failed
    the second fails as it did. *)
Theorem populate_sample_data_twice_is_once (db : database) :
  turn Menu_populate_sample_data (turn Menu_populate_sample_data db) =
  turn Menu_populate_sample_data db.
Proof.
  unfold turn. cbn [dispatch]. rewrite (populate_sample_data_run db).
  destruct (run_statements sample_statements db) as [e|db'] eqn:E;
    cbn [snd].
  - now rewrite populate_sample_data_run, E.
  - rewrite populate_sample_data_run, sample_statements_refused;
      [reflexivity|].
    apply sample_statements_added in E
      as (ps & ds & fs & pas & -> & Hps & _).
    cbn [pilots]. rewrite existsb_app. apply orb_true_iff. right.
    destruct ps as [|p ps]; [discriminate|].
    unfold sample_pilots in Hps. cbn [map] in Hps.
    injection Hps as Hn Hl Hy Hrest. cbn [existsb].
    rewrite Hl. reflexivity.
Qed.

(** ** A call that reports an exception has written nothing *)

Lemma no_failure_map {A} (g : A -> line) (l : list A) :
  (forall x, is_failure (g x) = false) ->
  existsb is_failure (map g l) = false.
Proof.
  intros H. induction l as [|x l IH]; cbn [map existsb]; [reflexivity|].
  now rewrite H, IH.
Qed.

Lemma no_failure_destination_listing db :
  existsb is_failure (destination_listing db) = false.
Proof.
  unfold destination_listing. cbn [existsb is_failure orb].
  now apply no_failure_map.
Qed.

Lemma no_failure_assignment_listing sql_now db :
  existsb is_failure (assignment_listing sql_now db) = false.
Proof.
  unfold assignment_listing, upcoming_flights_query.
  cbn [existsb is_failure orb]. rewrite existsb_app.
  cbn [existsb is_failure orb].
  rewrite !no_failure_map; [reflexivity|reflexivity|].
  now intros [[f d1] d2].
Qed.

(** Closes a leaf of a run: the file is as it was, or no line printed
    reports an exception. *)
Ltac failure_leaf :=
  cbn [fst snd];
  first
    [ reflexivity
    | let H := fresh in
      intros H;
      cbv [update_menu destination_menu pilot_menu existsb is_failure app
           orb] in H;
      discriminate H ].

(** X20.  A menu entry that prints the message of an exception has
    written nothing: whenever a line "Error ...: <exception>" is among
    the lines of a call, the file after the call is the file before
    it. *)
Theorem failure_writes_nothing (m : menu) (db : database) :
  existsb is_failure (fst (run (dispatch m) db)) = true ->
  turn m db = db.
Proof.
  unfold turn.
  destruct m as [n o d t|n c a|s now f p d|c|n|c|a|]; cbn [dispatch].
  - rewrite add_new_flight_run.
    destruct (strptime t) as [dt|]; [|failure_leaf].
    destruct (insert_flight _ _ _ _ _ _) as [e|[db' k]]; [failure_leaf|].
    cbn [fst snd]. rewrite existsb_app, no_failure_destination_listing.
    discriminate.
  - rewrite update_flight_info_run.
    repeat match goal with
           | |- context [if ?b then _ else _] => destruct b
           | |- context [match ?x with Some _ => _ | None => _ end] =>
               destruct x
           end; failure_leaf.
  - rewrite assign_pilot_run. cbv zeta.
    repeat match goal with
           | |- context [if ?b then _ else _] => destruct b
           end; try failure_leaf.
    destruct (accepted_date now d) as [t|]; [|failure_leaf].
    destruct (insert_assignment _ _ _ _) as [e|[db' k]]; [failure_leaf|].
    cbn [fst snd]. rewrite existsb_app, no_failure_assignment_listing.
    discriminate.
  - destruct c as [|city country code|id city country code|].
    + intros _. unfold manage_destinations. run_method. reflexivity.
    + rewrite add_a_destination_run.
      destruct (insert_destination _ _ _ _) as [e|[db' k]]; failure_leaf.
    + rewrite update_a_destination_run.
      destruct (destination_updates _ _ _); [failure_leaf|].
      destruct (update_destination _ _ _) as [e|[db' k]]; failure_leaf.
    + intros _. unfold manage_destinations. run_method. reflexivity.
  - rewrite delete_flight_run.
    destruct (existsb (has_flight_number n) _); failure_leaf.
  - destruct c as [|name lic y|id name lic y|id|].
    + intros _. unfold manage_pilots. run_method. reflexivity.
    + rewrite add_a_pilot_run.
      destruct (insert_pilot _ _ _ _) as [e|[db' k]]; failure_leaf.
    + rewrite update_a_pilot_run.
      destruct (pilot_updates _ _ _); [failure_leaf|].
      destruct (update_pilot _ _ _) as [e|[db' k]]; failure_leaf.
    + rewrite delete_a_pilot_run.
      destruct (0 <? _); [failure_leaf|].
      destruct (pilot_exists _ _); failure_leaf.
    + intros _. unfold manage_pilots. run_method. reflexivity.
  - rewrite delete_pilot_assignment_run.
    match goal with
    | |- context [if ?b then _ else _] => destruct b
    end; failure_leaf.
  - rewrite populate_sample_data_run.
    destruct (run_statements _ _); failure_leaf.
Qed.

(** A second flight BA101 with the origin as the destination. *)
Lemma failure_writes_nothing_witness :
  turn (Menu_add_new_flight "BA101" 1 1 "2025-06-01 10:00") sample_database
  = sample_database.
Proof.
  apply (failure_writes_nothing
           (Menu_add_new_flight "BA101" 1 1 "2025-06-01 10:00")
           sample_database).
  vm_compute. reflexivity.
Defined.

(** ** Searching flights: what [LIKE] matches *)








Example search_status_sample :
  search_status_query "LAY"
    (turn (Menu_update_flight_info "BA101" 2 "Delayed") sample_database) =
  [("BA101", "London", "Tokyo", "2025-03-10 10:00:00", "Delayed")].
Proof. vm_compute. reflexivity. Qed.




(** ** Flights the listings leave out *)

(** Under a primary key a value matches the first row that has it and no
    other. *)
Lemma destination_matches_once (ds : list destination) (id : Z) :
  NoDup (map d_destination_id ds) ->
  filter (fun d => (id =? d_destination_id d)%Z) ds =
  match find (fun d => (id =? d_destination_id d)%Z) ds with
  | Some d => [d]
  | None => []
  end.
Proof.
  induction ds as [|d ds IH]; cbn [map filter find]; intros H;
    [reflexivity|].
  inversion H as [|? ? Hd Hds]; subst.
  destruct (id =? d_destination_id d)%Z eqn:E; [|now apply IH].
  f_equal. apply filter_nothing. intros g Hg.
  apply Z.eqb_neq. intros ->. apply Z.eqb_eq in E. apply Hd.
  rewrite <- E. now apply in_map.
Qed.

Lemma destination_exists_find (id : Z) (db : database) :
  destination_exists id db =
  match find (fun d => (id =? d_destination_id d)%Z) (destinations db) with
  | Some _ => true
  | None => false
  end.
Proof.
  unfold destination_exists.
  induction (destinations db) as [|d ds IH]; cbn [existsb find];
    [reflexivity|].
  rewrite (Z.eqb_sym (d_destination_id d) id).
  destruct (id =? d_destination_id d)%Z; [reflexivity|exact IH].
Qed.

Lemma flights_with_cities_one_each (db : database) :
  NoDup (map d_destination_id (destinations db)) ->
  map (fun row => fst (fst row)) (flights_with_cities db) =
  filter (both_destinations_exist db) (flights db).
Proof.
  intros Hd. unfold flights_with_cities.
  induction (flights db) as [|f fs IH]; cbn [flat_map filter];
    [reflexivity|].
  rewrite map_app, IH. clear IH.
  unfold both_destinations_exist.
  rewrite !destination_exists_find, !(destination_matches_once _ _ Hd).
  destruct (find (fun d => (f_origin_id f =? _)%Z) _) as [d1|];
    destruct (find (fun d => (f_destination_id f =? _)%Z) _) as [d2|];
    reflexivity.
Qed.

(** X23.  In a state the program can bring about, the rows every listing
    of flights starts from (the four searches of
    [view_flights_by_criteria], the flights [assign_pilot] offers, the
    schedule of a pilot) are one row for each flight whose origin id and
    destination id are both ids of destinations, in the order of the
    flights; the flights [add_new_flight] stored under an id that is no
    destination's are in none of them. *)
Theorem listings_leave_out_unknown_destinations (db : database) :
  reachable db ->
  map (fun row => fst (fst row)) (flights_with_cities db) =
    filter (both_destinations_exist db) (flights db) /\
  map (fun row => fst (fst (fst (fst row)))) (all_flights_query db) =
    map f_flight_number (filter (both_destinations_exist db) (flights db)).
Proof.
  intros Hr.
  assert (Hd : NoDup (map d_destination_id (destinations db)))
    by apply (reachable_destination_keys db Hr).
  split; [now apply flights_with_cities_one_each|].
  rewrite <- (flights_with_cities_one_each db Hd).
  unfold all_flights_query. rewrite !map_map.
  apply map_ext. now intros [[f d1] d2].
Qed.

(** A flight to destination 99, which is no destination's id, on the
    sample data. *)
Lemma listings_leave_out_unknown_destinations_witness :
  let db := turn (Menu_add_new_flight "ZZ1" 1 99 "2025-06-01 10:00")
              sample_database in
  map (fun row => fst (fst row)) (flights_with_cities db) =
    filter (both_destinations_exist db) (flights db) /\
  map (fun row => fst (fst (fst (fst row)))) (all_flights_query db) =
    map f_flight_number (filter (both_destinations_exist db) (flights db)).
Proof.
  apply (listings_leave_out_unknown_destinations
           (turn (Menu_add_new_flight "ZZ1" 1 99 "2025-06-01 10:00")
              sample_database)).
  do 2 apply reachable_turn. apply reachable_empty.
Defined.

Example unknown_destination_flight_hidden :
  let db := turn (Menu_add_new_flight "ZZ1" 1 99 "2025-06-01 10:00")
              sample_database in
  length (flights db) = 16 /\ length (all_flights_query db) = 15.
Proof. vm_compute. split; reflexivity. Qed.

(** ** The schedule of a pilot *)






Lemma flights_with_cities_flight f d1 d2 db :
  In (f, d1, d2) (flights_with_cities db) -> In f (flights db).
Proof.
  unfold flights_with_cities. intros H.
  apply in_flat_map in H as (g & Hg & H).
  apply in_flat_map in H as (e1 & _ & H).
  apply in_map_iff in H as (e2 & [= <- _ _] & _). exact Hg.
Qed.




(** A flight of the year 999 is stored as ["999-01-01 10:00:00"] and
    comes after the flights of 2025 in the schedule of its pilot. *)
Example pilot_schedule_year_999_last :
  let db :=
    turn (Menu_assign_pilot "2025-01-01 00:00:00"
            (mkDatetime 2025 1 1 0 0 0) 16 1 "")
      (turn (Menu_add_new_flight "BA900" 1 2 "0999-01-01 10:00")
         sample_database) in
  map schedule_departure (pilot_schedule_query 1 db) =
  ["2025-03-10 10:00:00"; "2025-03-16 13:00:00"; "999-01-01 10:00:00"].
Proof. vm_compute. reflexivity. Qed.

Example pilot_schedule_sample :
  map schedule_departure (pilot_schedule_query 1 sample_database) =
  ["2025-03-10 10:00:00"; "2025-03-16 13:00:00"].
Proof. vm_compute. reflexivity. Qed.

Lemma flat_map_nothing {A B} (g : A -> list B) (l : list A) :
  (forall x, In x l -> g x = []) -> flat_map g l = [].
Proof.
  induction l as [|x l IH]; cbn [flat_map]; intros H; [reflexivity|].
  rewrite (H x (or_introl eq_refl)), IH; [reflexivity|].
  intros y Hy. apply H. now right.
Qed.

(** X25.  [view_pilot_schedule] prints "No flights scheduled for this
    pilot" for an id that is no pilot's, and for a pilot none of whose
    assignments names a flight in [flights]: a pilot all of whose flights
    were deleted has no schedule, while [manage_pilots] still counts the
    assignments. *)
Theorem pilot_schedule_without_flights (pilot_id : Z) (db : database) :
  pilot_exists pilot_id db = false \/
  (forall a, In a (assignments_of pilot_id db) ->
             flight_exists (pa_flight_id a) db = false) ->
  run (view_pilot_schedule pilot_id) db =
  ([Text "No flights scheduled for this pilot"], db).
Proof.
  intros H.
  assert (E : pilot_schedule_query pilot_id db = []).
  { unfold pilot_schedule_query.
    replace (schedule_join pilot_id db) with
      (@nil (pilot * assignment * (flight * destination * destination)));
      [reflexivity|].
    symmetry. unfold schedule_join. destruct H as [H|H].
    - rewrite filter_nothing; [reflexivity|].
      intros p Hp. apply not_true_is_false. intros Hid.
      apply not_true_iff_false in H. apply H.
      apply existsb_exists. now exists p.
    - apply flat_map_nothing. intros p Hp.
      apply filter_In in Hp as [_ Hp]. apply Z.eqb_eq in Hp.
      apply flat_map_nothing. intros pa Hpa.
      apply filter_In in Hpa as [Hpa Hid]. apply Z.eqb_eq in Hid.
      rewrite filter_nothing; [reflexivity|].
      intros [[f d1] d2] Hrow. apply not_true_is_false. intros Hf.
      apply Z.eqb_eq in Hf.
      assert (Ha : In pa (assignments_of pilot_id db)).
      { apply filter_In. split; [exact Hpa|].
        apply Z.eqb_eq. congruence. }
      specialize (H pa Ha). apply not_true_iff_false in H. apply H.
      apply existsb_exists. exists f.
      split; [now apply flights_with_cities_flight in Hrow|].
      apply Z.eqb_eq. congruence. }
  unfold view_pilot_schedule. run_method. rewrite E. reflexivity.
Qed.

(** Pilot 3 of the sample data after flight BA102, the only flight of
    the pilot, was deleted. *)
Lemma pilot_schedule_without_flights_witness :
  run (view_pilot_schedule 3)
    (turn (Menu_delete_flight "BA102") sample_database) =
  ([Text "No flights scheduled for this pilot"],
   turn (Menu_delete_flight "BA102") sample_database).
Proof.
  apply (pilot_schedule_without_flights 3
           (turn (Menu_delete_flight "BA102") sample_database)).
  right. intros a Ha. apply (proj1 (negb_true_iff _)). revert a Ha.
  apply (proj1 (forallb_forall
                  (fun a => negb (flight_exists (pa_flight_id a)
                                    (turn (Menu_delete_flight "BA102")
                                       sample_database)))
                  (assignments_of 3
                     (turn (Menu_delete_flight "BA102") sample_database)))).
  vm_compute. reflexivity.
Defined.

(** ** Flights by destination *)

Section Distinct.

Context {K : Type}.
Variable eqb : K -> K -> bool.
Hypothesis eqb_eq : forall x y, eqb x y = true <-> x = y.

Lemma in_distinct x ks : In x ks -> In x (distinct eqb ks).
Proof.
  induction ks as [|y ks IH]; cbn [distinct]; [trivial|].
  intros [->|H]; [now left|].
  destruct (eqb x y) eqn:E.
  - left. symmetry. now apply eqb_eq.
  - right. apply filter_In. split; [now apply IH|]. now rewrite E.
Qed.

Lemma NoDup_distinct ks : NoDup (distinct eqb ks).
Proof.
  induction ks as [|y ks IH]; cbn [distinct]; constructor.
  - intros H. apply filter_In in H as [_ H].
    now rewrite (proj2 (eqb_eq y y) eq_refl) in H.
  - now apply NoDup_filter.
Qed.

(** A key has a group when a row has the key, and the group is the rows
    that have it. *)
Lemma in_group_by {R} (key : R -> K) (rows : list R) k group :
  In (k, group) (group_by key eqb rows) <->
  In k (map key rows) /\ group = filter (fun r => eqb (key r) k) rows.
Proof.
  unfold group_by. rewrite in_map_iff. split.
  - intros (x & [= -> <-] & Hx). split; [|reflexivity].
    now apply (distinct_in _ eqb) in Hx.
  - intros [Hk ->]. exists k. split; [reflexivity|].
    now apply in_distinct.
Qed.

Lemma group_by_keys {R} (key : R -> K) (rows : list R) :
  map fst (group_by key eqb rows) = distinct eqb (map key rows).
Proof.
  unfold group_by. rewrite map_map. cbn [fst]. apply map_id.
Qed.

Lemma in_keys_filter {R} (key : R -> K) (rows : list R) k :
  In k (map key rows) <->
  0 < length (filter (fun r => eqb (key r) k) rows).
Proof.
  induction rows as [|r rows IH]; cbn [map filter In length].
  - split; [contradiction|lia].
  - destruct (eqb (key r) k) eqn:E; cbn [length].
    + split; [lia|]. intros _. left. now apply eqb_eq.
    + rewrite <- IH. split; [|now right].
      intros [H|H]; [|exact H].
      apply eqb_eq in H. congruence.
Qed.

End Distinct.

Lemma join_city_count (city : string) (db : database) :
  NoDup (map d_destination_id (destinations db)) ->
  length (filter (fun fd : flight * destination =>
                    String.eqb (d_city (snd fd)) city)
            (flights_with_destination db)) =
  length (filter (lands_in city db) (flights db)).
Proof.
  intros Hd. unfold flights_with_destination.
  induction (flights db) as [|f fs IH]; cbn [flat_map filter];
    [reflexivity|].
  rewrite filter_app, length_app, IH. clear IH.
  unfold lands_in at 2.
  rewrite existsb_filter, (destination_matches_once _ _ Hd).
  destruct (find _ _) as [d|]; cbn [map filter snd existsb];
    [|reflexivity].
  destruct (String.eqb (d_city d) city); reflexivity.
Qed.

(** X26.  In a state the program can bring about,
    [summarise_flights_by_destination] has one line for each city that
    is the city of the destination of a flight, with the number of
    flights whose destination id is a destination in that city:
    destinations in one city (two airports) are counted together, a city
    without flights has no line, and a flight whose destination id is no
    destination's is counted nowhere. *)
Theorem flights_by_destination_counts (db : database) :
  reachable db ->
  NoDup (map fst (flights_by_destination_query db)) /\
  (forall city n,
     In (city, n) (flights_by_destination_query db) <->
     n = length (filter (lands_in city db) (flights db)) /\ 0 < n).
Proof.
  intros Hr.
  assert (Hd : NoDup (map d_destination_id (destinations db)))
    by apply (reachable_destination_keys db Hr).
  unfold flights_by_destination_query. split.
  - rewrite map_map.
    rewrite (map_ext _ fst) by (now intros [city rows]).
    rewrite (group_by_keys String.eqb).
    apply (NoDup_distinct String.eqb String.eqb_eq).
  - intros city n. rewrite in_map_iff. split.
    + intros ([k rows] & [= -> <-] & Hin).
      apply (in_group_by String.eqb String.eqb_eq) in Hin as [Hin ->].
      rewrite join_city_count by exact Hd. split; [reflexivity|].
      rewrite <- (join_city_count city db Hd).
      now apply (in_keys_filter String.eqb String.eqb_eq).
    + intros [-> Hn]. rewrite <- (join_city_count city db Hd) in *.
      eexists (city, _). split; [reflexivity|].
      apply (in_group_by String.eqb String.eqb_eq).
      split; [|reflexivity].
      now apply (in_keys_filter String.eqb String.eqb_eq).
Qed.

Lemma flights_by_destination_counts_witness :
  let db := turn (Menu_add_new_flight "ZZ1" 3 2 "2025-06-01 10:00")
              sample_database in
  NoDup (map fst (flights_by_destination_query db)) /\
  (forall city n,
     In (city, n) (flights_by_destination_query db) <->
     n = length (filter (lands_in city db) (flights db)) /\ 0 < n).
Proof.
  apply (flights_by_destination_counts
           (turn (Menu_add_new_flight "ZZ1" 3 2 "2025-06-01 10:00")
              sample_database)).
  do 2 apply reachable_turn. apply reachable_empty.
Defined.

Example flights_by_destination_sample :
  let result :=
    flights_by_destination_query
      (turn (Menu_add_new_flight "ZZ1" 3 2 "2025-06-01 10:00")
         sample_database) in
  length result = 15 /\ In ("Tokyo", 2) result /\ In ("London", 1) result.
Proof. vm_compute. intuition. Qed.

(** ** Destination statistics *)

Lemma city_country_eqb_eq (a b : string * string) :
  city_country_eqb a b = true <-> a = b.
Proof.
  destruct a as [c k], b as [c' k']. unfold city_country_eqb.
  cbn [fst snd]. rewrite andb_true_iff, !String.eqb_eq.
  split; [intros [-> ->]; reflexivity|intros [= -> ->]; auto].
Qed.

Lemma pilot_matches_once (ps : list pilot) (id : Z) :
  NoDup (map p_pilot_id ps) ->
  length (filter (fun p => (id =? p_pilot_id p)%Z) ps) <= 1.
Proof.
  induction ps as [|p ps IH]; cbn [map filter]; intros H; [cbn; lia|].
  inversion H as [|? ? Hp Hps]; subst.
  destruct (id =? p_pilot_id p)%Z eqn:E; [|now apply IH].
  rewrite filter_nothing; [cbn; lia|]. intros q Hq.
  apply Z.eqb_neq. intros ->. apply Z.eqb_eq in E. apply Hp.
  rewrite <- E. now apply in_map.
Qed.

(** Rows of a list that come from the elements with a key are the rows
    of the elements that have the key. *)
Lemma filter_flat_map_key {A R} (g : A -> list R) (p : R -> bool)
    (q : A -> bool) (l : list A) :
  (forall a r, In r (g a) -> p r = q a) ->
  filter p (flat_map g l) = flat_map g (filter q l).
Proof.
  intros H. induction l as [|a l IH]; cbn [flat_map filter];
    [reflexivity|].
  rewrite filter_app, IH.
  destruct (q a) eqn:E; cbn [flat_map].
  - f_equal. apply filter_everything. intros r Hr.
    now rewrite (H a r Hr).
  - rewrite filter_nothing; [reflexivity|]. intros r Hr.
    now rewrite (H a r Hr).
Qed.

Lemma length_filter_flat_map {A R} (g : A -> list R) (p : R -> bool)
    (l : list A) :
  length (filter p (flat_map g l)) =
  list_sum (map (fun a => length (filter p (g a))) l).
Proof.
  induction l as [|a l IH]; cbn [flat_map map list_sum]; [reflexivity|].
  now rewrite filter_app, length_app, IH.
Qed.

Lemma list_sum_flat_map {A B} (g : A -> list B) (w : B -> nat)
    (l : list A) :
  list_sum (map w (flat_map g l)) =
  list_sum (map (fun a => list_sum (map w (g a))) l).
Proof.
  induction l as [|a l IH]; cbn [flat_map map list_sum]; [reflexivity|].
  now rewrite map_app, list_sum_app, IH.
Qed.

Section Statistics.

Variable db : database.
Hypothesis pilot_keys : NoDup (map p_pilot_id (pilots db)).
Variable keep : flight -> bool.

(** The [ON] clauses of the three joins. *)
Let on_flight (d : destination) (f : flight) : bool :=
  (d_destination_id d =? f_destination_id f)%Z.

Let on_assignment (row : destination * option flight) (pa : assignment)
  : bool :=
  match snd row with
  | Some f => (f_flight_id f =? pa_flight_id pa)%Z
  | None => false
  end.

Let on_pilot (row : destination * option flight * option assignment)
    (p : pilot) : bool :=
  match snd row with
  | Some pa => (pa_pilot_id pa =? p_pilot_id p)%Z
  | None => false
  end.

(** A counted condition on the flight of a row. *)
Let counted
    (row : destination * option flight * option assignment * option pilot)
  : bool :=
  match statistics_flight row with
  | Some f => keep f
  | None => false
  end.

Let counted2 (row : destination * option flight * option assignment)
  : bool :=
  match snd (fst row) with
  | Some f => keep f
  | None => false
  end.

(** The rows of the three joins that come from one destination. *)
Let destination_rows (d : destination)
  : list (destination * option flight * option assignment * option pilot) :=
  left_join on_pilot
    (left_join on_assignment (left_join on_flight [d] (flights db))
       (pilot_assignments db))
    (pilots db).

Lemma statistics_rows_by_destination :
  statistics_rows db = flat_map destination_rows (destinations db).
Proof.
  unfold statistics_rows.
  change (left_join _ (left_join _ (left_join _ (destinations db)
                                      (flights db))
                         (pilot_assignments db)) (pilots db))
    with (left_join on_pilot
            (left_join on_assignment
               (left_join on_flight (destinations db) (flights db))
               (pilot_assignments db))
            (pilots db)).
  assert (E : left_join on_flight (destinations db) (flights db) =
              flat_map (fun d => left_join on_flight [d] (flights db))
                (destinations db)).
  { induction (destinations db) as [|d ds IH]; [reflexivity|].
    rewrite left_join_cons, IH. reflexivity. }
  rewrite E, !left_join_flat_map. reflexivity.
Qed.

Lemma destination_rows_key d row :
  In row (destination_rows d) -> fst (fst (fst row)) = d.
Proof.
  intros H. unfold destination_rows in H.
  do 2 apply left_join_fst in H.
  unfold left_join in H. cbn [flat_map] in H. rewrite app_nil_r in H.
  destruct (filter (on_flight d) (flights db)) as [|f fs].
  - destruct H as [<-|[]]. reflexivity.
  - apply in_map_iff in H as (x & <- & _). reflexivity.
Qed.

(** The last join gives one row for each row of the second. *)
Lemma pilot_join_one_each
    (l : list (destination * option flight * option assignment)) :
  length (filter counted (left_join on_pilot l (pilots db))) =
  length (filter counted2 l).
Proof.
  induction l as [|row l IH]; [reflexivity|].
  rewrite left_join_cons, filter_app, length_app, IH. clear IH.
  cbn [filter]. unfold left_join. cbn [flat_map]. rewrite app_nil_r.
  assert (Hone : length (filter (on_pilot row) (pilots db)) <= 1).
  { unfold on_pilot. destruct (snd row) as [pa|].
    - now apply pilot_matches_once.
    - rewrite filter_nothing; [cbn; lia|reflexivity]. }
  assert (Hc : forall x, counted (row, x) = counted2 row) by reflexivity.
  destruct (filter (on_pilot row) (pilots db)) as [|p [|q ps]];
    cbn [map filter length] in *; [| |lia];
    rewrite Hc; destruct (counted2 row); reflexivity.
Qed.

(** A flight gives one row of the second join for each assignment to it,
    and one row when it has none. *)
Lemma assignment_join_flight d f :
  length (filter counted2
            (left_join on_assignment [(d, Some f)] (pilot_assignments db)))
  = if keep f then Nat.max 1 (pilots_on db f) else 0.
Proof.
  unfold left_join. cbn [flat_map]. rewrite app_nil_r. unfold pilots_on.
  change (filter (on_assignment (d, Some f)) (pilot_assignments db))
    with (filter (fun pa => (f_flight_id f =? pa_flight_id pa)%Z)
            (pilot_assignments db)).
  destruct (filter _ (pilot_assignments db)) as [|pa pas].
  - cbn [filter]. unfold counted2. cbn [fst snd].
    destruct (keep f); reflexivity.
  - set (bs := pa :: pas).
    assert (E : forall bs : list assignment,
              length (filter counted2 (map (fun b => (d, Some f, Some b)) bs))
              = if keep f then length bs else 0).
    { clear. induction bs as [|b bs IH]; cbn [map filter length].
      - now destruct (keep f).
      - unfold counted2 at 1. cbn [fst snd].
        destruct (keep f); cbn [length]; now rewrite IH. }
    rewrite (E bs). destruct (keep f); [|reflexivity].
    unfold bs. cbn [length]. lia.
Qed.

Lemma assignment_join_flights d (fs : list flight) :
  length (filter counted2
            (left_join on_assignment (map (fun f => (d, Some f)) fs)
               (pilot_assignments db)))
  = list_sum (map (fun f => Nat.max 1 (pilots_on db f)) (filter keep fs)).
Proof.
  induction fs as [|f fs IH]; [reflexivity|].
  cbn [map]. rewrite left_join_cons, filter_app, length_app, IH.
  rewrite assignment_join_flight. cbn [filter].
  destruct (keep f); reflexivity.
Qed.

Lemma destination_rows_count d :
  length (filter counted (destination_rows d)) =
  list_sum (map (fun f => Nat.max 1 (pilots_on db f))
              (filter keep (flights_to db d))).
Proof.
  unfold destination_rows. rewrite pilot_join_one_each.
  unfold left_join at 2. cbn [flat_map]. rewrite app_nil_r.
  change (filter (on_flight d) (flights db)) with (flights_to db d).
  destruct (flights_to db d) as [|f fs] eqn:E.
  - unfold left_join. cbn [flat_map].
    rewrite (filter_nothing (on_assignment (d, None))); reflexivity.
  - apply assignment_join_flights.
Qed.

(** The counted rows of the group of a city and country. *)
Lemma group_count (place : string * string) :
  length (filter counted
            (filter (fun row => city_country_eqb (statistics_key row) place)
               (statistics_rows db))) =
  counted_per_pilot db keep place.
Proof.
  rewrite statistics_rows_by_destination.
  cbv delta [statistics_join].
  rewrite (filter_flat_map_key destination_rows _
             (fun d => city_country_eqb (d_city d, d_country d) place)).
  - rewrite length_filter_flat_map. unfold counted_per_pilot.
    rewrite list_sum_flat_map. f_equal. apply map_ext. intros d.
    apply destination_rows_count.
  - intros d row Hrow. unfold statistics_key.
    now rewrite (destination_rows_key d row Hrow).
Qed.

End Statistics.

(** X27.  In a state the program can bring about, each line of
    [get_destination_statistics] gives, for its city and country, the
    flights to the destinations of that city and country counted once
    for every pilot assigned to the flight, and once for a flight without
    pilots: "Total Flights" takes all those flights, "Delayed Flights"
    and "Cancelled Flights" those with that status.  A flight with two
    pilots is counted as two. *)
Theorem destination_statistics_count_per_pilot
    (db : database) (city country : string)
    (total unique_pilots delayed cancelled : nat) :
  reachable db ->
  In (city, country, total, unique_pilots, delayed, cancelled)
    (destination_statistics_query db) ->
  total = counted_per_pilot db (fun _ => true) (city, country) /\
  delayed =
    counted_per_pilot db (fun f => String.eqb (f_status f) "Delayed")
      (city, country) /\
  cancelled =
    counted_per_pilot db (fun f => String.eqb (f_status f) "Cancelled")
      (city, country).
Proof.
  intros Hr Hin.
  assert (Hp : NoDup (map p_pilot_id (pilots db)))
    by apply (reachable_primary_keys db Hr).
  unfold destination_statistics_query in Hin.
  apply (Permutation_in _ (order_by_desc_permutation _ _)) in Hin.
  apply in_map_iff in Hin as ([[c k] rows] & E & Hin).
  apply (in_group_by city_country_eqb city_country_eqb_eq) in Hin
    as [_ ->].
  injection E as -> -> <- _ <- <-.
  repeat split.
  - apply (group_count db Hp (fun _ => true)).
  - apply (group_count db Hp (fun f => String.eqb (f_status f) "Delayed")).
  - apply (group_count db Hp
             (fun f => String.eqb (f_status f) "Cancelled")).
Qed.

(** Flight BA101 of the sample data, to Tokyo, has two pilots and is the
    only flight to Tokyo. *)
Lemma destination_statistics_count_per_pilot_witness :
  2 = counted_per_pilot sample_database (fun _ => true) ("Tokyo", "Japan")
  /\
  0 = counted_per_pilot sample_database
        (fun f => String.eqb (f_status f) "Delayed") ("Tokyo", "Japan") /\
  0 = counted_per_pilot sample_database
        (fun f => String.eqb (f_status f) "Cancelled") ("Tokyo", "Japan").
Proof.
  apply (destination_statistics_count_per_pilot sample_database
           "Tokyo" "Japan" 2 2 0 0).
  - apply reachable_turn, reachable_empty.
  - vm_compute. tauto.
Defined.

Section DistinctBlocks.

Context {K : Type}.
Variable eqb : K -> K -> bool.
Hypothesis eqb_eq : forall x y, eqb x y = true <-> x = y.

Lemma filter_same_twice {A} (p : A -> bool) (l : list A) :
  filter p (filter p l) = filter p l.
Proof.
  apply filter_everything. intros x Hx. now apply filter_In in Hx.
Qed.

(** A run of one key counts as one occurrence of it. *)
Lemma distinct_repeated x block rest :
  block <> [] -> (forall y, In y block -> y = x) ->
  distinct eqb (block ++ rest) = distinct eqb (x :: rest).
Proof.
  induction block as [|y block IH]; intros Hsome Hall; [contradiction|].
  rewrite (Hall y (or_introl eq_refl)).
  destruct block as [|z block]; [reflexivity|].
  cbn [app distinct] in *.
  rewrite IH; [|discriminate|intros u Hu; apply Hall; now right].
  cbn [filter]. rewrite (proj2 (eqb_eq x x) eq_refl). cbn [negb].
  now rewrite filter_same_twice.
Qed.

Lemma distinct_flat_map_keys {A R} (rows : A -> list R) (key : R -> K)
    (k : A -> K) (l : list A) :
  (forall a r, In r (rows a) -> key r = k a) ->
  (forall a, rows a <> []) ->
  distinct eqb (map key (flat_map rows l)) = distinct eqb (map k l).
Proof.
  intros Hkey Hsome. induction l as [|a l IH]; cbn [flat_map map];
    [reflexivity|].
  rewrite map_app, (distinct_repeated (k a)).
  - cbn [distinct]. now rewrite IH.
  - intros E. apply map_eq_nil in E. now apply (Hsome a).
  - intros y Hy. apply in_map_iff in Hy as (r & <- & Hr).
    now apply Hkey.
Qed.

End DistinctBlocks.

(** X28.  [get_destination_statistics] has one line for each city and
    country among the destinations, whether a flight goes there or not,
    and no other line: two destinations with the same city and country
    share a line. *)
Theorem destination_statistics_line_per_place (db : database) :
  Permutation
    (map statistics_place (destination_statistics_query db))
    (distinct city_country_eqb
       (map (fun d => (d_city d, d_country d)) (destinations db))).
Proof.
  unfold destination_statistics_query.
  rewrite order_by_desc_permutation, map_map.
  rewrite (map_ext _ fst) by (now intros [[city country] rows]).
  rewrite (group_by_keys city_country_eqb).
  apply Permutation_refl'.
  unfold statistics_rows.
  set (on3 := fun (row : destination * option flight * option assignment)
                  (p : pilot) => _).
  set (on2 := fun (row : destination * option flight) (pa : assignment) =>
                _).
  set (on1 := fun (d : destination) (f : flight) => _).
  assert (E : left_join on1 (destinations db) (flights db) =
              flat_map (fun d => left_join on1 [d] (flights db))
                (destinations db)).
  { induction (destinations db) as [|d ds IH]; [reflexivity|].
    rewrite left_join_cons, IH. reflexivity. }
  rewrite E, !left_join_flat_map.
  apply (distinct_flat_map_keys city_country_eqb city_country_eqb_eq).
  - intros d row Hrow. do 2 apply left_join_fst in Hrow.
    unfold left_join in Hrow. cbn [flat_map] in Hrow.
    rewrite app_nil_r in Hrow. unfold statistics_key.
    destruct (filter (on1 d) (flights db)) as [|f fs].
    + destruct Hrow as [<-|[]]. reflexivity.
    + apply in_map_iff in Hrow as (x & <- & _). reflexivity.
  - intros d. do 2 apply left_join_some.
    unfold left_join. cbn [flat_map].
    destruct (filter (on1 d) (flights db)); discriminate.
Qed.
